(** * Marquette: the annotation editing engine

    A shallow embedding of the editing core of [marquette.py] (and of its
    earlier variant [p4.py]): the box model, the pixel geometry of create,
    move and resize, the command-based undo stack, the font mapping and the
    save loop that turns boxes into free-text annotations.

    Modelling conventions.
    - Python [int] is [Z]; pixel coordinates are small, so Qt's 32-bit [int]
      never wraps and is [Z] as well.
    - Python [str] is [string]: a sequence of code points below 256.
    - Python [float] (the zoom factor and the document-space coordinates)
      is [Q].  The rectangles the theorems evaluate are divided by a zoom
      that is a power of two, which is exact in binary floating point; of
      other zooms the theorems state bounds and the code's own
      expressions.
    - A [QFont] is its family name; nothing else of it is read.
    - Widgets are Python objects compared by identity: a widget is its
      position in the heap [widgets] of the page view, and a fresh widget
      is appended to that heap.
    - The closures handed to [Command] are defunctionalised: one
      constructor per [def do()/def undo()] pair, holding the captured
      variables.
    - The window is shown and active, so that [setFocus()] moves the
      keyboard focus at once and the line edit that loses it emits
      [editingFinished] before [setFocus()] returns.  Which line edit
      holds the focus is part of the state.  Hiding a box is modelled by
      its visibility alone: where Qt takes the focus off a hidden line
      edit, that is a later move of the focus in the session. *)

From Stdlib Require Import ZArith QArith Qround Lqa String Ascii.
From stdpp Require Import base tactics list numbers strings.
Close Scope Q_scope.
Open Scope Z_scope.

(** ** Python strings *)

(** [str.lower()] on code points below 256: A-Z and the Latin-1 capitals. *)
Definition lower_char (c : ascii) : ascii :=
  let n := N_of_ascii c in
  if ((65 <=? n) && (n <=? 90))%N then ascii_of_N (n + 32)
  else if ((192 <=? n) && (n <=? 222) && negb (n =? 215))%N then ascii_of_N (n + 32)
  else c.

Fixpoint lower (s : string) : string :=
  match s with
  | EmptyString => EmptyString
  | String c t => String (lower_char c) (lower t)
  end.

(** [str.isspace()] on code points below 256. *)
Definition is_space (c : ascii) : bool :=
  let n := N_of_ascii c in
  (((9 <=? n) && (n <=? 13)) || ((28 <=? n) && (n <=? 32)) || (n =? 133) || (n =? 160))%N.

Fixpoint lstrip (s : string) : string :=
  match s with
  | EmptyString => EmptyString
  | String c t => if is_space c then lstrip t else s
  end.

Fixpoint rstrip (s : string) : string :=
  match s with
  | EmptyString => EmptyString
  | String c t =>
      match rstrip t with
      | EmptyString => if is_space c then EmptyString else String c EmptyString
      | t' => String c t'
      end
  end.

(** [s.strip()] *)
Definition strip (s : string) : string := rstrip (lstrip s).

(** [s.startswith(p)] *)
Fixpoint startswith (p s : string) : bool :=
  match p, s with
  | EmptyString, _ => true
  | String _ _, EmptyString => false
  | String a p', String b s' => Ascii.eqb a b && startswith p' s'
  end.

(** [k in s] for strings: [k] occurs in [s] as a contiguous substring. *)
Fixpoint str_in (k s : string) : bool :=
  startswith k s ||
  match s with
  | EmptyString => false
  | String _ t => str_in k t
  end.

(** [any(k in fam for k in keys)] *)
Definition any_in (keys : list string) (fam : string) : bool :=
  existsb (fun k => str_in k fam) keys.

(** ** Font mapping *)

(** [qfont_to_pdf_basefont], the same in both source files.  The argument
    is [qfont.family()]; [or ""] changes nothing on a string. *)
Definition qfont_to_pdf_basefont (family : string) : string :=
  let fam := lower family in
  if any_in ["courier"; "consolas"; "mono"; "dejavu sans mono"; "liberation mono"] fam
  then "cour"
  else if any_in ["times"; "serif"; "dejavu serif"; "liberation serif"] fam
  then "tiro"
  else "helv".

(** The mapping as the specification words it: three portable identifiers,
    chosen by three and two keywords. *)
Inductive PortableFont := Monospace | Serif | SansSerif.

Definition spec_font_class (family : string) : PortableFont :=
  let fam := lower family in
  if any_in ["courier"; "consolas"; "mono"] fam then Monospace
  else if any_in ["times"; "serif"] fam then Serif
  else SansSerif.

(** The base-14 names the code emits for the three identifiers:
    Courier, Times and Helvetica. *)
Definition basefont_of (p : PortableFont) : string :=
  match p with
  | Monospace => "cour"
  | Serif => "tiro"
  | SansSerif => "helv"
  end.

(** ** Qt geometry *)

Record QPoint := { px : Z; py : Z }.

(** [QRect] as Qt stores it: the two corner pixels, both inclusive.  Hence
    [width() = x2 - x1 + 1] and, as Qt documents, [right()] and [bottom()]
    are [x() + width() - 1] and [y() + height() - 1]. *)
Module QRect.
Record t := mk { x1 : Z; y1 : Z; x2 : Z; y2 : Z }.

(** [QRect(x, y, w, h)] *)
Definition xywh (x y w h : Z) : t :=
  {| x1 := x; y1 := y; x2 := x + w - 1; y2 := y + h - 1 |}.

(** [QRect(topLeft, bottomRight)] *)
Definition corners (p q : QPoint) : t :=
  {| x1 := px p; y1 := py p; x2 := px q; y2 := py q |}.

Definition x (r : t) : Z := x1 r.
Definition y (r : t) : Z := y1 r.
Definition left (r : t) : Z := x1 r.
Definition top (r : t) : Z := y1 r.
Definition right (r : t) : Z := x2 r.
Definition bottom (r : t) : Z := y2 r.
Definition width (r : t) : Z := x2 r - x1 r + 1.
Definition height (r : t) : Z := y2 r - y1 r + 1.

(** [normalized()]: a negative width (height) swaps the two corners,
    which turn from exclusive into inclusive. *)
Definition normalized (r : t) : t :=
  let '(a1, a2) := if x2 r <? x1 r - 1 then (x2 r + 1, x1 r - 1) else (x1 r, x2 r) in
  let '(b1, b2) := if y2 r <? y1 r - 1 then (y2 r + 1, y1 r - 1) else (y1 r, y2 r) in
  {| x1 := a1; y1 := b1; x2 := a2; y2 := b2 |}.

(** [move(p)]: new top-left corner, same size. *)
Definition moved (p : QPoint) (r : t) : t := xywh (px p) (py p) (width r) (height r).
End QRect.

(** [fitz.Rect(x0, y0, x1, y1)] in document points. *)
Record fitz_Rect := { fx0 : Q; fy0 : Q; fx1 : Q; fy1 : Q }.

(** Equality of document rectangles as numbers. *)
Definition fitz_Rect_eq (a b : fitz_Rect) : Prop :=
  (fx0 a == fx0 b)%Q /\ (fy0 a == fy0 b)%Q /\ (fx1 a == fx1 b)%Q /\ (fy1 a == fy1 b)%Q.

(** ** Data model *)

Record BoxModel := {
  page_index : Z;
  rect_px : QRect.t;
  text : string;
  qfont : string;
  fontsize_pt : Z
}.

(** ** Undo/redo *)

(** Widgets are referred to by identity. *)
Abbreviation WidgetId := nat.

(** The four closure pairs passed to [Command(do, undo, name)], with the
    variables each pair captures.  The [Change Font] closures capture no
    box: they read [self.selected] when they run. *)
Inductive Command :=
| AddBox (box : WidgetId)
| UpdateBox (box : WidgetId) (before after : BoxModel)
| ChangeFont (before after : BoxModel)
| DeleteBox (box : WidgetId) (idx : nat) (before_model : BoxModel).

Definition command_name (c : Command) : string :=
  match c with
  | AddBox _ => "Add Box"
  | UpdateBox _ _ _ => "Update Box"
  | ChangeFont _ _ => "Change Font"
  | DeleteBox _ _ _ => "Delete Box"
  end.

(** ** Widgets *)

(** What the engine reads of a [TextBoxWidget]: its model, its geometry in
    the page view, the text of its line edit and whether it is shown. *)
Record TextBoxWidget := {
  model : BoxModel;
  geometry : QRect.t;
  edit_text : string;
  visible : bool
}.

Definition MIN_W : Z := 60.
Definition MIN_H : Z := 28.

(** [TextBoxWidget.__init__] followed by [box.setVisible(True)]. *)
Definition new_widget (m : BoxModel) : TextBoxWidget :=
  {| model := m; geometry := rect_px m; edit_text := text m; visible := true |}.

(** [TextBoxWidget.set_model] *)
Definition widget_set_model (m : BoxModel) (w : TextBoxWidget) : TextBoxWidget :=
  {| model := m; geometry := rect_px m; edit_text := text m; visible := visible w |}.

Definition widget_set_visible (v : bool) (w : TextBoxWidget) : TextBoxWidget :=
  {| model := model w; geometry := geometry w; edit_text := edit_text w; visible := v |}.

Definition widget_set_geometry (g : QRect.t) (w : TextBoxWidget) : TextBoxWidget :=
  {| model := model w; geometry := g; edit_text := edit_text w; visible := visible w |}.

Definition widget_set_text (t : string) (w : TextBoxWidget) : TextBoxWidget :=
  {| model := model w; geometry := geometry w; edit_text := t; visible := visible w |}.

(** [self.model = after], the assignment made before a change is committed. *)
Definition widget_assign_model (m : BoxModel) (w : TextBoxWidget) : TextBoxWidget :=
  {| model := m; geometry := geometry w; edit_text := edit_text w; visible := visible w |}.

(** ** The page view *)

(** [PageView]: the rendered page, the current font settings, the box
    collection [boxes] (z-order), the selection and the [UndoStack].  The
    two stacks are kept with their top at the head: [append] is a cons and
    [pop] takes the head.

    [focus] is Qt's part of the state that [box.edit.setFocus()] acts on:
    the box whose line edit holds the keyboard focus in the shown window,
    [None] when the focus is on no line edit. *)
Record PageView := {
  pv_page_index : Z;
  zoom : Q;
  image_w_px : Z;
  image_h_px : Z;
  current_qfont : string;
  current_fontsize : Z;
  widgets : list TextBoxWidget;
  boxes : list WidgetId;
  selected : option WidgetId;
  focus : option WidgetId;
  undo_stack : list Command;
  redo_stack : list Command
}.

Definition default_click_w : Z := 360.
Definition default_click_h : Z := 30.

(** [PageView.__init__] *)
Definition PageView_init : PageView :=
  {| pv_page_index := 0; zoom := 2 # 1; image_w_px := 0; image_h_px := 0;
     current_qfont := "Arial"; current_fontsize := 12;
     widgets := []; boxes := []; selected := None; focus := None;
     undo_stack := []; redo_stack := [] |}.

Definition with_widgets (ws : list TextBoxWidget) (s : PageView) : PageView :=
  {| pv_page_index := pv_page_index s; zoom := zoom s;
     image_w_px := image_w_px s; image_h_px := image_h_px s;
     current_qfont := current_qfont s; current_fontsize := current_fontsize s;
     widgets := ws; boxes := boxes s; selected := selected s; focus := focus s;
     undo_stack := undo_stack s; redo_stack := redo_stack s |}.

Definition with_boxes (bs : list WidgetId) (s : PageView) : PageView :=
  {| pv_page_index := pv_page_index s; zoom := zoom s;
     image_w_px := image_w_px s; image_h_px := image_h_px s;
     current_qfont := current_qfont s; current_fontsize := current_fontsize s;
     widgets := widgets s; boxes := bs; selected := selected s; focus := focus s;
     undo_stack := undo_stack s; redo_stack := redo_stack s |}.

Definition with_selected (o : option WidgetId) (s : PageView) : PageView :=
  {| pv_page_index := pv_page_index s; zoom := zoom s;
     image_w_px := image_w_px s; image_h_px := image_h_px s;
     current_qfont := current_qfont s; current_fontsize := current_fontsize s;
     widgets := widgets s; boxes := boxes s; selected := o; focus := focus s;
     undo_stack := undo_stack s; redo_stack := redo_stack s |}.

Definition with_focus (o : option WidgetId) (s : PageView) : PageView :=
  {| pv_page_index := pv_page_index s; zoom := zoom s;
     image_w_px := image_w_px s; image_h_px := image_h_px s;
     current_qfont := current_qfont s; current_fontsize := current_fontsize s;
     widgets := widgets s; boxes := boxes s; selected := selected s; focus := o;
     undo_stack := undo_stack s; redo_stack := redo_stack s |}.

Definition with_stacks (u r : list Command) (s : PageView) : PageView :=
  {| pv_page_index := pv_page_index s; zoom := zoom s;
     image_w_px := image_w_px s; image_h_px := image_h_px s;
     current_qfont := current_qfont s; current_fontsize := current_fontsize s;
     widgets := widgets s; boxes := boxes s; selected := selected s; focus := focus s;
     undo_stack := u; redo_stack := r |}.

Definition with_font (f : string) (sz : Z) (s : PageView) : PageView :=
  {| pv_page_index := pv_page_index s; zoom := zoom s;
     image_w_px := image_w_px s; image_h_px := image_h_px s;
     current_qfont := f; current_fontsize := sz;
     widgets := widgets s; boxes := boxes s; selected := selected s; focus := focus s;
     undo_stack := undo_stack s; redo_stack := redo_stack s |}.

(** A call either returns or raises; the state reached is kept in both
    cases, since what a handler did before it raised stays done. *)
Inductive outcome :=
| Done (s : PageView)
| Raised (s : PageView).

Definition bind (o : outcome) (k : PageView -> outcome) : outcome :=
  match o with
  | Done s => k s
  | Raised s => Raised s
  end.

Definition state_of (o : outcome) : PageView :=
  match o with Done s | Raised s => s end.

(** *** Python list operations on the collection *)

(** [box in self.boxes] *)
Definition py_in (b : WidgetId) (l : list WidgetId) : bool := bool_decide (b ∈ l).

(** [l.remove(b)], called only when [b in l]: drops the first occurrence. *)
Fixpoint py_remove (b : WidgetId) (l : list WidgetId) : list WidgetId :=
  match l with
  | [] => []
  | a :: t => if decide (a = b) then t else a :: py_remove b t
  end.

(** [l.index(b)], called only when [b in l]: the first position of [b]. *)
Fixpoint py_index (b : WidgetId) (l : list WidgetId) : nat :=
  match l with
  | [] => 0%nat
  | a :: t => if decide (a = b) then 0%nat else S (py_index b t)
  end.

(** [l.insert(idx, b)] for [idx >= 0]: past the end it appends. *)
Definition py_insert (idx : nat) (b : WidgetId) (l : list WidgetId) : list WidgetId :=
  take idx l ++ b :: drop idx l.

(** *** Methods reaching a widget through the page view *)

Definition set_model (b : WidgetId) (m : BoxModel) (s : PageView) : PageView :=
  with_widgets (alter (widget_set_model m) b (widgets s)) s.

Definition set_visible (b : WidgetId) (v : bool) (s : PageView) : PageView :=
  with_widgets (alter (widget_set_visible v) b (widgets s)) s.

(** [if self.selected == box: self.selected = None] *)
Definition deselect (b : WidgetId) (s : PageView) : PageView :=
  if decide (selected s = Some b) then with_selected None s else s.

(** [if box in self.boxes: self.boxes.remove(box)] *)
Definition remove_box (b : WidgetId) (s : PageView) : PageView :=
  if py_in b (boxes s) then with_boxes (py_remove b (boxes s)) s else s.

(** *** The closures of the commands *)

(** [def do()] of [_on_change_commit] *)
Definition UpdateBox_do (box : WidgetId) (after : BoxModel) (s : PageView) : outcome :=
  Done (set_model box after s).

(** [def do()] of [set_font_settings]: [self.selected] is read when the
    closure runs, and [None] has no [set_model]. *)
Definition ChangeFont_do (after : BoxModel) (s : PageView) : outcome :=
  match selected s with
  | Some sel => Done (set_model sel after s)
  | None => Raised s
  end.

(** [def do()] of [_request_delete] *)
Definition DeleteBox_do (box : WidgetId) (s : PageView) : outcome :=
  Done (deselect box (set_visible box false (remove_box box s))).

(** [cmd.undo()]: the body of each [def undo()]. *)
Definition cmd_undo (c : Command) (s : PageView) : outcome :=
  match c with
  | AddBox box => Done (deselect box (set_visible box false (remove_box box s)))
  | UpdateBox box before _ => Done (set_model box before s)
  | ChangeFont before _ =>
      match selected s with
      | Some sel => Done (set_model sel before s)
      | None => Raised s
      end
  | DeleteBox box idx before_model =>
      Done (set_visible box true
              (set_model box before_model (with_boxes (py_insert idx box (boxes s)) s)))
  end.

(** [UndoStack.push_and_do(cmd)].  The argument is the [Command] object a
    handler has just built: [do_] is its [do] closure and [cmd] the record
    of it that goes on the stack. *)
Definition push_and_do (do_ : PageView -> outcome) (cmd : Command) (s : PageView) : outcome :=
  bind (do_ s) (fun s1 => Done (with_stacks (cmd :: undo_stack s1) [] s1)).

(** *** Callbacks and event handlers *)

(** [PageView._on_selected] *)
Definition _on_selected (box : WidgetId) (s : PageView) : PageView :=
  with_selected (Some box) s.

(** The user types in the line edit of a box: [edit.text()] changes, nothing
    is committed. *)
Definition type_text (box : WidgetId) (t : string) (s : PageView) : PageView :=
  with_widgets (alter (widget_set_text t) box (widgets s)) s.

(** [PageView._on_change_commit] *)
Definition _on_change_commit (box : WidgetId) (before after : BoxModel) (s : PageView) : outcome :=
  push_and_do (UpdateBox_do box after) (UpdateBox box before after) s.

(** [PageView._request_delete] *)
Definition _request_delete (box : WidgetId) (s : PageView) : outcome :=
  if negb (py_in box (boxes s)) then Done s
  else
    match widgets s !! box with
    | None => Done s
    | Some w =>
        let idx := py_index box (boxes s) in
        let before_model := model w in
        push_and_do (DeleteBox_do box) (DeleteBox box idx before_model) s
    end.

(** [TextBoxWidget._on_editing_finished], with the two callbacks bound as
    [PageView._create_box] binds them. *)
Definition _on_editing_finished (box : WidgetId) (s : PageView) : outcome :=
  match widgets s !! box with
  | None => Done s
  | Some w =>
      let txt := strip (edit_text w) in
      if String.eqb txt "" then _request_delete box s
      else if negb (String.eqb txt (text (model w))) then
        let before := model w in
        let after :=
          {| page_index := page_index (model w);
             rect_px := geometry w;
             text := txt;
             qfont := qfont (model w);
             fontsize_pt := fontsize_pt (model w) |} in
        _on_change_commit box before after
          (with_widgets (alter (widget_assign_model after) box (widgets s)) s)
      else Done s
  end.

(** The keyboard focus moves to the line edit of [o] (to no line edit for
    [None]).  The line edit that loses it emits [editingFinished], which
    [TextBoxWidget.__init__] connects to [_on_editing_finished]; the slot
    runs at once, with the focus already moved. *)
Definition focus_moves (o : option WidgetId) (s : PageView) : outcome :=
  match focus s with
  | Some prev =>
      if decide (o = Some prev) then Done s
      else _on_editing_finished prev (with_focus o s)
  | None => Done (with_focus o s)
  end.

(** [box.edit.setFocus()] *)
Definition edit_setFocus (box : WidgetId) (s : PageView) : outcome :=
  focus_moves (Some box) s.

(** [def do()] of [_create_box] and of [add_box_at_click]: append, show,
    select, then [box.edit.setFocus()] ([setCursorPosition(0)] changes
    nothing the engine reads).  Whatever the losing line edit commits is
    pushed from inside this [do]. *)
Definition AddBox_do (box : WidgetId) (s : PageView) : outcome :=
  let s := with_boxes (boxes s ++ [box]) s in
  let s := set_visible box true s in
  let s := with_selected (Some box) s in
  edit_setFocus box s.

(** [cmd.do()] for a command taken from a stack: the [do] closure it was
    built with. *)
Definition cmd_do (c : Command) (s : PageView) : outcome :=
  match c with
  | AddBox box => AddBox_do box s
  | UpdateBox box _ after => UpdateBox_do box after s
  | ChangeFont _ after => ChangeFont_do after s
  | DeleteBox box _ _ => DeleteBox_do box s
  end.

(** [UndoStack.undo] *)
Definition undo (s : PageView) : outcome :=
  match undo_stack s with
  | [] => Done s
  | c :: rest =>
      bind (cmd_undo c (with_stacks rest (redo_stack s) s))
           (fun s1 => Done (with_stacks (undo_stack s1) (c :: redo_stack s1) s1))
  end.

(** [UndoStack.redo] *)
Definition redo (s : PageView) : outcome :=
  match redo_stack s with
  | [] => Done s
  | c :: rest =>
      bind (cmd_do c (with_stacks (undo_stack s) rest s))
           (fun s1 => Done (with_stacks (c :: undo_stack s1) (redo_stack s1) s1))
  end.

(** [undo()] called [n] times; a call that raises ends the run. *)
Fixpoint undo_times (n : nat) (s : PageView) : outcome :=
  match n with
  | O => Done s
  | S k => bind (undo s) (undo_times k)
  end.

(** [TextBoxWidget._commit_geom_change] *)
Definition _commit_geom_change (box : WidgetId) (s : PageView) : outcome :=
  match widgets s !! box with
  | None => Done s
  | Some w =>
      let before := model w in
      let after :=
        {| page_index := page_index (model w);
           rect_px := geometry w;
           text := edit_text w;
           qfont := qfont (model w);
           fontsize_pt := fontsize_pt (model w) |} in
      _on_change_commit box before after
        (with_widgets (alter (widget_assign_model after) box (widgets s)) s)
  end.

(** [TextBoxWidget.mouseMoveEvent] while [_resizing]: [_start_geom] is the
    geometry at the press and [delta] the pointer's displacement since.
    The parent is the page view, whose size is the rendered page's. *)
Definition mouseMoveEvent_resizing
    (box : WidgetId) (_start_geom : QRect.t) (delta : QPoint) (s : PageView) : PageView :=
  let new_w := Z.max MIN_W (QRect.width _start_geom + px delta) in
  let new_h := Z.max MIN_H (QRect.height _start_geom + py delta) in
  let max_w := image_w_px s - QRect.x _start_geom in
  let max_h := image_h_px s - QRect.y _start_geom in
  let new_w := Z.min new_w max_w in
  let new_h := Z.min new_h max_h in
  with_widgets
    (alter (widget_set_geometry
              (QRect.xywh (QRect.x _start_geom) (QRect.y _start_geom) new_w new_h))
           box (widgets s)) s.

(** [TextBoxWidget.mouseMoveEvent] while [_moving] ([marquette.py] only):
    [_start_pos] is the position at the press. *)
Definition mouseMoveEvent_moving
    (box : WidgetId) (_start_pos : QPoint) (delta : QPoint) (s : PageView) : PageView :=
  match widgets s !! box with
  | None => s
  | Some w =>
      let new_pos := {| px := px _start_pos + px delta; py := py _start_pos + py delta |} in
      let new_x := Z.max 0 (Z.min (px new_pos) (image_w_px s - QRect.width (geometry w))) in
      let new_y := Z.max 0 (Z.min (py new_pos) (image_h_px s - QRect.height (geometry w))) in
      let new_pos := {| px := new_x; py := new_y |} in
      with_widgets
        (alter (widget_set_geometry (QRect.moved new_pos (geometry w))) box (widgets s)) s
  end.

(** A resize gesture on a box: [mousePressEvent] on the handle selects the
    box and records its geometry; every [mouseMoveEvent] until the release
    resizes from that geometry, [moves] being the pointer's displacements
    from the press point, in order; [mouseReleaseEvent] commits the
    geometry reached, which is the one at the press if the pointer never
    moved. *)
Definition resize_gesture (box : WidgetId) (moves : list QPoint) (s : PageView) : outcome :=
  match widgets s !! box with
  | None => Done s
  | Some w =>
      let s := _on_selected box s in
      let _start_geom := geometry w in
      let s := foldl (fun s delta => mouseMoveEvent_resizing box _start_geom delta s) s moves in
      _commit_geom_change box s
  end.

(** A move gesture: [mousePressEvent] on the border selects the box and
    records its position, the [mouseMoveEvent]s move it, the release
    commits. *)
Definition move_gesture (box : WidgetId) (moves : list QPoint) (s : PageView) : outcome :=
  match widgets s !! box with
  | None => Done s
  | Some w =>
      let s := _on_selected box s in
      let _start_pos := {| px := QRect.x (geometry w); py := QRect.y (geometry w) |} in
      let s := foldl (fun s delta => mouseMoveEvent_moving box _start_pos delta s) s moves in
      _commit_geom_change box s
  end.

(** [PageView.set_font_settings] *)
Definition set_font_settings (qf : string) (fontsize : Z) (s : PageView) : outcome :=
  let s := with_font qf fontsize s in
  match selected s with
  | None => Done s
  | Some sel =>
      match widgets s !! sel with
      | None => Done s
      | Some w =>
          let before := model w in
          let after :=
            {| page_index := page_index (model w);
               rect_px := geometry w;
               text := edit_text w;
               qfont := current_qfont s;
               fontsize_pt := current_fontsize s |} in
          push_and_do (ChangeFont_do after) (ChangeFont before after) s
      end
  end.

(** [PageView.set_rendered_page]: [w] and [h] are the pixmap's size. *)
Definition set_rendered_page (w h : Z) (page : Z) (z : Q) (s : PageView) : PageView :=
  {| pv_page_index := page; zoom := z; image_w_px := w; image_h_px := h;
     current_qfont := current_qfont s; current_fontsize := current_fontsize s;
     widgets :=
       imap (fun i wd =>
               if py_in i (boxes s)
               then widget_set_visible (bool_decide (page_index (model wd) = page)) wd
               else wd) (widgets s);
     boxes := boxes s; selected := selected s; focus := focus s;
     undo_stack := undo_stack s; redo_stack := redo_stack s |}.

(** [PageView.px_rect_to_pdf_rect] *)
Definition px_rect_to_pdf_rect (s : PageView) (r : QRect.t) : fitz_Rect :=
  let x0 := (inject_Z (QRect.left r) / zoom s)%Q in
  let y0 := (inject_Z (QRect.top r) / zoom s)%Q in
  let x1 := (inject_Z (QRect.right r) / zoom s)%Q in
  let y1 := (inject_Z (QRect.bottom r) / zoom s)%Q in
  {| fx0 := x0; fy0 := y0; fx1 := x1; fy1 := y1 |}.

(** The rectangle [PageView._create_box] settles on, or [None] where it
    returns without creating a box. *)
Definition _create_box_rect (rect : QRect.t) (treat_as_drag_rect : bool) (s : PageView)
  : option QRect.t :=
  if treat_as_drag_rect then
    let r := QRect.normalized rect in
    if (QRect.width r <? 40) && (QRect.height r <? 20) then
      let x := QRect.x r in
      let y := QRect.y r - (default_click_h `div` 2) in
      let y := Z.max 0 (Z.min y (image_h_px s - default_click_h)) in
      let max_w := image_w_px s - x in
      let w := Z.min default_click_w max_w in
      if w <? 40 then None
      else Some (QRect.xywh x y w default_click_h)
    else
      let x0 := Z.max 0 (Z.min (QRect.left r) (image_w_px s - 1)) in
      let y0 := Z.max 0 (Z.min (QRect.top r) (image_h_px s - 1)) in
      let x1 := Z.max 0 (Z.min (QRect.right r) (image_w_px s - 1)) in
      let y1 := Z.max 0 (Z.min (QRect.bottom r) (image_h_px s - 1)) in
      let r := QRect.normalized
                 (QRect.corners {| px := x0; py := y0 |} {| px := x1; py := y1 |}) in
      let w := Z.max MIN_W (QRect.width r) in
      let h := Z.max MIN_H (QRect.height r) in
      let w := Z.min w (image_w_px s - QRect.x r) in
      let h := Z.min h (image_h_px s - QRect.y r) in
      Some (QRect.xywh (QRect.x r) (QRect.y r) w h)
  else Some rect.

(** The tail shared by [_create_box] and [add_box_at_click]: build the
    model and the widget, push the [Add Box] command. *)
Definition add_box (r : QRect.t) (s : PageView) : outcome :=
  let m :=
    {| page_index := pv_page_index s;
       rect_px := r;
       text := "";
       qfont := current_qfont s;
       fontsize_pt := current_fontsize s |} in
  let box : WidgetId := length (widgets s) in
  push_and_do (AddBox_do box) (AddBox box) (with_widgets (widgets s ++ [new_widget m]) s).

(** [PageView._create_box] ([marquette.py]) *)
Definition _create_box (rect : QRect.t) (treat_as_drag_rect : bool) (s : PageView) : outcome :=
  match _create_box_rect rect treat_as_drag_rect s with
  | None => Done s
  | Some r => add_box r s
  end.

(** [PageView.mouseReleaseEvent] ending a rubber-band drag from
    [_drag_start] to [end]; a plain click has both points equal. *)
Definition mouseReleaseEvent (_drag_start end_ : QPoint) (s : PageView) : outcome :=
  _create_box (QRect.corners _drag_start end_) true s.

(** [PageView.spawn_default_box_left_middle] *)
Definition spawn_default_box_left_middle (s : PageView) : outcome :=
  if (image_w_px s <=? 0) || (image_h_px s <=? 0) then Done s
  else
    let x := 30 in
    let y := Z.max 0 ((image_h_px s `div` 2) - (default_click_h `div` 2)) in
    let w := Z.min default_click_w (image_w_px s - x) in
    let h := default_click_h in
    if w <? 80 then Done s
    else _create_box (QRect.xywh x y w h) false s.

(** The rectangle [PageView.add_box_at_click] of [p4.py] settles on. *)
Definition add_box_at_click_rect (click_pos : QPoint) (s : PageView) : option QRect.t :=
  let x := px click_pos in
  let y := py click_pos - (default_click_h `div` 2) in
  let y := Z.max 0 (Z.min y (image_h_px s - default_click_h)) in
  let max_w := image_w_px s - x in
  let w := Z.min default_click_w max_w in
  if w <? 40 then None
  else Some (QRect.xywh x y w default_click_h).

(** [PageView.add_box_at_click] ([p4.py]; its [default_box_w] and
    [default_box_h] are the same 360 and 30). *)
Definition add_box_at_click (click_pos : QPoint) (s : PageView) : outcome :=
  match add_box_at_click_rect click_pos s with
  | None => Done s
  | Some r => add_box r s
  end.

(** *** Edit operations *)

(** The operations of the interaction layer that end in a [Command]. *)
Inductive EditOp :=
| Create (rect : QRect.t)
| ClickCreate (click_pos : QPoint)
| Spawn
| Move (box : WidgetId) (moves : list QPoint)
| Resize (box : WidgetId) (moves : list QPoint)
| Retext (box : WidgetId) (typed : string)
| Restyle (qf : string) (fontsize : Z)
| Delete (box : WidgetId).

Definition run_op (op : EditOp) (s : PageView) : outcome :=
  match op with
  | Create rect => _create_box rect true s
  | ClickCreate p => add_box_at_click p s
  | Spawn => spawn_default_box_left_middle s
  | Move box moves => move_gesture box moves s
  | Resize box moves => resize_gesture box moves s
  | Retext box typed => _on_editing_finished box (type_text box typed s)
  | Restyle qf fontsize => set_font_settings qf fontsize s
  | Delete box => _request_delete box s
  end.

Fixpoint run_ops (ops : list EditOp) (s : PageView) : outcome :=
  match ops with
  | [] => Done s
  | op :: rest => bind (run_op op s) (run_ops rest)
  end.

(** The operations that create a box. *)
Definition is_create (op : EditOp) : bool :=
  match op with
  | Create _ | ClickCreate _ | Spawn => true
  | _ => false
  end.

(** The box collection as a reader sees it: the boxes in z-order, each with
    the fields of its model. *)
Definition collection (s : PageView) : list (WidgetId * option BoxModel) :=
  map (fun b => (b, model <$> widgets s !! b)) (boxes s).

(** The model of a widget, if the widget exists. *)
Definition model_of (s : PageView) (b : WidgetId) : option BoxModel :=
  model <$> widgets s !! b.

(** The widgets of the collection, in z-order: what [for box in
    self.page_view.boxes] iterates over. *)
Definition box_widgets (s : PageView) : list TextBoxWidget :=
  omap (fun b => widgets s !! b) (boxes s).

(** Well-formed page views: the collection holds distinct widgets that
    exist, and so does the selection. *)
Definition wf (s : PageView) : Prop :=
  NoDup (boxes s) /\
  (forall b, b ∈ boxes s -> (b < length (widgets s))%nat) /\
  (forall b, selected s = Some b -> (b < length (widgets s))%nat).

(** [wf] as a check that computes. *)
Definition wfb (s : PageView) : bool :=
  bool_decide (NoDup (boxes s)) &&
  forallb (fun b => bool_decide (b < length (widgets s))%nat) (boxes s) &&
  match selected s with
  | Some b => bool_decide (b < length (widgets s))%nat
  | None => true
  end.

(** ** Saving *)

(** The style calls [_style_freetext_plain] makes on an annotation. *)
Inductive StyleCall :=
| set_border | set_colors | set_opacity | set_default_appearance | update.

(** The document library, seen from the save loop: which of its calls raise.
    A style call is identified by the annotation it is made on (the number
    of annotations added before it) and by its kind. *)
Record DocLib := {
  open_raises : bool;
  load_page_raises : Z -> bool;
  add_freetext_annot_raises : Z -> fitz_Rect -> string -> bool;
  style_raises : nat -> StyleCall -> bool;
  saveIncr_raises : bool
}.

(** A free-text annotation and the styles set on it so far. *)
Record Annot := {
  annot_page : Z;
  annot_rect : fitz_Rect;
  annot_text : string;
  border_width : option Z;
  colors_cleared : bool;
  opacity : option Z;
  default_appearance : option (string * Z * (Z * Z * Z));
  updated : bool
}.

(** [page.add_freetext_annot(rect_pt, text)] *)
Definition add_freetext_annot (page : Z) (rect_pt : fitz_Rect) (t : string) : Annot :=
  {| annot_page := page; annot_rect := rect_pt; annot_text := t;
     border_width := None; colors_cleared := false; opacity := None;
     default_appearance := None; updated := false |}.

(** The style calls, as the library performs them when it accepts them. *)
Definition annot_set_border (width : Z) (a : Annot) : Annot :=
  {| annot_page := annot_page a; annot_rect := annot_rect a; annot_text := annot_text a;
     border_width := Some width; colors_cleared := colors_cleared a; opacity := opacity a;
     default_appearance := default_appearance a; updated := updated a |}.

(** [annot.set_colors(stroke=None, fill=None)] *)
Definition annot_set_colors_none (a : Annot) : Annot :=
  {| annot_page := annot_page a; annot_rect := annot_rect a; annot_text := annot_text a;
     border_width := border_width a; colors_cleared := true; opacity := opacity a;
     default_appearance := default_appearance a; updated := updated a |}.

Definition annot_set_opacity (o : Z) (a : Annot) : Annot :=
  {| annot_page := annot_page a; annot_rect := annot_rect a; annot_text := annot_text a;
     border_width := border_width a; colors_cleared := colors_cleared a; opacity := Some o;
     default_appearance := default_appearance a; updated := updated a |}.

Definition annot_set_default_appearance
    (fontname : string) (fontsize : Z) (text_color : Z * Z * Z) (a : Annot) : Annot :=
  {| annot_page := annot_page a; annot_rect := annot_rect a; annot_text := annot_text a;
     border_width := border_width a; colors_cleared := colors_cleared a; opacity := opacity a;
     default_appearance := Some (fontname, fontsize, text_color); updated := updated a |}.

Definition annot_update (a : Annot) : Annot :=
  {| annot_page := annot_page a; annot_rect := annot_rect a; annot_text := annot_text a;
     border_width := border_width a; colors_cleared := colors_cleared a; opacity := opacity a;
     default_appearance := default_appearance a; updated := true |}.

(** [try: annot.<call>(...)  except Exception: pass], where [call] does
    [f] unless the library raises. *)
Definition try_style (lib : DocLib) (k : nat) (c : StyleCall)
    (f : Annot -> Annot) (a : Annot) : Annot :=
  if style_raises lib k c then a else f a.

(** [MainWindow._style_freetext_plain]; [k] identifies the annotation. *)
Definition _style_freetext_plain (lib : DocLib) (k : nat)
    (annot : Annot) (qf : string) (fontsize : Z) : Annot :=
  let annot := try_style lib k set_border (annot_set_border 0) annot in
  let annot := try_style lib k set_colors annot_set_colors_none annot in
  let annot := try_style lib k set_opacity (annot_set_opacity 1) annot in
  let pdf_font := qfont_to_pdf_basefont qf in
  let annot :=
    try_style lib k set_default_appearance
      (annot_set_default_appearance pdf_font fontsize (0, 0, 0)) annot in
  let annot := try_style lib k update annot_update annot in
  annot.

(** The [for box in self.page_view.boxes] loop of [save_pdf]; [doc] holds
    the annotations added so far, [None] is an exception leaving the loop. *)
Fixpoint save_loop (lib : DocLib) (pv : PageView)
    (bs : list TextBoxWidget) (doc : list Annot) : option (list Annot) :=
  match bs with
  | [] => Some doc
  | box :: rest =>
      let t := strip (edit_text box) in
      if String.eqb t "" then save_loop lib pv rest doc
      else
        let m := model box in
        if load_page_raises lib (page_index m) then None
        else
          let rect_pt := px_rect_to_pdf_rect pv (rect_px m) in
          if add_freetext_annot_raises lib (page_index m) rect_pt t then None
          else
            let annot := add_freetext_annot (page_index m) rect_pt t in
            let annot := _style_freetext_plain lib (length doc) annot (qfont m) (fontsize_pt m) in
            save_loop lib pv rest (doc ++ [annot])
  end.

Inductive SaveResult :=
| NoPath
| Saved (annots : list Annot)
| SaveFailed.

(** [MainWindow.save_pdf]: [path] is [self._path], [pv] is
    [self.page_view]; [Saved] carries the annotations written by
    [doc.saveIncr()]. *)
Definition save_pdf (lib : DocLib) (path : option string) (pv : PageView) : SaveResult :=
  match path with
  | None => NoPath
  | Some _ =>
      if open_raises lib then SaveFailed
      else
        match save_loop lib pv (box_widgets pv) [] with
        | None => SaveFailed
        | Some doc => if saveIncr_raises lib then SaveFailed else Saved doc
        end
  end.

(** [if not text: continue] does not fire on this box. *)
Definition has_text (box : TextBoxWidget) : bool :=
  negb (String.eqb (strip (edit_text box)) "").

(** The page, rectangle and text [save_pdf] hands to
    [add_freetext_annot] for a box. *)
Definition annot_args (pv : PageView) (box : TextBoxWidget) : Z * fitz_Rect * string :=
  (page_index (model box),
   px_rect_to_pdf_rect pv (rect_px (model box)),
   strip (edit_text box)).

(** What of an annotation does not depend on styling. *)
Definition annot_core (a : Annot) : Z * fitz_Rect * string :=
  (annot_page a, annot_rect a, annot_text a).

Definition save_core (r : SaveResult) : option (option (list (Z * fitz_Rect * string))) :=
  match r with
  | NoPath => None
  | SaveFailed => Some None
  | Saved annots => Some (Some (map annot_core annots))
  end.

(** The styles of an annotation added for [box] once
    [_style_freetext_plain] is through with it, when the style calls on it
    raise as [raises] says: each attribute is set exactly if its call did
    not raise, and is as [add_freetext_annot] left it otherwise. *)
Definition styled_by (raises : StyleCall -> bool) (box : TextBoxWidget) (a : Annot) : Prop :=
  border_width a = (if raises set_border then None else Some 0) /\
  colors_cleared a = negb (raises set_colors) /\
  opacity a = (if raises set_opacity then None else Some 1) /\
  default_appearance a =
    (if raises set_default_appearance then None
     else Some (qfont_to_pdf_basefont (qfont (model box)), fontsize_pt (model box), (0, 0, 0))) /\
  updated a = negb (raises update).

(** A library equal to [lib] except that its style calls raise as [f] says. *)
Definition with_style_raises (f : nat -> StyleCall -> bool) (lib : DocLib) : DocLib :=
  {| open_raises := open_raises lib;
     load_page_raises := load_page_raises lib;
     add_freetext_annot_raises := add_freetext_annot_raises lib;
     style_raises := f;
     saveIncr_raises := saveIncr_raises lib |}.


(** The model read off a live widget: page and font from its model,
    rectangle from its geometry, text from its editor.  This is the
    [after] of [_commit_geom_change]. *)
Definition live_model (w : TextBoxWidget) : BoxModel :=
  {| page_index := page_index (model w);
     rect_px := geometry w;
     text := edit_text w;
     qfont := qfont (model w);
     fontsize_pt := fontsize_pt (model w) |}.

(** The model [add_box] gives a new box. *)
Definition fresh_model (r : QRect.t) (s : PageView) : BoxModel :=
  {| page_index := pv_page_index s;
     rect_px := r;
     text := "";
     qfont := current_qfont s;
     fontsize_pt := current_fontsize s |}.

(** ** The undo round trip *)

(** The number of commands pushed between [s] and [s1]. *)
Definition pushed (s s1 : PageView) : nat :=
  (length (undo_stack s1) - length (undo_stack s))%nat.

(** The round trip as the specification words it: run the operations, call
    [undo()] once per command pushed, and find the collection as it was. *)
Definition undo_round_trip (s : PageView) (ops : list EditOp) : Prop :=
  exists s1 s2,
    run_ops ops s = Done s1 /\
    undo_times (pushed s s1) s1 = Done s2 /\
    collection s2 = collection s.

(** ** The main window: zoom and page *)

(** Python's [max(a, b)] and [min(a, b)]: the first argument unless the
    second is strictly larger (smaller). *)
Definition py_max (a b : Q) : Q := if Qlt_le_dec a b then b else a.
Definition py_min (a b : Q) : Q := if Qlt_le_dec b a then b else a.

(** [int(round(q))]: to the nearest integer, a tie going to the even one.
    The product inside is taken exactly, where Python rounds it to a
    float first. *)
Definition py_round (q : Q) : Z :=
  let f := Qfloor q in
  let d := (q - inject_Z f)%Q in
  if Qlt_le_dec d (1 # 2) then f
  else if Qlt_le_dec (1 # 2) d then f + 1
  else if Z.even f then f else f + 1.

(** An open document, as the window uses it: its number of pages, the
    width of a page in points and the size of the pixmap the renderer
    returns for a page at a zoom. *)
Record Document := {
  page_count : Z;
  page_width_pt : Z -> Q;
  get_pixmap_size : Z -> Q -> Z * Z
}.

(** [MainWindow]: [zoom_slider] is the slider's value, [viewport_width]
    that of the scroll area's viewport. *)
Record MainWindow := {
  _doc : option Document;
  _path : option string;
  _page_index : Z;
  _zoom : Q;
  fit_width : bool;
  zoom_slider : Z;
  viewport_width : Z;
  page_view : PageView
}.

(** [MainWindow.__init__]; the viewport width is Qt's to decide. *)
Definition MainWindow_init (viewport : Z) : MainWindow :=
  {| _doc := None; _path := None; _page_index := 0; _zoom := 2 # 1;
     fit_width := true; zoom_slider := 200; viewport_width := viewport;
     page_view := PageView_init |}.

(** [QSlider.setValue] on a slider of range 25 to 400. *)
Definition slider_setValue (v : Z) : Z := Z.max 25 (Z.min 400 v).

(** [MainWindow._compute_fit_width_zoom] *)
Definition _compute_fit_width_zoom (mw : MainWindow) (page_w_pt : Q) : Q :=
  let viewport_w := Z.max 1 (viewport_width mw - 30) in
  let z := (inject_Z viewport_w / page_w_pt)%Q in
  py_max (1 # 4) (py_min 4 z).

(** [MainWindow.render_current_page] ([marquette.py]) *)
Definition render_current_page (mw : MainWindow) : MainWindow :=
  match _doc mw with
  | None => mw
  | Some doc =>
      let z :=
        if fit_width mw then _compute_fit_width_zoom mw (page_width_pt doc (_page_index mw))
        else _zoom mw in
      let slider :=
        if fit_width mw then slider_setValue (py_round (z * 100)) else zoom_slider mw in
      let '(w, h) := get_pixmap_size doc (_page_index mw) z in
      {| _doc := _doc mw; _path := _path mw; _page_index := _page_index mw;
         _zoom := z; fit_width := fit_width mw; zoom_slider := slider;
         viewport_width := viewport_width mw;
         page_view := set_rendered_page w h (_page_index mw) z (page_view mw) |}
  end.

(** [MainWindow._set_zoom] *)
Definition _set_zoom (z : Q) (update_slider : bool) (mw : MainWindow) : MainWindow :=
  let z := py_max (1 # 4) (py_min 4 z) in
  render_current_page
    {| _doc := _doc mw; _path := _path mw; _page_index := _page_index mw;
       _zoom := z; fit_width := false;
       zoom_slider :=
         if update_slider then slider_setValue (py_round (z * 100)) else zoom_slider mw;
       viewport_width := viewport_width mw; page_view := page_view mw |}.

(** The slider takes a new value: [valueChanged] fires only if the value
    changed, and runs [_on_zoom_slider_changed]. *)
Definition slider_moved (v : Z) (mw : MainWindow) : MainWindow :=
  let v := slider_setValue v in
  if v =? zoom_slider mw then mw
  else
    _set_zoom (inject_Z v / 100) false
      {| _doc := _doc mw; _path := _path mw; _page_index := _page_index mw;
         _zoom := _zoom mw; fit_width := fit_width mw; zoom_slider := v;
         viewport_width := viewport_width mw; page_view := page_view mw |}.

(** [MainWindow._on_ctrl_wheel_zoom] *)
Definition _on_ctrl_wheel_zoom (delta_y : Z) (mw : MainWindow) : MainWindow :=
  let step := 10 in
  if 0 <? delta_y then slider_moved (Z.min 400 (zoom_slider mw + step)) mw
  else slider_moved (Z.max 25 (zoom_slider mw - step)) mw.

(** [MainWindow._on_thumb_selected] *)
Definition _on_thumb_selected (row : Z) (mw : MainWindow) : MainWindow :=
  match _doc mw with
  | None => mw
  | Some doc =>
      if (row <? 0) || (page_count doc <=? row) then mw
      else
        render_current_page
          {| _doc := _doc mw; _path := _path mw; _page_index := row;
             _zoom := _zoom mw; fit_width := fit_width mw; zoom_slider := zoom_slider mw;
             viewport_width := viewport_width mw; page_view := page_view mw |}
  end.

(** [MainWindow.open_pdf] ([marquette.py]): [chosen] is the path picked in
    the dialog, if any, with the document [fitz.open] returns for it, or
    [None] where it raises. *)
Definition open_pdf (chosen : option (string * option Document)) (mw : MainWindow)
  : MainWindow :=
  match chosen with
  | None => mw
  | Some (_, None) => mw
  | Some (path, Some doc) =>
      render_current_page
        {| _doc := Some doc; _path := Some path; _page_index := 0;
           _zoom := _zoom mw; fit_width := true; zoom_slider := zoom_slider mw;
           viewport_width := viewport_width mw; page_view := page_view mw |}
  end.

(** [MainWindow.render_current_page] of [p4.py]: no fit-to-width. *)
Definition p4_render_current_page (mw : MainWindow) : MainWindow :=
  match _doc mw with
  | None => mw
  | Some doc =>
      let '(w, h) := get_pixmap_size doc (_page_index mw) (_zoom mw) in
      {| _doc := _doc mw; _path := _path mw; _page_index := _page_index mw;
         _zoom := _zoom mw; fit_width := fit_width mw; zoom_slider := zoom_slider mw;
         viewport_width := viewport_width mw;
         page_view := set_rendered_page w h (_page_index mw) (_zoom mw) (page_view mw) |}
  end.

(** [MainWindow.open_pdf] of [p4.py] *)
Definition p4_open_pdf (chosen : option (string * option Document)) (mw : MainWindow)
  : MainWindow :=
  match chosen with
  | None => mw
  | Some (_, None) => mw
  | Some (path, Some doc) =>
      p4_render_current_page
        {| _doc := Some doc; _path := Some path; _page_index := 0;
           _zoom := _zoom mw; fit_width := fit_width mw; zoom_slider := zoom_slider mw;
           viewport_width := viewport_width mw; page_view := page_view mw |}
  end.

(** [MainWindow.set_zoom] ([p4.py]) *)
Definition set_zoom (z : Q) (mw : MainWindow) : MainWindow :=
  match _doc mw with
  | None => mw
  | Some _ =>
      p4_render_current_page
        {| _doc := _doc mw; _path := _path mw; _page_index := _page_index mw;
           _zoom := py_max (1 # 2) (py_min 6 z); fit_width := fit_width mw;
           zoom_slider := zoom_slider mw; viewport_width := viewport_width mw;
           page_view := page_view mw |}
  end.

(** [MainWindow.go_page] ([p4.py]) *)
Definition go_page (idx : Z) (mw : MainWindow) : MainWindow :=
  match _doc mw with
  | None => mw
  | Some doc =>
      let idx := Z.max 0 (Z.min (page_count doc - 1) idx) in
      if idx =? _page_index mw then mw
      else
        p4_render_current_page
          {| _doc := _doc mw; _path := _path mw; _page_index := idx;
             _zoom := _zoom mw; fit_width := fit_width mw; zoom_slider := zoom_slider mw;
             viewport_width := viewport_width mw; page_view := page_view mw |}
  end.

(** The window's events that touch zoom or page ([marquette.py]). *)
Inductive WindowEvent :=
| WOpen (chosen : option (string * option Document))
| WSetZoom (z : Q)
| WSlider (v : Z)
| WWheel (delta_y : Z)
| WThumb (row : Z)
| WResize (viewport : Z).

(** [MainWindow.resizeEvent]: the viewport has a new width. *)
Definition resizeEvent (viewport : Z) (mw : MainWindow) : MainWindow :=
  let mw :=
    {| _doc := _doc mw; _path := _path mw; _page_index := _page_index mw;
       _zoom := _zoom mw; fit_width := fit_width mw; zoom_slider := zoom_slider mw;
       viewport_width := viewport; page_view := page_view mw |} in
  if fit_width mw then render_current_page mw else mw.

Definition window_step (e : WindowEvent) (mw : MainWindow) : MainWindow :=
  match e with
  | WOpen chosen => open_pdf chosen mw
  | WSetZoom z => _set_zoom z true mw
  | WSlider v => slider_moved v mw
  | WWheel d => _on_ctrl_wheel_zoom d mw
  | WThumb row => _on_thumb_selected row mw
  | WResize v => resizeEvent v mw
  end.

(** What the window keeps: the zoom within 0.25 and 4, the slider within
    25 and 400, and, with a document open, a valid page index and the
    page view showing that page at that zoom. *)
Definition window_ok (mw : MainWindow) : Prop :=
  ((1 # 4) <= _zoom mw)%Q /\ (_zoom mw <= 4)%Q /\
  ((1 # 4) <= zoom (page_view mw))%Q /\ (zoom (page_view mw) <= 4)%Q /\
  25 <= zoom_slider mw <= 400 /\
  match _doc mw with
  | None => True
  | Some doc =>
      0 <= _page_index mw < page_count doc /\
      pv_page_index (page_view mw) = _page_index mw /\
      zoom (page_view mw) = _zoom mw
  end.

(** A document that is opened has at least one page. *)
Definition opens_nonempty (e : WindowEvent) : Prop :=
  match e with
  | WOpen (Some (_, Some doc)) => 1 <= page_count doc
  | _ => True
  end.

Fixpoint run_window_events (es : list WindowEvent) (mw : MainWindow) : MainWindow :=
  match es with
  | [] => mw
  | e :: rest => run_window_events rest (window_step e mw)
  end.

(** ** Sessions *)

(** What the interaction layer can make the page view do: an edit
    operation, undo, redo, showing a page, selecting an existing box,
    typing in a box, and moving the keyboard focus (a click into the line
    edit of a box, or onto a control of the window). *)
Inductive Event :=
| EvOp (op : EditOp)
| EvUndo
| EvRedo
| EvRender (w h : Z) (page : Z) (z : Q)
| EvSelect (box : WidgetId)
| EvType (box : WidgetId) (t : string)
| EvFocus (o : option WidgetId).

Definition step (e : Event) (s : PageView) : outcome :=
  match e with
  | EvOp op => run_op op s
  | EvUndo => undo s
  | EvRedo => redo s
  | EvRender w h page z => Done (set_rendered_page w h page z s)
  | EvSelect box =>
      Done (if bool_decide (box < length (widgets s))%nat then _on_selected box s else s)
  | EvType box t => Done (type_text box t s)
  | EvFocus o => focus_moves o s
  end.

(** The state after a session; a handler that raises leaves the state it
    reached and the session goes on, as in a Qt event loop. *)
Fixpoint run_events (es : list Event) (s : PageView) : PageView :=
  match es with
  | [] => s
  | e :: rest => run_events rest (state_of (step e s))
  end.

(** What [cmd.do()] and [cmd.undo()] do to the list of boxes. *)
Definition do_list (c : Command) (l : list WidgetId) : list WidgetId :=
  match c with
  | AddBox b => l ++ [b]
  | DeleteBox b _ _ => if py_in b l then py_remove b l else l
  | _ => l
  end.

Definition undo_list (c : Command) (l : list WidgetId) : list WidgetId :=
  match c with
  | AddBox b => if py_in b l then py_remove b l else l
  | DeleteBox b idx _ => py_insert idx b l
  | _ => l
  end.

(** When [cmd.do()] (resp. [cmd.undo()]) is the exact inverse of the other
    on the list [l] of boxes. *)
Definition pre_do (c : Command) (l : list WidgetId) : Prop :=
  match c with
  | AddBox b => b ∉ l
  | DeleteBox b idx _ => (b ∈ l) /\ py_index b l = idx
  | _ => True
  end.

Definition pre_undo (c : Command) (l : list WidgetId) : Prop :=
  match c with
  | AddBox b => exists l', l = l' ++ [b] /\ (b ∉ l')
  | DeleteBox b idx _ => (b ∉ l) /\ (idx <= length l)%nat
  | _ => True
  end.

(** The undo stack, top first, can be unwound from [l]; the redo stack can
    be replayed from [l]. *)
Fixpoint undo_ok (l : list WidgetId) (stack : list Command) : Prop :=
  match stack with
  | [] => True
  | c :: rest => pre_undo c l /\ undo_ok (undo_list c l) rest
  end.

Fixpoint redo_ok (l : list WidgetId) (stack : list Command) : Prop :=
  match stack with
  | [] => True
  | c :: rest => pre_do c l /\ redo_ok (do_list c l) rest
  end.

(** The box a command captured exists among the first [n] widgets. *)
Definition cmd_box_lt (n : nat) (c : Command) : Prop :=
  match c with
  | AddBox b | UpdateBox b _ _ | DeleteBox b _ _ => (b < n)%nat
  | ChangeFont _ _ => True
  end.

(** The invariant of a session: the state is well-formed and both stacks
    fit the collection. *)
Definition history_ok (s : PageView) : Prop :=
  wf s /\
  undo_ok (boxes s) (undo_stack s) /\
  redo_ok (boxes s) (redo_stack s) /\
  Forall (cmd_box_lt (length (widgets s))) (undo_stack s) /\
  Forall (cmd_box_lt (length (widgets s))) (redo_stack s).

(** [s'] differs from [s] in what is not committed only: same collection,
    same selection, same stacks, no widget lost. *)
Definition same_lists (s s' : PageView) : Prop :=
  boxes s' = boxes s /\ selected s' = selected s /\
  undo_stack s' = undo_stack s /\ redo_stack s' = redo_stack s /\
  (length (widgets s) <= length (widgets s'))%nat.

(** A command as an operation builds it for the state it is pushed on. *)
Definition fits (c : Command) (s : PageView) : Prop :=
  pre_do c (boxes s) /\
  cmd_box_lt (length (widgets s)) c /\
  match c with
  | ChangeFont _ _ => selected s <> None
  | DeleteBox b _ m => model_of s b = Some m
  | _ => True
  end.

(** [c] is a command that the line edit of box [p] commits when it
    finishes editing: an [Update Box] or a [Delete Box] of [p]. *)
Definition commits (p : WidgetId) (c : Command) : Prop :=
  match c with
  | UpdateBox b _ _ | DeleteBox b _ _ => b = p
  | _ => False
  end.

(** The selection and the models after [cmd.do()] and after [cmd.undo()]. *)
Definition selected_after_do (c : Command) (s : PageView) : option WidgetId :=
  match c with
  | AddBox b => Some b
  | DeleteBox b _ _ => if decide (selected s = Some b) then None else selected s
  | _ => selected s
  end.

Definition selected_after_undo (c : Command) (s : PageView) : option WidgetId :=
  match c with
  | AddBox b => if decide (selected s = Some b) then None else selected s
  | _ => selected s
  end.

(** The model of [b'] once the model of [b], if [b] exists, is set to [m]. *)
Definition model_set (b : WidgetId) (m : BoxModel) (s : PageView) (b' : WidgetId)
  : option BoxModel :=
  if decide (b = b') then (fun _ => m) <$> model_of s b else model_of s b'.

Definition model_after_do (c : Command) (s : PageView) (b' : WidgetId) : option BoxModel :=
  match c with
  | UpdateBox b _ after => model_set b after s b'
  | ChangeFont _ after =>
      match selected s with
      | Some sel => model_set sel after s b'
      | None => model_of s b'
      end
  | _ => model_of s b'
  end.

Definition model_after_undo (c : Command) (s : PageView) (b' : WidgetId) : option BoxModel :=
  match c with
  | UpdateBox b before _ => model_set b before s b'
  | ChangeFont before _ =>
      match selected s with
      | Some sel => model_set sel before s b'
      | None => model_of s b'
      end
  | DeleteBox b _ m => model_set b m s b'
  | AddBox _ => model_of s b'
  end.

(** ** The geometry invariant *)

(** The clamp invariant as the specification words it, for a page of
    [W] by [H] pixels. *)
Definition spec_clamp_invariant (W H : Z) (r : QRect.t) : Prop :=
  0 <= QRect.x r /\ 0 <= QRect.y r /\
  QRect.x r + QRect.width r <= W /\ QRect.y r + QRect.height r <= H /\
  60 <= QRect.width r /\ 28 <= QRect.height r.

(** What the code keeps on every path once a page is rendered: the box
    ends at or before the right and bottom page edges. *)
Definition ends_within (W H : Z) (r : QRect.t) : Prop :=
  QRect.x r + QRect.width r <= W /\ QRect.y r + QRect.height r <= H.

(** The minimum size, with the page edge taking precedence: the box is at
    least 60 by 28, or it reaches the page edge. *)
Definition min_size_or_edge (W H : Z) (r : QRect.t) : Prop :=
  (MIN_W <= QRect.width r \/ QRect.x r + QRect.width r = W) /\
  (MIN_H <= QRect.height r \/ QRect.y r + QRect.height r = H).

(** The geometry one [mouseMoveEvent] gives a box that is being resized
    from the geometry [g], and one that is being moved from [g], on a page
    of [W] by [H] pixels, the pointer being [delta] away from the press. *)
Definition resized (W H : Z) (g : QRect.t) (delta : QPoint) : QRect.t :=
  QRect.xywh (QRect.x g) (QRect.y g)
    (Z.min (Z.max MIN_W (QRect.width g + px delta)) (W - QRect.x g))
    (Z.min (Z.max MIN_H (QRect.height g + py delta)) (H - QRect.y g)).

Definition moved_by (W H : Z) (g : QRect.t) (delta : QPoint) : QRect.t :=
  QRect.moved
    {| px := Z.max 0 (Z.min (QRect.x g + px delta) (W - QRect.width g));
       py := Z.max 0 (Z.min (QRect.y g + py delta) (H - QRect.height g)) |} g.

(** The geometry a gesture ends in: the one its last pointer move gave, or
    the one at the press when the pointer never moved. *)
Definition gesture_end (f : QPoint -> QRect.t) (g : QRect.t) (moves : list QPoint) : QRect.t :=
  match last moves with
  | Some delta => f delta
  | None => g
  end.

(** A rubber-band rectangle that [_create_box] treats as a plain click. *)
Definition click_sized (rect : QRect.t) : bool :=
  let r := QRect.normalized rect in
  (QRect.width r <? 40) && (QRect.height r <? 20).

(** The rectangle committed for a box: that of its model. *)
Definition committed_rect (s : PageView) (b : WidgetId) : option QRect.t :=
  rect_px <$> model_of s b.

(** A library that refuses [set_colors] and [set_default_appearance] on
    every annotation and raises on nothing else. *)
Definition fussy_lib : DocLib :=
  {| open_raises := false;
     load_page_raises := fun _ => false;
     add_freetext_annot_raises := fun _ _ _ => false;
     style_raises :=
       fun _ c => match c with set_colors | set_default_appearance => true | _ => false end;
     saveIncr_raises := false |}.

(** A library whose [load_page] raises on every page but the first. *)
Definition first_page_only_lib : DocLib :=
  {| open_raises := false;
     load_page_raises := fun p => negb (p =? 0);
     add_freetext_annot_raises := fun _ _ _ => false;
     style_raises := fun _ _ => false;
     saveIncr_raises := false |}.

(** ** Sample states *)

(** A page rendered at zoom 2.0 as 800 by 1000 pixels, no box yet. *)
Definition page_800x1000 : PageView :=
  Eval vm_compute in set_rendered_page 800 1000 0 (2 # 1) PageView_init.

(** A click at a pixel of the page: press and release at the same point. *)
Definition click (x y : Z) (s : PageView) : outcome :=
  mouseReleaseEvent {| px := x; py := y |} {| px := x; py := y |} s.

(** One box holding "hi", created by a click at (30, 400); it is selected. *)
Definition one_box : PageView :=
  Eval vm_compute in state_of (run_ops [Create (QRect.xywh 30 400 1 1); Retext 0%nat "hi"] page_800x1000).

(** Three boxes, the second holding only blanks in its editor. *)
Definition three_boxes : PageView :=
  Eval vm_compute in type_text 1%nat "   "
    (state_of (run_ops [Create (QRect.xywh 30 400 1 1); Retext 0%nat "first";
                        Create (QRect.xywh 100 100 200 50); Retext 1%nat "second";
                        Create (QRect.xywh 50 600 300 40); Retext 2%nat "third"]
                 page_800x1000)).

(** The box of [one_box] after a blank was typed behind its text and the
    editing finished: trimmed, the text is the committed one, so nothing
    is committed and the editor keeps the blank. *)
Definition trailing_blank : PageView :=
  Eval vm_compute in state_of (run_op (Retext 0%nat "hi ") one_box).

(** A restyle of the selected box followed by the creation of a second box. *)
Definition restyle_then_create : list EditOp :=
  [Restyle "Courier New" 20; Create (QRect.xywh 100 100 200 50)].

(** The same with a retext in place of the restyle. *)
Definition retext_then_create : list EditOp :=
  [Retext 0%nat "hello"; Create (QRect.xywh 100 100 200 50)].

(** The state in which undoing [restyle_then_create] stops making
    progress: the second box is gone, nothing is selected, and the
    [Change Font] command is on top of the undo stack. *)
Definition restyle_orphaned : PageView :=
  Eval vm_compute in state_of (undo (state_of (run_ops restyle_then_create one_box))).

(** A one-page document of 400 points width, rendered at 400 by 500 points
    times the zoom, rounded down. *)
Definition sample_document : Document :=
  {| page_count := 1;
     page_width_pt := fun _ => 400%Q;
     get_pixmap_size := fun _ (z : Q) => (Qfloor (400 * z)%Q, Qfloor (500 * z)%Q) |}.

(** The same with three pages. *)
Definition three_page_document : Document :=
  {| page_count := 3;
     page_width_pt := fun _ => 400%Q;
     get_pixmap_size := fun _ (z : Q) => (Qfloor (400 * z)%Q, Qfloor (500 * z)%Q) |}.

(** The window of [p4.py] with the three-page document open. *)
Definition p4_sample_window : MainWindow :=
  p4_open_pdf (Some ("doc.pdf", Some three_page_document)) (MainWindow_init 830).

(** Opening the sample document in a window whose viewport is 830 wide. *)
Definition sample_window : MainWindow :=
  open_pdf (Some ("doc.pdf", Some sample_document)) (MainWindow_init 830).

(** * Theorems *)

(** ** Strings *)

Lemma append_cons (c : ascii) (a b : string) :
  String.append (String c a) b = String c (String.append a b).
Proof. reflexivity. Qed.

Lemma append_nil (b : string) : String.append EmptyString b = b.
Proof. reflexivity. Qed.

Lemma startswith_app (p q : string) : startswith p (String.append p q) = true.
Proof.
  induction p as [|a p IH]; [done|].
  rewrite append_cons. simpl. by rewrite Ascii.eqb_refl, IH.
Qed.

Lemma startswith_inv (p s : string) :
  startswith p s = true -> exists q, s = String.append p q.
Proof.
  revert s. induction p as [|a p IH]; intros s H; simpl in *.
  - by exists s.
  - destruct s as [|b s]; [done|].
    apply andb_true_iff in H as [Hab Hps].
    apply Ascii.eqb_eq in Hab as ->.
    destruct (IH _ Hps) as [q ->]. by exists q.
Qed.

Lemma str_in_startswith (k s : string) : startswith k s = true -> str_in k s = true.
Proof. intros H. destruct s; simpl; by rewrite H. Qed.

(** [k in s] holds exactly when [s] is [p + k + q] for some [p] and [q]. *)
Lemma str_in_spec (k s : string) :
  str_in k s = true <-> exists p q, s = String.append p (String.append k q).
Proof.
  split.
  - induction s as [|c s IH]; simpl; intros H.
    + apply orb_true_iff in H as [H|H]; [|done].
      destruct (startswith_inv _ _ H) as [q Hq]. by exists EmptyString, q.
    + apply orb_true_iff in H as [H|H].
      * destruct (startswith_inv _ _ H) as [q Hq]. by exists EmptyString, q.
      * destruct (IH H) as (p & q & ->). by exists (String c p), q.
  - intros (p & q & ->). induction p as [|c p IH].
    + rewrite append_nil. apply str_in_startswith, startswith_app.
    + rewrite append_cons. simpl. rewrite IH. apply orb_true_r.
Qed.

Lemma string_app_assoc (a b c : string) :
  String.append (String.append a b) c = String.append a (String.append b c).
Proof. induction a as [|x a IH]; [done|]. by rewrite !append_cons, IH. Qed.

(** A string containing [k2] contains every substring [k1] of [k2]. *)
Lemma str_in_trans (k1 k2 s : string) :
  str_in k1 k2 = true -> str_in k2 s = true -> str_in k1 s = true.
Proof.
  rewrite !str_in_spec. intros (p1 & q1 & ->) (p2 & q2 & ->).
  exists (String.append p2 p1), (String.append q1 q2).
  by rewrite !string_app_assoc.
Qed.

Lemma lower_char_idemp (c : ascii) : lower_char (lower_char c) = lower_char c.
Proof. destruct c as [[] [] [] [] [] [] [] []]; vm_compute; reflexivity. Qed.

Lemma lower_idemp (s : string) : lower (lower s) = lower s.
Proof. induction s as [|c s IH]; simpl; [done|]. by rewrite lower_char_idemp, IH. Qed.

(** ** Font mapping *)

(** The two longer monospace keywords of the code are subsumed by "mono",
    the two longer serif keywords by "serif". *)
Lemma mono_keys_redundant (fam : string) :
  any_in ["courier"; "consolas"; "mono"; "dejavu sans mono"; "liberation mono"] fam
  = any_in ["courier"; "consolas"; "mono"] fam.
Proof.
  unfold any_in; simpl.
  destruct (str_in "courier" fam); [done|].
  destruct (str_in "consolas" fam); [done|].
  destruct (str_in "mono" fam) eqn:Hm; [done|]. simpl.
  destruct (str_in "dejavu sans mono" fam) eqn:H1.
  { assert (str_in "mono" fam = true) by (by apply (str_in_trans _ "dejavu sans mono")). congruence. }
  destruct (str_in "liberation mono" fam) eqn:H2; [|done].
  assert (str_in "mono" fam = true) by (by apply (str_in_trans _ "liberation mono")). congruence.
Qed.

Lemma serif_keys_redundant (fam : string) :
  any_in ["times"; "serif"; "dejavu serif"; "liberation serif"] fam
  = any_in ["times"; "serif"] fam.
Proof.
  unfold any_in; simpl.
  destruct (str_in "times" fam); [done|].
  destruct (str_in "serif" fam) eqn:Hm; [done|]. simpl.
  destruct (str_in "dejavu serif" fam) eqn:H1.
  { assert (str_in "serif" fam = true) by (by apply (str_in_trans _ "dejavu serif")). congruence. }
  destruct (str_in "liberation serif" fam) eqn:H2; [|done].
  assert (str_in "serif" fam = true) by (by apply (str_in_trans _ "liberation serif")). congruence.
Qed.

(** C6. The font mapping is the function of the family name the
    specification describes: lower-cased, then monospace ("cour") if the
    name contains "courier", "consolas" or "mono", else serif ("tiro") if
    it contains "times" or "serif", else sans-serif ("helv").  It does not
    distinguish names that differ in case only, and it sends "Courier New"
    to monospace, "Times New Roman" to serif and "Arial" to sans-serif. *)
Theorem font_mapping (family other : string) :
  qfont_to_pdf_basefont family = basefont_of (spec_font_class family) /\
  qfont_to_pdf_basefont (lower family) = qfont_to_pdf_basefont family /\
  (lower family = lower other ->
   qfont_to_pdf_basefont family = qfont_to_pdf_basefont other) /\
  spec_font_class "Courier New" = Monospace /\
  spec_font_class "Times New Roman" = Serif /\
  spec_font_class "Arial" = SansSerif /\
  qfont_to_pdf_basefont "Courier New" = "cour" /\
  qfont_to_pdf_basefont "Times New Roman" = "tiro" /\
  qfont_to_pdf_basefont "Arial" = "helv".
Proof.
  split_and!.
  - unfold qfont_to_pdf_basefont, spec_font_class.
    rewrite mono_keys_redundant, serif_keys_redundant.
    destruct (any_in _ _); [done|]. by destruct (any_in _ _).
  - unfold qfont_to_pdf_basefont. by rewrite lower_idemp.
  - intros H. unfold qfont_to_pdf_basefont. by rewrite H.
  - vm_compute; reflexivity.
  - vm_compute; reflexivity.
  - vm_compute; reflexivity.
  - vm_compute; reflexivity.
  - vm_compute; reflexivity.
  - vm_compute; reflexivity.
Qed.

Lemma font_mapping_witness :
  qfont_to_pdf_basefont "COURIER new" = qfont_to_pdf_basefont "Courier New".
Proof.
  destruct (font_mapping "COURIER new" "Courier New") as (_ & _ & H & _).
  apply H. reflexivity.
Defined.

(** ** Python list operations *)

Lemma py_in_true (b : WidgetId) (l : list WidgetId) : py_in b l = true <-> b ∈ l.
Proof. unfold py_in. apply bool_decide_eq_true. Qed.

Lemma py_in_false (b : WidgetId) (l : list WidgetId) : py_in b l = false <-> b ∉ l.
Proof. unfold py_in. apply bool_decide_eq_false. Qed.

(** Removing the first occurrence and inserting at its index are inverse. *)
Lemma py_insert_index_remove (b : WidgetId) (l : list WidgetId) :
  b ∈ l -> py_insert (py_index b l) b (py_remove b l) = l.
Proof.
  unfold py_insert. induction l as [|a l IH]; intros Hin.
  - by apply elem_of_nil in Hin.
  - simpl. destruct (decide (a = b)) as [->|Hne]; simpl.
    + done.
    + f_equal. apply IH. apply elem_of_cons in Hin as [->|]; done.
Qed.

Lemma py_remove_not_in (b : WidgetId) (l : list WidgetId) : b ∉ l -> py_remove b l = l.
Proof.
  induction l as [|a l IH]; intros Hn; simpl; [done|].
  apply not_elem_of_cons in Hn as [Hne Hn].
  destruct (decide (a = b)); [congruence|]. by rewrite IH.
Qed.

(** Appending a fresh element and removing it are inverse. *)
Lemma py_remove_app_fresh (b : WidgetId) (l : list WidgetId) :
  b ∉ l -> py_remove b (l ++ [b]) = l.
Proof.
  induction l as [|a l IH]; intros Hn; simpl.
  - by destruct (decide (b = b)).
  - apply not_elem_of_cons in Hn as [Hne Hn].
    destruct (decide (a = b)); [congruence|]. by rewrite IH.
Qed.

Lemma py_remove_insert (i : nat) (b : WidgetId) (l : list WidgetId) :
  b ∉ l -> py_remove b (py_insert i b l) = l.
Proof.
  unfold py_insert. revert i. induction l as [|a l IH]; intros i Hn.
  - rewrite take_nil, drop_nil. simpl. by destruct (decide (b = b)).
  - apply not_elem_of_cons in Hn as [Hne Hn]. destruct i as [|i]; simpl.
    + by destruct (decide (b = b)).
    + destruct (decide (a = b)); [congruence|]. by rewrite IH.
Qed.

Lemma py_index_insert (i : nat) (b : WidgetId) (l : list WidgetId) :
  b ∉ l -> (i <= length l)%nat -> py_index b (py_insert i b l) = i.
Proof.
  unfold py_insert. revert i. induction l as [|a l IH]; intros i Hn Hi.
  - simpl in Hi. assert (i = 0%nat) as -> by lia. simpl. by destruct (decide (b = b)).
  - apply not_elem_of_cons in Hn as [Hne Hn]. destruct i as [|i]; simpl.
    + by destruct (decide (b = b)).
    + destruct (decide (a = b)); [congruence|]. f_equal. apply IH; [done|]. simpl in Hi. lia.
Qed.

Lemma elem_of_py_remove (a b : WidgetId) (l : list WidgetId) :
  a ∈ py_remove b l -> a ∈ l.
Proof.
  induction l as [|c l IH]; simpl; [done|].
  destruct (decide (c = b)).
  - intros. by apply elem_of_cons; right.
  - intros [->|H]%elem_of_cons; apply elem_of_cons; [by left|right; auto].
Qed.

Lemma py_remove_NoDup (b : WidgetId) (l : list WidgetId) :
  NoDup l -> NoDup (py_remove b l) /\ b ∉ py_remove b l.
Proof.
  induction 1 as [|a l Hna Hnd IH]; simpl.
  - split; [constructor|]. apply not_elem_of_nil.
  - destruct (decide (a = b)) as [->|Hne]; [done|].
    destruct IH as [IH1 IH2]. split.
    + constructor; [|done]. intros H. by apply Hna, (elem_of_py_remove _ b).
    + apply not_elem_of_cons. split; [congruence|done].
Qed.

Lemma elem_of_py_insert (a b : WidgetId) (i : nat) (l : list WidgetId) :
  a ∈ py_insert i b l <-> a = b \/ a ∈ l.
Proof.
  unfold py_insert. rewrite elem_of_app, elem_of_cons.
  assert (a ∈ l <-> a ∈ take i l \/ a ∈ drop i l) as ->
    by (by rewrite <- elem_of_app, take_drop).
  tauto.
Qed.

Lemma py_insert_NoDup (i : nat) (b : WidgetId) (l : list WidgetId) :
  NoDup l -> b ∉ l -> NoDup (py_insert i b l).
Proof.
  intros Hnd Hn. unfold py_insert.
  rewrite <- (take_drop i l) in Hnd, Hn.
  apply NoDup_app in Hnd as (H1 & H2 & H3).
  apply not_elem_of_app in Hn as [Hn1 Hn2].
  apply NoDup_app. split_and!; [done| |].
  - intros x Hx [->|Hd]%elem_of_cons; [done|]. by apply (H2 x).
  - by constructor.
Qed.

Lemma py_index_lookup (b : WidgetId) (l : list WidgetId) :
  b ∈ l -> l !! py_index b l = Some b.
Proof.
  induction l as [|a l IH]; intros Hin.
  - by apply elem_of_nil in Hin.
  - simpl. destruct (decide (a = b)) as [->|Hne]; [done|]. simpl.
    apply IH. apply elem_of_cons in Hin as [->|]; done.
Qed.

(** In a list without duplicates the index of an element is its position. *)
Lemma py_index_NoDup (b : WidgetId) (i : nat) (l : list WidgetId) :
  NoDup l -> l !! i = Some b -> py_index b l = i.
Proof.
  intros Hnd. revert i. induction Hnd as [|a l Hna Hnd IH]; intros i Hi; [done|].
  simpl. destruct i as [|i]; simpl in Hi.
  - injection Hi as ->. by destruct (decide (b = b)).
  - destruct (decide (a = b)) as [->|Hne].
    + exfalso. apply Hna. by eapply list_elem_of_lookup_2.
    + f_equal. by apply IH.
Qed.

Lemma py_remove_delete (b : WidgetId) (l : list WidgetId) :
  py_remove b l = delete (py_index b l) l.
Proof.
  induction l as [|a l IH]; simpl; [done|].
  destruct (decide (a = b)); simpl; [done|]. by rewrite IH.
Qed.

(** ** Projections of the state transformers *)

Lemma boxes_deselect b s : boxes (deselect b s) = boxes s.
Proof. unfold deselect. by destruct (decide _). Qed.

Lemma widgets_deselect b s : widgets (deselect b s) = widgets s.
Proof. unfold deselect. by destruct (decide _). Qed.

Lemma undo_stack_deselect b s : undo_stack (deselect b s) = undo_stack s.
Proof. unfold deselect. by destruct (decide _). Qed.

Lemma redo_stack_deselect b s : redo_stack (deselect b s) = redo_stack s.
Proof. unfold deselect. by destruct (decide _). Qed.

Lemma selected_deselect b s :
  selected (deselect b s) = if decide (selected s = Some b) then None else selected s.
Proof. unfold deselect. by destruct (decide _). Qed.

Lemma boxes_remove_box b s :
  boxes (remove_box b s) = if py_in b (boxes s) then py_remove b (boxes s) else boxes s.
Proof. unfold remove_box. by destruct (py_in _ _). Qed.

Lemma widgets_remove_box b s : widgets (remove_box b s) = widgets s.
Proof. unfold remove_box. by destruct (py_in _ _). Qed.

Lemma undo_stack_remove_box b s : undo_stack (remove_box b s) = undo_stack s.
Proof. unfold remove_box. by destruct (py_in _ _). Qed.

Lemma redo_stack_remove_box b s : redo_stack (remove_box b s) = redo_stack s.
Proof. unfold remove_box. by destruct (py_in _ _). Qed.

Lemma selected_remove_box b s : selected (remove_box b s) = selected s.
Proof. unfold remove_box. by destruct (py_in _ _). Qed.

Lemma model_alter_set_model (m : BoxModel) (b b' : WidgetId) (ws : list TextBoxWidget) :
  model <$> alter (widget_set_model m) b ws !! b' =
  if decide (b = b') then (fun _ => m) <$> ws !! b else model <$> ws !! b'.
Proof.
  rewrite list_lookup_alter. destruct (decide (b = b')); [|done].
  by destruct (ws !! b).
Qed.

Lemma model_alter_set_visible (v : bool) (b b' : WidgetId) (ws : list TextBoxWidget) :
  model <$> alter (widget_set_visible v) b ws !! b' = model <$> ws !! b'.
Proof.
  rewrite list_lookup_alter. destruct (decide (b = b')) as [->|]; [|done].
  by destruct (ws !! b').
Qed.

(** Two states with the same boxes and the same models have the same
    collection. *)
Lemma collection_ext (s s' : PageView) :
  boxes s' = boxes s ->
  (forall b, b ∈ boxes s -> model_of s' b = model_of s b) ->
  collection s' = collection s.
Proof.
  unfold collection, model_of. intros -> H.
  apply map_ext_in. intros b Hb. f_equal. apply H. by apply list_elem_of_In.
Qed.

(** ** Delete *)

(** What a delete request does to a member of the collection. *)
Lemma _request_delete_member (s : PageView) (box : WidgetId) (w : TextBoxWidget) :
  box ∈ boxes s -> widgets s !! box = Some w ->
  exists s1,
    _request_delete box s = Done s1 /\
    boxes s1 = py_remove box (boxes s) /\
    undo_stack s1 = DeleteBox box (py_index box (boxes s)) (model w) :: undo_stack s /\
    redo_stack s1 = [] /\
    widgets s1 = alter (widget_set_visible false) box (widgets s) /\
    selected s1 = (if decide (selected s = Some box) then None else selected s).
Proof.
  intros Hin Hw. unfold _request_delete.
  apply py_in_true in Hin as Hin'. rewrite Hin', Hw. simpl.
  eexists. split; [reflexivity|]. simpl.
  rewrite boxes_deselect, widgets_deselect. simpl.
  rewrite boxes_remove_box, widgets_remove_box, Hin'.
  split_and!; try done.
  - by rewrite undo_stack_deselect; simpl; rewrite undo_stack_remove_box.
  - by rewrite selected_deselect; simpl; rewrite selected_remove_box.
Qed.

(** What undoing that delete does. *)
Lemma undo_delete (s1 : PageView) (box : WidgetId) (idx : nat) (m : BoxModel)
    (rest : list Command) :
  undo_stack s1 = DeleteBox box idx m :: rest ->
  exists s2,
    undo s1 = Done s2 /\
    boxes s2 = py_insert idx box (boxes s1) /\
    undo_stack s2 = rest /\
    redo_stack s2 = DeleteBox box idx m :: redo_stack s1 /\
    selected s2 = selected s1 /\
    widgets s2 =
      alter (widget_set_visible true) box (alter (widget_set_model m) box (widgets s1)).
Proof.
  intros Hu. unfold undo. rewrite Hu. simpl.
  eexists. split; [reflexivity|]. by simpl.
Qed.

Lemma wf_widget (s : PageView) (box : WidgetId) :
  wf s -> box ∈ boxes s -> exists w, widgets s !! box = Some w.
Proof.
  intros (_ & H & _) Hin. apply lookup_lt_is_Some_2. by apply H.
Qed.

(** C10. A delete request for a box that is not in the collection returns
    at once: no command is pushed and the collection, the widgets, the
    selection and both stacks stay as they are.  Hence a second delete
    request for the same box, right after a first one, changes nothing. *)
Theorem delete_absent_box_is_noop (s : PageView) (box : WidgetId) :
  (box ∉ boxes s -> _request_delete box s = Done s) /\
  (wf s ->
   exists s1, _request_delete box s = Done s1 /\ _request_delete box s1 = Done s1).
Proof.
  assert (Hnoop : forall s', box ∉ boxes s' -> _request_delete box s' = Done s').
  { intros s' Hn. unfold _request_delete. apply py_in_false in Hn. by rewrite Hn. }
  split; [apply Hnoop|].
  intros Hwf. destruct (decide (box ∈ boxes s)) as [Hin|Hn].
  - destruct (wf_widget _ _ Hwf Hin) as [w Hw].
    destruct (_request_delete_member _ _ _ Hin Hw) as (s1 & Hs1 & Hb & _).
    exists s1. split; [done|]. apply Hnoop. rewrite Hb.
    apply py_remove_NoDup, Hwf.
  - exists s. split; by apply Hnoop.
Qed.

Lemma wfb_sound (s : PageView) : wfb s = true -> wf s.
Proof.
  unfold wfb, wf. intros H.
  apply andb_true_iff in H as [H Hsel]. apply andb_true_iff in H as [Hnd Hall].
  apply bool_decide_eq_true in Hnd. split_and!; [done| |].
  - intros b Hb. rewrite forallb_forall in Hall.
    apply list_elem_of_In in Hb. by apply Hall, bool_decide_eq_true in Hb.
  - intros b Hb. rewrite Hb in Hsel. by apply bool_decide_eq_true in Hsel.
Qed.

(** Deleting a member and undoing restores the list of boxes and every
    model. *)
Lemma delete_then_undo (s : PageView) (box : WidgetId) (w : TextBoxWidget) :
  box ∈ boxes s -> widgets s !! box = Some w ->
  exists s1 s2,
    _request_delete box s = Done s1 /\
    boxes s1 = py_remove box (boxes s) /\
    undo_stack s1 = DeleteBox box (py_index box (boxes s)) (model w) :: undo_stack s /\
    undo s1 = Done s2 /\
    boxes s2 = boxes s /\
    undo_stack s2 = undo_stack s /\
    widgets s2 !! box = Some (widget_set_visible true (widget_set_model (model w) w)) /\
    (forall b, model_of s2 b = model_of s b).
Proof.
  intros Hin Hw.
  destruct (_request_delete_member _ _ _ Hin Hw) as (s1 & Hs1 & Hb1 & Hu1 & _ & Hw1 & _).
  destruct (undo_delete _ _ _ _ _ Hu1) as (s2 & Hs2 & Hb2 & Hu2 & _ & _ & Hw2).
  exists s1, s2. split_and!; try done.
  - rewrite Hb2, Hb1. by apply py_insert_index_remove.
  - rewrite Hw2, Hw1, !list_lookup_alter_eq, Hw. done.
  - intros b. unfold model_of. rewrite Hw2, Hw1.
    rewrite model_alter_set_visible, model_alter_set_model, list_lookup_alter_eq.
    case_decide as Hb; [subst b|].
    + by rewrite Hw.
    + apply model_alter_set_visible.
Qed.

(** C7. For a box at index [i] of the collection, the delete command
    records [i] and the box's model, the box leaves the collection, and
    undo puts it back at index [i]: the collection has the order, and the
    box the fields, it had before the delete. *)
Theorem delete_undo_preserves_z_order (s : PageView) (box : WidgetId) (i : nat) :
  wf s -> boxes s !! i = Some box ->
  exists w s1 s2,
    widgets s !! box = Some w /\
    _request_delete box s = Done s1 /\
    undo_stack s1 = DeleteBox box i (model w) :: undo_stack s /\
    boxes s1 = delete i (boxes s) /\
    undo s1 = Done s2 /\
    boxes s2 = boxes s /\
    boxes s2 !! i = Some box /\
    model_of s2 box = Some (model w) /\
    collection s2 = collection s.
Proof.
  intros Hwf Hi.
  assert (Hin : box ∈ boxes s) by (by eapply list_elem_of_lookup_2).
  destruct (wf_widget _ _ Hwf Hin) as [w Hw].
  assert (Hidx : py_index box (boxes s) = i) by (apply py_index_NoDup; [apply Hwf|done]).
  destruct (delete_then_undo _ _ _ Hin Hw)
    as (s1 & s2 & Hs1 & Hb1 & Hu1 & Hs2 & Hb2 & _ & _ & Hm).
  exists w, s1, s2. split_and!; try done.
  - by rewrite Hu1, Hidx.
  - by rewrite Hb1, py_remove_delete, Hidx.
  - by rewrite Hb2.
  - rewrite Hm. unfold model_of. by rewrite Hw.
  - apply collection_ext; [done|]. intros b _. apply Hm.
Qed.

Lemma delete_undo_preserves_z_order_witness :
  exists w s1 s2,
    widgets three_boxes !! 1%nat = Some w /\
    _request_delete 1%nat three_boxes = Done s1 /\
    undo_stack s1 = DeleteBox 1%nat 1%nat (model w) :: undo_stack three_boxes /\
    boxes s1 = delete 1%nat (boxes three_boxes) /\
    undo s1 = Done s2 /\
    boxes s2 = boxes three_boxes /\
    boxes s2 !! 1%nat = Some 1%nat /\
    model_of s2 1%nat = Some (model w) /\
    collection s2 = collection three_boxes.
Proof.
  apply (delete_undo_preserves_z_order three_boxes 1%nat 1%nat).
  - apply wfb_sound. vm_compute. reflexivity.
  - vm_compute. reflexivity.
Defined.

(** ** Retext *)

Lemma type_text_lookup (s : PageView) (box : WidgetId) (t : string) (w : TextBoxWidget) :
  widgets s !! box = Some w ->
  widgets (type_text box t s) !! box = Some (widget_set_text t w).
Proof. intros Hw. simpl. by rewrite list_lookup_alter_eq, Hw. Qed.

(** C4. Committing a text edit whose trimmed text is empty pushes a delete
    command, after which the box is no longer in the collection; undo then
    puts the box back where it was, with the model it had before, and its
    editor shows that model's text again. *)
Theorem empty_text_commit_deletes (s : PageView) (box : WidgetId) (typed : string) :
  wf s -> box ∈ boxes s -> strip typed = "" ->
  exists w s1 s2,
    widgets s !! box = Some w /\
    run_op (Retext box typed) s = Done s1 /\
    (box ∉ boxes s1) /\
    undo_stack s1 = DeleteBox box (py_index box (boxes s)) (model w) :: undo_stack s /\
    undo s1 = Done s2 /\
    box ∈ boxes s2 /\
    boxes s2 = boxes s /\
    exists w2,
      widgets s2 !! box = Some w2 /\
      model w2 = model w /\ edit_text w2 = text (model w) /\ visible w2 = true.
Proof.
  intros Hwf Hin Hstrip.
  destruct (wf_widget _ _ Hwf Hin) as [w Hw].
  pose proof (type_text_lookup s box typed w Hw) as Hw'.
  destruct (delete_then_undo (type_text box typed s) box _ Hin Hw')
    as (s1 & s2 & Hs1 & Hb1 & Hu1 & Hs2 & Hb2 & _ & Hw2 & _).
  exists w, s1, s2. split_and!; try done.
  - simpl. unfold _on_editing_finished. rewrite Hw'. simpl edit_text.
    rewrite Hstrip. simpl. exact Hs1.
  - rewrite Hb1. simpl. apply py_remove_NoDup, Hwf.
  - rewrite Hb2. exact Hin.
  - eexists. split; [exact Hw2|]. done.
Qed.

Lemma empty_text_commit_deletes_witness :
  exists w s1 s2,
    widgets three_boxes !! 1%nat = Some w /\
    run_op (Retext 1%nat "  ") three_boxes = Done s1 /\
    (1%nat ∉ boxes s1) /\
    undo_stack s1 =
      DeleteBox 1%nat (py_index 1%nat (boxes three_boxes)) (model w)
        :: undo_stack three_boxes /\
    undo s1 = Done s2 /\
    1%nat ∈ boxes s2 /\
    boxes s2 = boxes three_boxes /\
    exists w2,
      widgets s2 !! 1%nat = Some w2 /\
      model w2 = model w /\ edit_text w2 = text (model w) /\ visible w2 = true.
Proof.
  apply (empty_text_commit_deletes three_boxes 1%nat "  ").
  - apply wfb_sound. vm_compute. reflexivity.
  - apply py_in_true. vm_compute. reflexivity.
  - vm_compute. reflexivity.
Defined.

Lemma delete_absent_box_is_noop_witness :
  _request_delete 7%nat three_boxes = Done three_boxes /\
  exists s1, _request_delete 1%nat three_boxes = Done s1 /\ _request_delete 1%nat s1 = Done s1.
Proof.
  split.
  - apply (delete_absent_box_is_noop three_boxes 7%nat).
    apply py_in_false. vm_compute. reflexivity.
  - apply (delete_absent_box_is_noop three_boxes 1%nat).
    apply wfb_sound. vm_compute. reflexivity.
Defined.

(** ** Saving *)

(** Styling never touches the page, the rectangle or the text. *)
Lemma _style_freetext_plain_core lib k annot qf fontsize :
  annot_core (_style_freetext_plain lib k annot qf fontsize) = annot_core annot.
Proof.
  unfold _style_freetext_plain, try_style.
  repeat (destruct (style_raises lib k _)); reflexivity.
Qed.







(** The loop does not depend on which style calls raise, styling apart. *)
Lemma save_loop_style_independent lib f pv bs doc doc' :
  map annot_core doc' = map annot_core doc ->
  fmap (M:=option) (map annot_core) (save_loop (with_style_raises f lib) pv bs doc') =
  fmap (M:=option) (map annot_core) (save_loop lib pv bs doc).
Proof.
  revert doc doc'. induction bs as [|box bs IH]; intros doc doc' Hd; simpl.
  - by rewrite Hd.
  - destruct (String.eqb (strip (edit_text box)) ""); [by apply IH|].
    destruct (load_page_raises lib _); [done|].
    destruct (add_freetext_annot_raises lib _ _ _); [done|].
    apply IH. rewrite !map_app, Hd. simpl.
    by rewrite !_style_freetext_plain_core.
Qed.

(** Each style call sits in its own [try]: a call that raises is skipped,
    the calls after it are still made. *)
Lemma _style_freetext_plain_styled lib k box page rect t :
  styled_by (style_raises lib k) box
    (_style_freetext_plain lib k (add_freetext_annot page rect t)
       (qfont (model box)) (fontsize_pt (model box))).
Proof.
  unfold styled_by, _style_freetext_plain, try_style.
  destruct (style_raises lib k set_border), (style_raises lib k set_colors),
    (style_raises lib k set_opacity), (style_raises lib k set_default_appearance),
    (style_raises lib k update); repeat split.
Qed.

(** The loop, when [load_page] and [add_freetext_annot] do not raise: it
    runs to its end whatever the style calls do, and the annotation added
    for the [i]-th box with text is the [length doc + i]-th of the
    document, styled as far as the library let it. *)
Lemma save_loop_styles lib pv bs doc :
  (forall p, load_page_raises lib p = false) ->
  (forall p r t, add_freetext_annot_raises lib p r t = false) ->
  exists added,
    save_loop lib pv bs doc = Some (doc ++ added) /\
    length added = length (List.filter has_text bs) /\
    forall i a box,
      added !! i = Some a -> List.filter has_text bs !! i = Some box ->
      annot_core a = annot_args pv box /\
      styled_by (style_raises lib (length doc + i)) box a.
Proof.
  intros Hload Hadd. revert doc.
  induction bs as [|box bs IH]; intros doc; simpl.
  - exists []. rewrite app_nil_r. split_and!; [done..|]. intros i a b Hi. done.
  - assert (Hht : has_text box = negb (String.eqb (strip (edit_text box)) ""))
      by reflexivity.
    cbn [save_loop List.filter]. rewrite Hht.
    destruct (String.eqb (strip (edit_text box)) "") eqn:E; cbn [negb].
    + apply IH.
    + rewrite Hload, Hadd.
      set (a0 := _style_freetext_plain lib (length doc)
                   (add_freetext_annot (page_index (model box))
                      (px_rect_to_pdf_rect pv (rect_px (model box))) (strip (edit_text box)))
                   (qfont (model box)) (fontsize_pt (model box))).
      destruct (IH (doc ++ [a0])) as (added & Hs & Hlen & Hall).
      exists (a0 :: added). split_and!.
      * rewrite Hs. by rewrite <- app_assoc.
      * simpl. by rewrite Hlen.
      * intros [|i] a b Ha Hb; simpl in Ha, Hb.
        -- injection Ha as <-. injection Hb as <-. split.
           ++ subst a0. by rewrite _style_freetext_plain_core.
           ++ rewrite Nat.add_0_r. apply _style_freetext_plain_styled.
        -- destruct (Hall i a b Ha Hb) as [Hc Hst]. split; [done|].
           rewrite length_app in Hst. simpl in Hst.
           by replace (length doc + S i)%nat with (length doc + 1 + i)%nat by lia.
Qed.

(** C9.  Whichever style calls raise: a save whose other library calls
    succeed completes, with one annotation per box that has text, in
    order, each with its box's page, rectangle and text; on each
    annotation the styles whose calls raised are skipped and all the others
    are set.  And for any library at all, making style calls raise changes
    neither whether the save succeeds nor which annotations it writes. *)
Theorem style_failure_never_aborts_save (lib : DocLib) (path : string) (pv : PageView) :
  (forall f path',
     save_core (save_pdf (with_style_raises f lib) path' pv) =
     save_core (save_pdf lib path' pv)) /\
  (open_raises lib = false ->
   (forall p, load_page_raises lib p = false) ->
   (forall p r t, add_freetext_annot_raises lib p r t = false) ->
   saveIncr_raises lib = false ->
   exists annots,
     save_pdf lib (Some path) pv = Saved annots /\
     length annots = length (List.filter has_text (box_widgets pv)) /\
     forall k a box,
       annots !! k = Some a -> List.filter has_text (box_widgets pv) !! k = Some box ->
       annot_core a = annot_args pv box /\
       styled_by (style_raises lib k) box a).
Proof.
  split.
  - intros f path'. unfold save_pdf. destruct path' as [p|]; [|done]. simpl.
    destruct (open_raises lib); [done|].
    pose proof (save_loop_style_independent lib f pv (box_widgets pv) [] [] eq_refl) as H.
    destruct (save_loop (with_style_raises f lib) pv (box_widgets pv) []) as [d'|],
             (save_loop lib pv (box_widgets pv) []) as [d|]; simpl in H; try discriminate.
    + destruct (saveIncr_raises lib); [done|]. simpl. congruence.
    + done.
  - intros Hopen Hload Hadd Hsave. unfold save_pdf. rewrite Hopen.
    destruct (save_loop_styles lib pv (box_widgets pv) [] Hload Hadd)
      as (added & Hs & Hlen & Hall).
    rewrite Hs, Hsave. exists added. split_and!; [done..|]. exact Hall.
Qed.

Lemma style_failure_never_aborts_save_witness :
  exists annots,
    save_pdf fussy_lib (Some "doc.pdf") three_boxes = Saved annots /\
    length annots = 2%nat /\
    forall k a box,
      annots !! k = Some a ->
      List.filter has_text (box_widgets three_boxes) !! k = Some box ->
      annot_core a = annot_args three_boxes box /\
      styled_by (style_raises fussy_lib k) box a.
Proof.
  destruct (style_failure_never_aborts_save fussy_lib "doc.pdf" three_boxes) as [_ H].
  destruct H as (annots & Hs & Hlen & Hall); [reflexivity..|].
  exists annots. split; [exact Hs|]. split; [|exact Hall].
  rewrite Hlen. vm_compute. reflexivity.
Defined.

(** ** Commands and their closures *)

(** Every handler passes to [push_and_do] the closure that [cmd_do] runs
    for the command it pushes: [cmd.do()] in [push_and_do] and in [redo]
    is the same function. *)
Lemma handlers_push_their_closure :
  (forall box before after s,
     _on_change_commit box before after s =
     push_and_do (cmd_do (UpdateBox box before after)) (UpdateBox box before after) s) /\
  (forall box s w,
     box ∈ boxes s -> widgets s !! box = Some w ->
     _request_delete box s =
     push_and_do (cmd_do (DeleteBox box (py_index box (boxes s)) (model w)))
       (DeleteBox box (py_index box (boxes s)) (model w)) s) /\
  (forall r s,
     add_box r s =
     push_and_do (cmd_do (AddBox (length (widgets s)))) (AddBox (length (widgets s)))
       (with_widgets (widgets s ++ [new_widget (fresh_model r s)]) s)) /\
  (forall qf fontsize s sel w,
     selected s = Some sel -> widgets s !! sel = Some w ->
     exists after,
       set_font_settings qf fontsize s =
       push_and_do (cmd_do (ChangeFont (model w) after)) (ChangeFont (model w) after)
         (with_font qf fontsize s)).
Proof.
  split_and!.
  - reflexivity.
  - intros box s w Hin Hw. unfold _request_delete.
    apply py_in_true in Hin. by rewrite Hin, Hw.
  - reflexivity.
  - intros qf fontsize s sel w Hsel Hw. unfold set_font_settings. simpl.
    rewrite Hsel, Hw. by eexists.
Qed.

(** ** Finishing an edit, and the focus *)

Lemma py_remove_app_l (b : WidgetId) (l l' : list WidgetId) :
  b ∈ l -> py_remove b (l ++ l') = py_remove b l ++ l'.
Proof.
  induction l as [|a l IH]; intros Hin; [by apply elem_of_nil in Hin|].
  simpl. destruct (decide (a = b)); [done|].
  apply elem_of_cons in Hin as [->|Hin]; [done|]. by rewrite IH.
Qed.

Lemma py_index_app_l (b : WidgetId) (l l' : list WidgetId) :
  b ∈ l -> py_index b (l ++ l') = py_index b l.
Proof.
  induction l as [|a l IH]; intros Hin; [by apply elem_of_nil in Hin|].
  simpl. destruct (decide (a = b)); [done|].
  apply elem_of_cons in Hin as [->|Hin]; [done|]. by rewrite IH.
Qed.

Lemma deselect_frame (b : WidgetId) (s : PageView) :
  focus (deselect b s) = focus s /\
  image_w_px (deselect b s) = image_w_px s /\ image_h_px (deselect b s) = image_h_px s.
Proof. unfold deselect. by destruct (decide _). Qed.

Lemma remove_box_frame (b : WidgetId) (s : PageView) :
  focus (remove_box b s) = focus s /\
  image_w_px (remove_box b s) = image_w_px s /\ image_h_px (remove_box b s) = image_h_px s.
Proof. unfold remove_box. by destruct (py_in _ _). Qed.

(** What [_on_editing_finished] leaves: the state as it was, or the state
    after one command of the box, a delete or an update, was pushed. *)
Lemma _on_editing_finished_frame (p : WidgetId) (s : PageView) :
  exists s',
    _on_editing_finished p s = Done s' /\
    image_w_px s' = image_w_px s /\ image_h_px s' = image_h_px s /\
    focus s' = focus s /\
    length (widgets s') = length (widgets s) /\
    (forall b, b <> p -> widgets s' !! b = widgets s !! b) /\
    (s' = s \/
     exists c,
       commits p c /\ pre_do c (boxes s) /\ (p < length (widgets s))%nat /\
       boxes s' = do_list c (boxes s) /\
       undo_stack s' = c :: undo_stack s /\ redo_stack s' = [] /\
       selected s' = selected_after_do c s).
Proof.
  unfold _on_editing_finished.
  destruct (widgets s !! p) as [w|] eqn:Hw; [|exists s; split_and!; auto].
  apply lookup_lt_Some in Hw as Hlt.
  destruct (String.eqb (strip (edit_text w)) "").
  - unfold _request_delete.
    destruct (py_in p (boxes s)) eqn:Hin; simpl; [|exists s; split_and!; auto].
    rewrite Hw. eexists. split; [reflexivity|]. simpl.
    rewrite widgets_deselect, boxes_deselect, undo_stack_deselect, selected_deselect. simpl.
    rewrite widgets_remove_box, boxes_remove_box, undo_stack_remove_box,
      selected_remove_box, Hin, length_alter.
    split_and!; try done.
    + unfold deselect, remove_box. destruct (decide _), (py_in _ _); reflexivity.
    + unfold deselect, remove_box. destruct (decide _), (py_in _ _); reflexivity.
    + unfold deselect, remove_box. destruct (decide _), (py_in _ _); reflexivity.
    + intros b Hb. by rewrite list_lookup_alter_ne.
    + right. eexists. split_and!; try reflexivity; try done.
      * simpl. split; [by apply py_in_true|done].
      * simpl. by rewrite Hin.
  - destruct (negb _); [|exists s; split_and!; auto].
    eexists. split; [reflexivity|]. simpl. rewrite !length_alter.
    split_and!; try done.
    + intros b Hb. by rewrite !list_lookup_alter_ne.
    + right. eexists. split_and!; try reflexivity; try done.
Qed.

(** What a move of the focus leaves: the focus is where it went, and the
    line edit that lost it, if any, has committed as above. *)
Lemma focus_moves_frame (o : option WidgetId) (s : PageView) :
  exists s',
    focus_moves o s = Done s' /\
    focus s' = o /\
    image_w_px s' = image_w_px s /\ image_h_px s' = image_h_px s /\
    length (widgets s') = length (widgets s) /\
    ((boxes s' = boxes s /\ undo_stack s' = undo_stack s /\ redo_stack s' = redo_stack s /\
      selected s' = selected s /\ widgets s' = widgets s) \/
     exists p c,
       focus s = Some p /\ o <> Some p /\
       commits p c /\ pre_do c (boxes s) /\ (p < length (widgets s))%nat /\
       boxes s' = do_list c (boxes s) /\
       undo_stack s' = c :: undo_stack s /\ redo_stack s' = [] /\
       selected s' = selected_after_do c s /\
       (forall b, b <> p -> widgets s' !! b = widgets s !! b)).
Proof.
  unfold focus_moves. destruct (focus s) as [p|] eqn:Hf.
  - destruct (decide (o = Some p)) as [->|Hne].
    + exists s. split_and!; try done. left. by split_and!.
    + destruct (_on_editing_finished_frame p (with_focus o s))
        as (s' & Hs' & Hw & Hh & Hfo & Hl & Hoth & Hcase).
      exists s'. split_and!; try done.
      destruct Hcase as [->|(c & Hc & Hpre & Hlt & Hb & Hu & Hr & Hsel)].
      * left. by split_and!.
      * right. exists p, c. by split_and!.
  - eexists. split; [reflexivity|]. simpl. split_and!; try done. left. by split_and!.
Qed.

(** A command committed by an older box while a fresh box [b] is already
    at the end of the list acts on the list before [b]. *)
Lemma do_list_snoc (c : Command) (p b : WidgetId) (l : list WidgetId) :
  commits p c -> p <> b -> pre_do c (l ++ [b]) ->
  pre_do c l /\ do_list c (l ++ [b]) = do_list c l ++ [b].
Proof.
  destruct c as [b'|b' m1 m2|m1 m2|b' idx m]; simpl; try done.
  intros -> Hne [Hin Hidx].
  assert (Hin' : p ∈ l).
  { apply elem_of_app in Hin as [Hin|Hin]; [done|].
    apply list_elem_of_singleton in Hin. by destruct Hne. }
  rewrite py_index_app_l in Hidx by done.
  apply py_in_true in Hin as ->. apply py_in_true in Hin' as Hin''. rewrite Hin''.
  split; [done|]. by apply py_remove_app_l.
Qed.

(** What the [do] of an [Add Box] leaves: the box is at the end of the
    list, selected and focused; the line edit that lost the focus may have
    pushed a command of its own. *)
Lemma AddBox_do_frame (b : WidgetId) (s : PageView) :
  exists s',
    AddBox_do b s = Done s' /\
    focus s' = Some b /\ selected s' = Some b /\
    image_w_px s' = image_w_px s /\ image_h_px s' = image_h_px s /\
    length (widgets s') = length (widgets s) /\
    widgets s' !! b = widget_set_visible true <$> widgets s !! b /\
    ((boxes s' = boxes s ++ [b] /\
      undo_stack s' = undo_stack s /\ redo_stack s' = redo_stack s /\
      widgets s' = alter (widget_set_visible true) b (widgets s)) \/
     exists p c,
       focus s = Some p /\ p <> b /\
       commits p c /\ pre_do c (boxes s ++ [b]) /\ (p < length (widgets s))%nat /\
       boxes s' = do_list c (boxes s ++ [b]) /\
       undo_stack s' = c :: undo_stack s /\ redo_stack s' = [] /\
       (forall x, x <> p ->
          widgets s' !! x = alter (widget_set_visible true) b (widgets s) !! x)).
Proof.
  unfold AddBox_do, edit_setFocus.
  set (sa := with_selected (Some b) (set_visible b true (with_boxes (boxes s ++ [b]) s))).
  destruct (focus_moves_frame (Some b) sa)
    as (s' & Hs' & Hfo & Hw & Hh & Hl & Hcase).
  assert (Hla : length (widgets sa) = length (widgets s))
    by (subst sa; simpl; by rewrite length_alter).
  assert (Hwb : widgets sa !! b = widget_set_visible true <$> widgets s !! b)
    by (subst sa; simpl; by rewrite list_lookup_alter_eq).
  exists s'. split; [exact Hs'|]. split; [exact Hfo|].
  destruct Hcase as [(Hb & Hu & Hr & Hsel & Hws)|
                     (p & c & Hfp & Hne & Hc & Hpre & Hlt & Hb & Hu & Hr & Hsel & Hoth)].
  - split_and!; try done; try congruence;
      first [by rewrite Hws | left; by split_and!].
  - assert (Hpb : p <> b) by (intros ->; by destruct Hne).
    assert (Hselb : selected s' = Some b).
    { rewrite Hsel. destruct c as [?|? ? ?|? ?|b' ? ?]; simpl in *; try done.
      subst b'. destruct (decide (Some b = Some p)) as [[= ->]|]; [by destruct Hpb|done]. }
    split_and!; try done; try congruence.
    + rewrite Hoth by done. exact Hwb.
    + right. exists p, c. split_and!; try done; try congruence.
Qed.

(** ** Geometry *)

Ltac unfold_rect :=
  cbv beta iota zeta delta
    [ends_within min_size_or_edge spec_clamp_invariant click_sized
     QRect.moved QRect.xywh QRect.corners QRect.normalized
     QRect.x QRect.y QRect.left QRect.top QRect.right QRect.bottom
     QRect.width QRect.height QRect.x1 QRect.y1 QRect.x2 QRect.y2 px py
     MIN_W MIN_H default_click_w default_click_h] in *;
  change (30 `div` 2) with 15 in *.

Ltac split_ltb :=
  repeat match goal with
  | |- context [?a <? ?b] => destruct (Z.ltb_spec a b)
  | H : context [?a <? ?b] |- _ => destruct (Z.ltb_spec a b)
  end;
  cbv beta iota zeta delta [QRect.x1 QRect.y1 QRect.x2 QRect.y2 andb] in *.

(** A rubber band that is not click-sized always gives a box: inside the
    page, at least 60 by 28 unless the page edge comes first. *)
Lemma _create_box_rect_drag (s : PageView) (rect : QRect.t) :
  0 < image_w_px s -> 0 < image_h_px s ->
  click_sized rect = false ->
  exists r,
    _create_box_rect rect true s = Some r /\
    0 <= QRect.x r /\ 0 <= QRect.y r /\
    0 < QRect.width r /\ 0 < QRect.height r /\
    ends_within (image_w_px s) (image_h_px s) r /\
    min_size_or_edge (image_w_px s) (image_h_px s) r.
Proof.
  intros HW HH Hc. unfold _create_box_rect.
  unfold click_sized in Hc. rewrite Hc. eexists. split; [reflexivity|].
  clear Hc. generalize (QRect.normalized rect). intros [a b c d].
  cbv beta iota zeta delta
    [QRect.left QRect.top QRect.right QRect.bottom
     QRect.x1 QRect.y1 QRect.x2 QRect.y2].
  set (x0 := Z.max 0 (Z.min a (image_w_px s - 1))).
  set (y0 := Z.max 0 (Z.min b (image_h_px s - 1))).
  set (x1 := Z.max 0 (Z.min c (image_w_px s - 1))).
  set (y1 := Z.max 0 (Z.min d (image_h_px s - 1))).
  assert (0 <= x0 < image_w_px s) by lia. assert (0 <= x1 < image_w_px s) by lia.
  assert (0 <= y0 < image_h_px s) by lia. assert (0 <= y1 < image_h_px s) by lia.
  clearbody x0 y0 x1 y1. unfold_rect. split_ltb; repeat split; lia.
Qed.

(** A click-sized rubber band: the box starts at the clicked column, is 30
    high and [min 360 (W - x)] wide, and is refused below 40. *)
Lemma _create_box_rect_click (s : PageView) (rect : QRect.t) :
  click_sized rect = true ->
  let x := QRect.x (QRect.normalized rect) in
  (image_w_px s - x < 40 -> _create_box_rect rect true s = None) /\
  (40 <= image_w_px s - x ->
   exists r,
     _create_box_rect rect true s = Some r /\
     QRect.x r = x /\
     QRect.width r = Z.min 360 (image_w_px s - x) /\
     40 <= QRect.width r /\
     QRect.height r = 30 /\
     QRect.x r + QRect.width r <= image_w_px s /\
     0 <= QRect.y r /\
     (30 <= image_h_px s -> QRect.y r + QRect.height r <= image_h_px s)).
Proof.
  intros Hc x. unfold _create_box_rect. unfold click_sized in Hc. rewrite Hc.
  subst x. clear Hc. split.
  - intros Hx. unfold_rect. split_ltb; try done; lia.
  - intros Hx. unfold default_click_w.
    destruct (Z.ltb_spec (Z.min 360 (image_w_px s - QRect.x (QRect.normalized rect))) 40);
      [lia|].
    eexists. split; [reflexivity|]. unfold_rect. split_ltb; lia.
Qed.

(** [add_box_at_click] of [p4.py] computes the same box from the click. *)
Lemma add_box_at_click_rect_spec (s : PageView) (p : QPoint) :
  (image_w_px s - px p < 40 -> add_box_at_click_rect p s = None) /\
  (40 <= image_w_px s - px p ->
   exists r,
     add_box_at_click_rect p s = Some r /\
     QRect.x r = px p /\
     QRect.width r = Z.min 360 (image_w_px s - px p) /\
     40 <= QRect.width r /\
     QRect.height r = 30 /\
     QRect.x r + QRect.width r <= image_w_px s /\
     0 <= QRect.y r /\
     (30 <= image_h_px s -> QRect.y r + QRect.height r <= image_h_px s)).
Proof.
  unfold add_box_at_click_rect, default_click_w. split; intros Hx.
  - destruct (Z.ltb_spec (Z.min 360 (image_w_px s - px p)) 40); [done|lia].
  - destruct (Z.ltb_spec (Z.min 360 (image_w_px s - px p)) 40); [lia|].
    eexists. split; [reflexivity|]. unfold_rect. lia.
Qed.

(** The geometry a resize drag leaves: anchored at the top-left corner of
    the start geometry, ending within the page, at least 60 by 28 unless
    the page edge comes first. *)
Lemma resize_geometry (W H : Z) (g : QRect.t) (delta : QPoint) :
  let r := resized W H g delta in
  QRect.x r = QRect.x g /\ QRect.y r = QRect.y g /\
  ends_within W H r /\ min_size_or_edge W H r.
Proof. unfold resized. unfold_rect. lia. Qed.

(** The geometry a move drag leaves: same size, not left of or above the
    page, and within it if the box fits the page at all. *)
Lemma move_geometry (W H : Z) (g : QRect.t) (delta : QPoint) :
  let r := moved_by W H g delta in
  QRect.width r = QRect.width g /\ QRect.height r = QRect.height g /\
  0 <= QRect.x r /\ 0 <= QRect.y r /\
  (QRect.width g <= W -> QRect.x r + QRect.width r <= W) /\
  (QRect.height g <= H -> QRect.y r + QRect.height r <= H).
Proof. unfold moved_by. unfold_rect. lia. Qed.

(** ** Create, move and resize on the state *)

Lemma alter_snoc {A : Type} (f : A -> A) (l : list A) (x : A) :
  alter f (length l) (l ++ [x]) = l ++ [f x].
Proof.
  replace (length l) with (length l + 0)%nat by lia.
  by rewrite alter_app_r.
Qed.

(** What [add_box] does: a fresh widget at the end of the heap, put on top
    of the collection, selected and focused, with an [Add Box] command on
    top of the undo stack, above the command, if any, of the line edit
    that lost the focus. *)
Lemma add_box_spec (r : QRect.t) (s : PageView) :
  let fresh := length (widgets s) in
  exists s1,
    add_box r s = Done s1 /\
    widgets s1 !! fresh = Some (new_widget (fresh_model r s)) /\
    length (widgets s1) = S fresh /\
    last (boxes s1) = Some fresh /\
    selected s1 = Some fresh /\ focus s1 = Some fresh /\
    redo_stack s1 = [] /\
    image_w_px s1 = image_w_px s /\ image_h_px s1 = image_h_px s /\
    ((boxes s1 = boxes s ++ [fresh] /\
      undo_stack s1 = AddBox fresh :: undo_stack s /\
      widgets s1 = widgets s ++ [new_widget (fresh_model r s)]) \/
     exists p c,
       focus s = Some p /\ p <> fresh /\ commits p c /\ (p < fresh)%nat /\
       pre_do c (boxes s ++ [fresh]) /\
       boxes s1 = do_list c (boxes s ++ [fresh]) /\
       undo_stack s1 = AddBox fresh :: c :: undo_stack s).
Proof.
  intros fresh.
  pose (s0 := with_widgets (widgets s ++ [new_widget (fresh_model r s)]) s).
  assert (Hadd : add_box r s =
                 bind (AddBox_do fresh s0)
                      (fun s1 => Done (with_stacks (AddBox fresh :: undo_stack s1) [] s1)))
    by reflexivity.
  rewrite Hadd. clear Hadd.
  destruct (AddBox_do_frame fresh s0)
    as (s' & Hs' & Hfo & Hsel & Hw & Hh & Hl & Hwf & Hcase).
  assert (Hnew : widgets s0 !! fresh = Some (new_widget (fresh_model r s))).
  { subst s0 fresh. simpl. by rewrite lookup_app_r, Nat.sub_diag. }
  assert (Hlen0 : length (widgets s0) = S fresh).
  { subst s0 fresh. simpl. rewrite length_app. simpl. lia. }
  rewrite Hnew in Hwf. simpl in Hwf.
  rewrite Hs'. simpl.
  eexists. split; [reflexivity|]. simpl.
  assert (Hlast : last (boxes s') = Some fresh).
  { destruct Hcase as [(Hb & _)|(p & c & _ & Hne & Hc & Hpre & _ & Hb & _)].
    - rewrite Hb. apply last_snoc.
    - rewrite Hb. destruct (do_list_snoc c p fresh (boxes s0) Hc Hne Hpre) as [_ ->].
      apply last_snoc. }
  split_and!; try done; try congruence.
  destruct Hcase as [(Hb & Hu & Hr & Hws)|(p & c & Hfp & Hne & Hc & Hpre & Hlt & Hb & Hu & Hr & _)].
  - left. split_and!; [done|by rewrite Hu|].
    rewrite Hws. subst s0 fresh. simpl. by rewrite alter_snoc.
  - right. exists p, c. split_and!; try done.
    + rewrite Hlen0 in Hlt. lia.
    + by rewrite Hu.
Qed.

Lemma add_box_committed (r : QRect.t) (s s1 : PageView) :
  widgets s1 !! length (widgets s) = Some (new_widget (fresh_model r s)) ->
  committed_rect s1 (length (widgets s)) = Some r.
Proof. intros Hw. unfold committed_rect, model_of. by rewrite Hw. Qed.

(** What committing a geometry change does: the live widget becomes the
    model, under an [Update Box] command. *)
Lemma _commit_geom_change_spec (s : PageView) (box : WidgetId) (w : TextBoxWidget) :
  widgets s !! box = Some w ->
  exists s1,
    _commit_geom_change box s = Done s1 /\
    widgets s1 !! box = Some (widget_set_model (live_model w) w) /\
    (forall b, b <> box -> widgets s1 !! b = widgets s !! b) /\
    length (widgets s1) = length (widgets s) /\
    boxes s1 = boxes s /\
    selected s1 = selected s /\
    undo_stack s1 = UpdateBox box (model w) (live_model w) :: undo_stack s /\
    redo_stack s1 = [] /\
    image_w_px s1 = image_w_px s /\ image_h_px s1 = image_h_px s.
Proof.
  intros Hw. unfold _commit_geom_change. rewrite Hw.
  eexists. split; [reflexivity|]. simpl. split_and!; try done.
  - by rewrite !list_lookup_alter_eq, Hw.
  - intros b Hb. by rewrite !list_lookup_alter_ne.
  - by rewrite !length_alter.
Qed.

Lemma alter_set_geometry_twice (g g' : QRect.t) (box : WidgetId) (ws : list TextBoxWidget) :
  alter (widget_set_geometry g') box (alter (widget_set_geometry g) box ws) =
  alter (widget_set_geometry g') box ws.
Proof.
  rewrite list_alter_alter_eq. by apply list_alter_ext.
Qed.

(** Every pointer move of a resize starts again from the geometry at the
    press: the last one decides. *)
Lemma foldl_resizing (box : WidgetId) (g : QRect.t) (moves : list QPoint) (s : PageView) :
  foldl (fun s delta => mouseMoveEvent_resizing box g delta s) s moves =
  match last moves with
  | Some delta => mouseMoveEvent_resizing box g delta s
  | None => s
  end.
Proof.
  induction moves as [|d moves IH] using rev_ind; [done|].
  rewrite foldl_snoc, last_snoc, IH.
  destruct (last moves) as [d'|]; [|done].
  unfold mouseMoveEvent_resizing. simpl. by rewrite alter_set_geometry_twice.
Qed.

Lemma width_moved (p : QPoint) (g : QRect.t) : QRect.width (QRect.moved p g) = QRect.width g.
Proof. unfold_rect. lia. Qed.

Lemma height_moved (p : QPoint) (g : QRect.t) : QRect.height (QRect.moved p g) = QRect.height g.
Proof. unfold_rect. lia. Qed.

Lemma moved_moved (p q : QPoint) (g : QRect.t) : QRect.moved q (QRect.moved p g) = QRect.moved q g.
Proof. unfold QRect.moved at 1 3. by rewrite width_moved, height_moved. Qed.

(** So does every pointer move of a move gesture: the box keeps its size
    while it is moved. *)
Lemma foldl_moving (box : WidgetId) (w : TextBoxWidget) (start : QPoint)
    (moves : list QPoint) (s : PageView) :
  widgets s !! box = Some w ->
  foldl (fun s delta => mouseMoveEvent_moving box start delta s) s moves =
  match last moves with
  | Some delta => mouseMoveEvent_moving box start delta s
  | None => s
  end.
Proof.
  intros Hw. induction moves as [|d moves IH] using rev_ind; [done|].
  rewrite foldl_snoc, last_snoc, IH.
  destruct (last moves) as [d'|]; [|done].
  unfold mouseMoveEvent_moving at 2. rewrite Hw.
  unfold mouseMoveEvent_moving. simpl. rewrite list_lookup_alter_eq, Hw. simpl.
  rewrite width_moved, height_moved, moved_moved. by rewrite alter_set_geometry_twice.
Qed.

(** What a gesture that ends with the geometry [g] on the box leaves. *)
Lemma gesture_commit (s : PageView) (box : WidgetId) (w : TextBoxWidget) (g : QRect.t) :
  widgets s !! box = Some w ->
  exists s1,
    _commit_geom_change box
      (with_widgets (alter (widget_set_geometry g) box (widgets (_on_selected box s)))
         (_on_selected box s)) = Done s1 /\
    committed_rect s1 box = Some g /\
    model_of s1 box = Some (live_model (widget_set_geometry g w)) /\
    widgets s1 !! box =
      Some (widget_set_model (live_model (widget_set_geometry g w)) w) /\
    (forall b, b <> box -> widgets s1 !! b = widgets s !! b) /\
    boxes s1 = boxes s /\
    selected s1 = Some box /\ focus s1 = focus s /\
    undo_stack s1 =
      UpdateBox box (model w) (live_model (widget_set_geometry g w)) :: undo_stack s /\
    redo_stack s1 = [].
Proof.
  intros Hw. unfold _commit_geom_change. simpl.
  rewrite list_lookup_alter_eq, Hw. simpl.
  eexists. split; [reflexivity|]. unfold committed_rect, model_of. simpl.
  rewrite !list_lookup_alter_eq, Hw. simpl. split_and!; try done.
  intros b Hb. by rewrite !list_lookup_alter_ne.
Qed.

(** Setting a widget's geometry to the one it has changes nothing the
    engine reads. *)
Lemma alter_set_geometry_same (box : WidgetId) (w : TextBoxWidget) (ws : list TextBoxWidget) :
  ws !! box = Some w -> alter (widget_set_geometry (geometry w)) box ws = ws.
Proof.
  intros Hw. apply list_eq. intros i. rewrite list_lookup_alter.
  destruct (decide (box = i)) as [<-|]; [|done]. rewrite Hw. simpl. by destruct w.
Qed.

(** A resize gesture selects the box and commits the geometry its last
    [mouseMoveEvent] computed, or the geometry at the press. *)
Lemma resize_gesture_spec (s : PageView) (box : WidgetId) (w : TextBoxWidget)
    (moves : list QPoint) :
  widgets s !! box = Some w ->
  let g := gesture_end (resized (image_w_px s) (image_h_px s) (geometry w)) (geometry w) moves in
  exists s1,
    resize_gesture box moves s = Done s1 /\
    committed_rect s1 box = Some g /\
    model_of s1 box = Some (live_model (widget_set_geometry g w)) /\
    widgets s1 !! box =
      Some (widget_set_model (live_model (widget_set_geometry g w)) w) /\
    (forall b, b <> box -> widgets s1 !! b = widgets s !! b) /\
    boxes s1 = boxes s /\
    selected s1 = Some box /\ focus s1 = focus s /\
    undo_stack s1 =
      UpdateBox box (model w) (live_model (widget_set_geometry g w)) :: undo_stack s /\
    redo_stack s1 = [].
Proof.
  intros Hw g. unfold resize_gesture. rewrite Hw, foldl_resizing.
  subst g. unfold gesture_end. destruct (last moves) as [d|].
  - apply (gesture_commit s box w _ Hw).
  - destruct (gesture_commit s box w (geometry w) Hw) as (s1 & Hs1 & H).
    exists s1. split; [|exact H].
    rewrite <- Hs1. f_equal. simpl. by rewrite alter_set_geometry_same.
Qed.

(** A move gesture selects the box and commits the position its last
    [mouseMoveEvent] computed, or the position at the press. *)
Lemma move_gesture_spec (s : PageView) (box : WidgetId) (w : TextBoxWidget)
    (moves : list QPoint) :
  widgets s !! box = Some w ->
  let g := gesture_end (moved_by (image_w_px s) (image_h_px s) (geometry w)) (geometry w) moves in
  exists s1,
    move_gesture box moves s = Done s1 /\
    committed_rect s1 box = Some g /\
    model_of s1 box = Some (live_model (widget_set_geometry g w)) /\
    widgets s1 !! box =
      Some (widget_set_model (live_model (widget_set_geometry g w)) w) /\
    (forall b, b <> box -> widgets s1 !! b = widgets s !! b) /\
    boxes s1 = boxes s /\
    selected s1 = Some box /\ focus s1 = focus s /\
    undo_stack s1 =
      UpdateBox box (model w) (live_model (widget_set_geometry g w)) :: undo_stack s /\
    redo_stack s1 = [].
Proof.
  intros Hw g. unfold move_gesture. rewrite Hw.
  rewrite (foldl_moving box w) by exact Hw.
  subst g. unfold gesture_end. destruct (last moves) as [d|].
  - unfold mouseMoveEvent_moving. simpl. rewrite Hw.
    apply (gesture_commit s box w _ Hw).
  - destruct (gesture_commit s box w (geometry w) Hw) as (s1 & Hs1 & H).
    exists s1. split; [|exact H].
    rewrite <- Hs1. f_equal. simpl. by rewrite alter_set_geometry_same.
Qed.

(** C2, as stated, fails: a click at (750, 400) on a page of 800 by 1000
    pixels commits a box 50 pixels wide, in [marquette.py] and in [p4.py]
    alike; the page edge takes precedence over the minimum width. *)
Lemma geometry_clamp_counterexample :
  exists s1 s2 r,
    click 750 400 page_800x1000 = Done s1 /\
    add_box_at_click {| px := 750; py := 400 |} page_800x1000 = Done s2 /\
    boxes s1 = [0%nat] /\ boxes s2 = [0%nat] /\
    committed_rect s1 0%nat = Some r /\
    committed_rect s2 0%nat = Some r /\
    r = QRect.xywh 750 385 50 30 /\
    ~ spec_clamp_invariant 800 1000 r.
Proof.
  do 3 eexists. split_and!; try (vm_compute; reflexivity).
  unfold spec_clamp_invariant. vm_compute. intros (_ & _ & _ & _ & H & _). by apply H.
Qed.

(** A press on the handle that is released without any pointer move
    commits the geometry the box has.  After a zoom-out, which rescales no
    box, that geometry can end outside the page: the box of 305 pixels at
    [x = 100], on a page now 400 pixels wide. *)
Lemma release_without_move_commits_as_is :
  exists s0 s1 r,
    run_op (Create (QRect.xywh 100 100 305 30)) page_800x1000 = Done s0 /\
    resize_gesture 0%nat [] (set_rendered_page 400 500 0 1 s0) = Done s1 /\
    image_w_px s1 = 400 /\
    committed_rect s1 0%nat = Some r /\
    r = QRect.xywh 100 100 305 30 /\
    ~ ends_within 400 500 r.
Proof.
  do 3 eexists. split_and!; try (vm_compute; reflexivity).
  unfold ends_within. vm_compute. intros [H _]. by apply H.
Qed.

(** C2, amended.  On a rendered page of [W] by [H] pixels ([W, H > 0]):
    - a drag-type create always commits a box with [0 <= x], [0 <= y],
      [x + width <= W], [y + height <= H], and [width >= 60],
      [height >= 28] unless the box reaches the page edge first;
    - a click-type create (a click-sized rubber band in [marquette.py],
      any click in [p4.py]) commits nothing when fewer than 40 pixels are
      left to the right of the click, and otherwise a box at the clicked
      column, 30 high and [min 360 (W - x)] wide (so at least 40, not 60),
      with [x + width <= W], [0 <= y], and [y + height <= H] when
      [H >= 30];
    - a resize in which the pointer moved, of a box whose top-left corner
      is on the page, keeps that corner and commits [x + width <= W],
      [y + height <= H], and [width >= 60], [height >= 28] unless the box
      reaches the page edge first;
    - a move in which the pointer moved keeps the size and commits
      [0 <= x], [0 <= y], and [x + width <= W], [y + height <= H] whenever
      the box is no larger than the page;
    - a resize or move released without any pointer move commits the
      geometry the box has, unchanged.
    The created box is the topmost of the collection. *)
Theorem geometry_clamp_amended (s : PageView) :
  0 < image_w_px s -> 0 < image_h_px s ->
  let W := image_w_px s in
  let H := image_h_px s in
  let fresh := length (widgets s) in
  (forall rect, click_sized rect = false ->
     exists s1 r,
       _create_box rect true s = Done s1 /\
       last (boxes s1) = Some fresh /\
       committed_rect s1 fresh = Some r /\
       0 <= QRect.x r /\ 0 <= QRect.y r /\
       ends_within W H r /\ min_size_or_edge W H r) /\
  (forall rect, click_sized rect = true ->
     let x := QRect.x (QRect.normalized rect) in
     (W - x < 40 -> _create_box rect true s = Done s) /\
     (40 <= W - x ->
      exists s1 r,
        _create_box rect true s = Done s1 /\
        last (boxes s1) = Some fresh /\
        committed_rect s1 fresh = Some r /\
        QRect.x r = x /\ QRect.width r = Z.min 360 (W - x) /\ 40 <= QRect.width r /\
        QRect.height r = 30 /\ QRect.x r + QRect.width r <= W /\ 0 <= QRect.y r /\
        (30 <= H -> QRect.y r + QRect.height r <= H))) /\
  (forall p,
     (W - px p < 40 -> add_box_at_click p s = Done s) /\
     (40 <= W - px p ->
      exists s1 r,
        add_box_at_click p s = Done s1 /\
        last (boxes s1) = Some fresh /\
        committed_rect s1 fresh = Some r /\
        QRect.x r = px p /\ QRect.width r = Z.min 360 (W - px p) /\ 40 <= QRect.width r /\
        QRect.height r = 30 /\ QRect.x r + QRect.width r <= W /\ 0 <= QRect.y r /\
        (30 <= H -> QRect.y r + QRect.height r <= H))) /\
  (forall box w moves delta,
     widgets s !! box = Some w -> last moves = Some delta ->
     QRect.x (geometry w) <= W -> QRect.y (geometry w) <= H ->
     exists s1 r,
       resize_gesture box moves s = Done s1 /\
       committed_rect s1 box = Some r /\
       QRect.x r = QRect.x (geometry w) /\ QRect.y r = QRect.y (geometry w) /\
       0 <= QRect.width r /\ 0 <= QRect.height r /\
       ends_within W H r /\ min_size_or_edge W H r) /\
  (forall box w moves delta,
     widgets s !! box = Some w -> last moves = Some delta ->
     exists s1 r,
       move_gesture box moves s = Done s1 /\
       committed_rect s1 box = Some r /\
       QRect.width r = QRect.width (geometry w) /\
       QRect.height r = QRect.height (geometry w) /\
       0 <= QRect.x r /\ 0 <= QRect.y r /\
       (QRect.width (geometry w) <= W -> QRect.x r + QRect.width r <= W) /\
       (QRect.height (geometry w) <= H -> QRect.y r + QRect.height r <= H)) /\
  (forall box w,
     widgets s !! box = Some w ->
     exists s1 s2,
       resize_gesture box [] s = Done s1 /\
       committed_rect s1 box = Some (geometry w) /\
       move_gesture box [] s = Done s2 /\
       committed_rect s2 box = Some (geometry w)).
Proof.
  intros HW HH W H fresh. split_and!.
  - intros rect Hc.
    destruct (_create_box_rect_drag s rect HW HH Hc) as (r & Hr & Hx & Hy & _ & _ & He & Hm).
    destruct (add_box_spec r s) as (s1 & Hs1 & Hw1 & _ & Hb1 & _).
    exists s1, r. unfold _create_box. rewrite Hr. split_and!; try done.
    by apply add_box_committed.
  - intros rect Hc x.
    destruct (_create_box_rect_click s rect Hc) as [Hnone Hsome]. split.
    + intros Hx. unfold _create_box. by rewrite (Hnone Hx).
    + intros Hx. destruct (Hsome Hx) as (r & Hr & ? & ? & ? & ? & ? & ? & ?).
      destruct (add_box_spec r s) as (s1 & Hs1 & Hw1 & _ & Hb1 & _).
      exists s1, r. unfold _create_box. rewrite Hr. split_and!; try done.
      by apply add_box_committed.
  - intros p. destruct (add_box_at_click_rect_spec s p) as [Hnone Hsome]. split.
    + intros Hx. unfold add_box_at_click. by rewrite (Hnone Hx).
    + intros Hx. destruct (Hsome Hx) as (r & Hr & ? & ? & ? & ? & ? & ? & ?).
      destruct (add_box_spec r s) as (s1 & Hs1 & Hw1 & _ & Hb1 & _).
      exists s1, r. unfold add_box_at_click. rewrite Hr. split_and!; try done.
      by apply add_box_committed.
  - intros box w moves delta Hw Hlast Hx Hy.
    destruct (resize_gesture_spec s box w moves Hw) as (s1 & Hs1 & Hc & _).
    unfold gesture_end in Hc. rewrite Hlast in Hc.
    eexists s1, _. split; [exact Hs1|]. split; [exact Hc|].
    destruct (resize_geometry W H (geometry w) delta) as (H1 & H2 & H3 & H4).
    split_and!; try done.
    + unfold resized. unfold_rect. subst W. lia.
    + unfold resized. unfold_rect. subst H. lia.
  - intros box w moves delta Hw Hlast.
    destruct (move_gesture_spec s box w moves Hw) as (s1 & Hs1 & Hc & _).
    unfold gesture_end in Hc. rewrite Hlast in Hc.
    eexists s1, _. split; [exact Hs1|]. split; [exact Hc|].
    apply (move_geometry W H (geometry w) delta).
  - intros box w Hw.
    destruct (resize_gesture_spec s box w [] Hw) as (s1 & Hs1 & Hc1 & _).
    destruct (move_gesture_spec s box w [] Hw) as (s2 & Hs2 & Hc2 & _).
    by exists s1, s2.
Qed.

Lemma geometry_clamp_amended_witness :
  (exists s1 r,
     _create_box (QRect.xywh 700 950 200 100) true page_800x1000 = Done s1 /\
     last (boxes s1) = Some (length (widgets page_800x1000)) /\
     committed_rect s1 (length (widgets page_800x1000)) = Some r /\
     0 <= QRect.x r /\ 0 <= QRect.y r /\
     ends_within 800 1000 r /\ min_size_or_edge 800 1000 r) /\
  (exists s1 r,
     resize_gesture 0%nat [{| px := 200; py := 5 |}; {| px := 500; py := -40 |}] one_box
       = Done s1 /\
     committed_rect s1 0%nat = Some r /\
     QRect.x r = 30 /\ QRect.y r = 385 /\
     0 <= QRect.width r /\ 0 <= QRect.height r /\
     ends_within 800 1000 r /\ min_size_or_edge 800 1000 r).
Proof.
  split.
  - destruct (geometry_clamp_amended page_800x1000) as (H & _); [reflexivity..|].
    apply (H (QRect.xywh 700 950 200 100)). reflexivity.
  - destruct (geometry_clamp_amended one_box) as (_ & _ & _ & H & _); [reflexivity..|].
    match eval vm_compute in (widgets one_box !! 0%nat) with
    | Some ?w =>
        apply (H 0%nat w [{| px := 200; py := 5 |}; {| px := 500; py := -40 |}]
                 {| px := 500; py := -40 |})
    end; [reflexivity|reflexivity|vm_compute; discriminate|vm_compute; discriminate].
Defined.

(** C3.  The click of the scenario commits the pixel rectangle
    (30, 385, 360, 30), as claimed.  [px_rect_to_pdf_rect] then divides
    [left()], [top()], [right()] and [bottom()] by the zoom, and Qt's
    [right()] and [bottom()] are [x + width - 1] and [y + height - 1]: the
    document rectangle is (15, 192.5, 194.5, 207), not the
    (15, 192.5, 195, 207.5) that dividing the box's edges gives. *)
Theorem click_create_scenario :
  exists s1 r,
    click 30 400 page_800x1000 = Done s1 /\
    boxes s1 = [0%nat] /\
    committed_rect s1 0%nat = Some r /\
    r = QRect.xywh 30 385 360 30 /\
    QRect.right r = 389 /\ QRect.bottom r = 414 /\
    fitz_Rect_eq (px_rect_to_pdf_rect s1 r)
      {| fx0 := 15; fy0 := 385 # 2; fx1 := 389 # 2; fy1 := 207 |} /\
    ~ fitz_Rect_eq (px_rect_to_pdf_rect s1 r)
      {| fx0 := 15; fy0 := 385 # 2; fx1 := 195; fy1 := 415 # 2 |}.
Proof.
  do 2 eexists. split_and!; try (vm_compute; reflexivity).
  - vm_compute. by split_and!.
  - vm_compute. intros (_ & _ & H & _). discriminate H.
Qed.

(** ** Restyle *)

(** C8, as stated, fails in both halves.  With nothing selected,
    [set_font_settings] pushes no command but the same click afterwards
    creates a box with the new font and size, where it would have created
    one in Arial 12.  With a box selected whose editor holds a blank more
    than its committed text, the one command pushed sets the box's text as
    well as its font and size. *)
Lemma restyle_claim_counterexample :
  (selected page_800x1000 = None /\
   exists s1 a b,
     set_font_settings "Courier New" 20 page_800x1000 = Done s1 /\
     undo_stack s1 = [] /\
     click 30 400 s1 = Done a /\
     click 30 400 page_800x1000 = Done b /\
     (qfont <$> model_of a 0%nat) = Some "Courier New" /\
     (qfont <$> model_of b 0%nat) = Some "Arial" /\
     collection a <> collection b) /\
  (selected trailing_blank = Some 0%nat /\
   exists s1,
     set_font_settings "Courier New" 20 trailing_blank = Done s1 /\
     length (undo_stack s1) = S (length (undo_stack trailing_blank)) /\
     (text <$> model_of trailing_blank 0%nat) = Some "hi" /\
     (text <$> model_of s1 0%nat) = Some "hi ").
Proof.
  split.
  - split; [reflexivity|]. do 3 eexists.
    split; [vm_compute; reflexivity|].
    split; [reflexivity|].
    split; [vm_compute; reflexivity|].
    split; [vm_compute; reflexivity|].
    split; [vm_compute; reflexivity|].
    split; [vm_compute; reflexivity|].
    vm_compute. discriminate.
  - split; [reflexivity|]. eexists.
    split; [vm_compute; reflexivity|].
    split_and!; vm_compute; reflexivity.
Qed.

(** C8, amended.  With a box selected, a font or size change pushes exactly
    one command; only the selected widget changes, the collection and the
    selection do not; the box gets the new family and size, keeps its page,
    and its model's rectangle and text are read from the widget's geometry
    and editor, which stay as they are, so that a box whose model agrees
    with its widget changes in its two font fields only.  With no box
    selected no command is pushed and the collection, the widgets, the
    selection and both stacks are unchanged; only the view's current font
    and size, used for boxes created later, are updated. *)
Theorem restyle_targets_selection (s : PageView) (qf : string) (fontsize : Z) :
  (selected s = None ->
   exists s1,
     set_font_settings qf fontsize s = Done s1 /\
     undo_stack s1 = undo_stack s /\ redo_stack s1 = redo_stack s /\
     boxes s1 = boxes s /\ widgets s1 = widgets s /\ selected s1 = None /\
     current_qfont s1 = qf /\ current_fontsize s1 = fontsize) /\
  (forall sel w, selected s = Some sel -> widgets s !! sel = Some w ->
   exists s1 w1,
     set_font_settings qf fontsize s = Done s1 /\
     undo_stack s1 = ChangeFont (model w) (model w1) :: undo_stack s /\
     redo_stack s1 = [] /\
     boxes s1 = boxes s /\ selected s1 = Some sel /\
     (forall b, b <> sel -> widgets s1 !! b = widgets s !! b) /\
     widgets s1 !! sel = Some w1 /\
     qfont (model w1) = qf /\ fontsize_pt (model w1) = fontsize /\
     page_index (model w1) = page_index (model w) /\
     rect_px (model w1) = geometry w /\ text (model w1) = edit_text w /\
     geometry w1 = geometry w /\ edit_text w1 = edit_text w /\
     visible w1 = visible w /\
     (geometry w = rect_px (model w) -> edit_text w = text (model w) ->
      model w1 =
        {| page_index := page_index (model w); rect_px := rect_px (model w);
           text := text (model w); qfont := qf; fontsize_pt := fontsize |})).
Proof.
  split.
  - intros Hsel. unfold set_font_settings. simpl. rewrite Hsel.
    eexists. split; [reflexivity|]. by simpl.
  - intros sel w Hsel Hw. unfold set_font_settings. simpl. rewrite Hsel, Hw.
    unfold push_and_do, ChangeFont_do. simpl. rewrite Hsel. simpl.
    eexists _, (widget_set_model
                  {| page_index := page_index (model w); rect_px := geometry w;
                     text := edit_text w; qfont := qf; fontsize_pt := fontsize |} w).
    split; [reflexivity|]. simpl.
    rewrite list_lookup_alter_eq, Hw. simpl.
    split_and!; try reflexivity.
    + done.
    + intros b Hb. by rewrite list_lookup_alter_ne.
    + intros -> ->. reflexivity.
Qed.

Lemma restyle_targets_selection_witness :
  (exists s1,
     set_font_settings "Times New Roman" 14 page_800x1000 = Done s1 /\
     undo_stack s1 = undo_stack page_800x1000 /\
     redo_stack s1 = redo_stack page_800x1000 /\
     boxes s1 = boxes page_800x1000 /\ widgets s1 = widgets page_800x1000 /\
     selected s1 = None /\
     current_qfont s1 = "Times New Roman" /\ current_fontsize s1 = 14) /\
  (exists s1 m1,
     set_font_settings "Times New Roman" 14 one_box = Done s1 /\
     length (undo_stack s1) = S (length (undo_stack one_box)) /\
     boxes s1 = boxes one_box /\ selected s1 = Some 0%nat /\
     model_of s1 0%nat = Some m1 /\
     qfont m1 = "Times New Roman" /\ fontsize_pt m1 = 14 /\
     Some m1 =
       (fun m => {| page_index := page_index m; rect_px := rect_px m; text := text m;
                    qfont := "Times New Roman"; fontsize_pt := 14 |})
         <$> model_of one_box 0%nat).
Proof.
  split.
  - destruct (restyle_targets_selection page_800x1000 "Times New Roman" 14) as [H _].
    apply H. reflexivity.
  - destruct (restyle_targets_selection one_box "Times New Roman" 14) as [_ H].
    match eval vm_compute in (widgets one_box !! 0%nat) with
    | Some ?w =>
        destruct (H 0%nat w eq_refl eq_refl)
          as (s1 & w1 & Hs1 & Hu & _ & Hb & Hsel & _ & Hw1 & Hq & Hf & _ & _ & _ & _ & _ & _ & Hm)
    end.
    exists s1, (model w1). split; [exact Hs1|]. split; [by rewrite Hu|].
    split; [exact Hb|]. split; [exact Hsel|].
    split; [unfold model_of; by rewrite Hw1|]. split; [exact Hq|]. split; [exact Hf|].
    rewrite Hm; reflexivity.
Defined.

(** ** The undo round trip *)

Lemma undo_times_snoc (k : nat) (s : PageView) :
  undo_times (S k) s = bind (undo_times k s) undo.
Proof.
  revert s. induction k as [|k IH]; intros s.
  - simpl. by destruct (undo s).
  - change (undo_times (S (S k)) s) with (bind (undo s) (undo_times (S k))).
    change (undo_times (S k) s) with (bind (undo s) (undo_times k)).
    destruct (undo s) as [s'|s']; simpl; [|done]. apply IH.
Qed.

Lemma model_of_set_model (s : PageView) (box b : WidgetId) (m : BoxModel) :
  model_of (set_model box m s) b =
  if decide (box = b) then (fun _ => m) <$> widgets s !! box else model_of s b.
Proof. unfold model_of, set_model. simpl. apply model_alter_set_model. Qed.

Lemma model_of_set_visible (s : PageView) (box b : WidgetId) (v : bool) :
  model_of (set_visible box v s) b = model_of s b.
Proof. unfold model_of, set_visible. simpl. apply model_alter_set_visible. Qed.

Lemma model_of_deselect (s : PageView) (box b : WidgetId) :
  model_of (deselect box s) b = model_of s b.
Proof. unfold model_of. by rewrite widgets_deselect. Qed.

Lemma model_of_remove_box (s : PageView) (box b : WidgetId) :
  model_of (remove_box box s) b = model_of s b.
Proof. unfold model_of. by rewrite widgets_remove_box. Qed.

Lemma model_of_with_stacks (s : PageView) (u r : list Command) (b : WidgetId) :
  model_of (with_stacks u r s) b = model_of s b.
Proof. reflexivity. Qed.

Lemma model_of_with_boxes (s : PageView) (bs : list WidgetId) (b : WidgetId) :
  model_of (with_boxes bs s) b = model_of s b.
Proof. reflexivity. Qed.

Lemma model_of_with_selected (s : PageView) (o : option WidgetId) (b : WidgetId) :
  model_of (with_selected o s) b = model_of s b.
Proof. reflexivity. Qed.

Create Rewrite HintDb pv.

#[local] Hint Rewrite model_of_with_stacks model_of_with_boxes model_of_with_selected
  model_of_deselect model_of_set_visible model_of_remove_box : pv.

Lemma model_of_lt (s : PageView) (b : WidgetId) :
  (b < length (widgets s))%nat -> exists m, model_of s b = Some m.
Proof.
  intros Hb. destruct (lookup_lt_is_Some_2 _ _ Hb) as [w Hw].
  exists (model w). unfold model_of. by rewrite Hw.
Qed.

(** C1.  One box, holding "hi" and selected: restyle it, then create a
    second box.  Both operations return and two commands are on the
    stack.  The first [undo()] removes the second box and, that box being
    the selection, leaves nothing selected.  The second [undo()] runs the
    restyle's [undo] closure, which looks up [self.selected] at that
    moment, finds [None] and raises: the command is lost and the first box
    keeps Courier New 20 where it had Arial 12.  The round trip fails.  It
    holds for the same two operations with a retext in place of the
    restyle: the closures of [Update Box] capture their box. *)
Theorem undo_round_trip_scenario :
  wf one_box /\
  (exists s1 s2 s3,
     run_ops restyle_then_create one_box = Done s1 /\
     pushed one_box s1 = 2%nat /\
     undo s1 = Done s2 /\
     boxes s2 = boxes one_box /\ selected s2 = None /\
     undo s2 = Raised s3 /\
     undo_times 2 s1 = Raised s3 /\
     undo_stack s3 = undo_stack one_box /\
     (qfont <$> model_of one_box 0%nat) = Some "Arial" /\
     (fontsize_pt <$> model_of one_box 0%nat) = Some 12 /\
     (qfont <$> model_of s3 0%nat) = Some "Courier New" /\
     (fontsize_pt <$> model_of s3 0%nat) = Some 20 /\
     collection s3 <> collection one_box) /\
  ~ undo_round_trip one_box restyle_then_create /\
  undo_round_trip one_box retext_then_create.
Proof.
  split; [apply wfb_sound; vm_compute; reflexivity|]. split; [|split].
  - do 3 eexists. split; [vm_compute; reflexivity|].
    split; [vm_compute; reflexivity|].
    split; [vm_compute; reflexivity|].
    split; [vm_compute; reflexivity|].
    split; [vm_compute; reflexivity|].
    split; [vm_compute; reflexivity|].
    split; [vm_compute; reflexivity|].
    split_and!; try (vm_compute; reflexivity).
    vm_compute. discriminate.
  - intros (s1 & s2 & H1 & H2 & _).
    vm_compute in H1. injection H1 as <-. vm_compute in H2. discriminate H2.
  - do 2 eexists. split; [vm_compute; reflexivity|].
    split; vm_compute; reflexivity.
Qed.

(** ** Sessions: what every reachable state satisfies *)

Lemma do_then_undo_list (c : Command) (l : list WidgetId) :
  NoDup l -> pre_do c l ->
  undo_list c (do_list c l) = l /\ pre_undo c (do_list c l) /\ NoDup (do_list c l).
Proof.
  intros Hnd Hpre. destruct c as [b|b m1 m2|m1 m2|b idx m]; simpl in *; try done.
  - assert (Hin : py_in b (l ++ [b]) = true).
    { apply py_in_true, elem_of_app. right. by apply list_elem_of_singleton. }
    rewrite Hin. split_and!.
    + by apply py_remove_app_fresh.
    + by exists l.
    + apply NoDup_app. split_and!; [done| |apply NoDup_singleton].
      intros x Hx Hx'. apply list_elem_of_singleton in Hx'. by subst x.
  - destruct Hpre as [Hin <-]. apply py_in_true in Hin as Hin'. rewrite Hin'.
    destruct (py_remove_NoDup b l Hnd) as [Hnd' Hni]. split_and!; try done.
    + by apply py_insert_index_remove.
    + rewrite py_remove_delete, length_delete.
      * pose proof (py_index_lookup b l Hin) as Hl. apply lookup_lt_Some in Hl. lia.
      * rewrite (py_index_lookup b l Hin). by eexists.
Qed.

Lemma undo_then_do_list (c : Command) (l : list WidgetId) :
  NoDup l -> pre_undo c l ->
  do_list c (undo_list c l) = l /\ pre_do c (undo_list c l) /\ NoDup (undo_list c l).
Proof.
  intros Hnd Hpre. destruct c as [b|b m1 m2|m1 m2|b idx m]; simpl in *; try done.
  - destruct Hpre as (l' & -> & Hni).
    assert (Hin : py_in b (l' ++ [b]) = true).
    { apply py_in_true, elem_of_app. right. by apply list_elem_of_singleton. }
    rewrite Hin, py_remove_app_fresh by done. split_and!; try done.
    by apply NoDup_app in Hnd as (? & _).
  - destruct Hpre as [Hni Hidx].
    assert (Hin : py_in b (py_insert idx b l) = true).
    { apply py_in_true, elem_of_py_insert. by left. }
    rewrite Hin. split_and!.
    + by apply py_remove_insert.
    + apply elem_of_py_insert. by left.
    + by apply py_index_insert.
    + by apply py_insert_NoDup.
Qed.

Lemma elem_of_do_list (c : Command) (l : list WidgetId) (n : nat) (x : WidgetId) :
  cmd_box_lt n c -> (forall b, b ∈ l -> (b < n)%nat) -> x ∈ do_list c l -> (x < n)%nat.
Proof.
  intros Hc Hl. destruct c as [b|b m1 m2|m1 m2|b idx m]; simpl in *; auto.
  - intros [Hx|Hx]%elem_of_app; [auto|]. apply list_elem_of_singleton in Hx. by subst.
  - destruct (py_in b l); [|auto]. intros Hx. by apply Hl, (elem_of_py_remove _ b).
Qed.

Lemma elem_of_undo_list (c : Command) (l : list WidgetId) (n : nat) (x : WidgetId) :
  cmd_box_lt n c -> (forall b, b ∈ l -> (b < n)%nat) -> x ∈ undo_list c l -> (x < n)%nat.
Proof.
  intros Hc Hl. destruct c as [b|b m1 m2|m1 m2|b idx m]; simpl in *; auto.
  - destruct (py_in b l); [|auto]. intros Hx. by apply Hl, (elem_of_py_remove _ b).
  - intros [->|Hx]%elem_of_py_insert; auto.
Qed.

(** What [cmd.do()] does to the parts of the state the invariant reads.
    The [do] of an [Add Box] may have a command pushed from inside it, by
    the line edit that loses the focus. *)
Lemma cmd_do_frame (c : Command) (s : PageView) :
  match cmd_do c s with
  | Raised s1 => s1 = s /\ (exists b a, c = ChangeFont b a) /\ selected s = None
  | Done s1 =>
      length (widgets s1) = length (widgets s) /\
      ((boxes s1 = do_list c (boxes s) /\
        undo_stack s1 = undo_stack s /\ redo_stack s1 = redo_stack s /\
        (selected s1 = selected s \/ selected s1 = None \/
         exists b, c = AddBox b /\ selected s1 = Some b)) \/
       (exists b p c',
          c = AddBox b /\ p <> b /\ commits p c' /\ (p < length (widgets s))%nat /\
          pre_do c' (boxes s ++ [b]) /\
          boxes s1 = do_list c' (boxes s ++ [b]) /\
          undo_stack s1 = c' :: undo_stack s /\ redo_stack s1 = [] /\
          selected s1 = Some b))
  end.
Proof.
  destruct c as [b|b m1 m2|m1 m2|b idx m]; simpl.
  - destruct (AddBox_do_frame b s)
      as (s' & -> & Hfo & Hsel & _ & _ & Hl & _ & Hcase).
    split; [done|].
    destruct Hcase as [(Hb & Hu & Hr & _)|(p & c & _ & Hne & Hc & Hpre & Hlt & Hb & Hu & Hr & _)].
    + left. split_and!; try done. right. right. by exists b.
    + right. exists b, p, c. by split_and!.
  - unfold UpdateBox_do. simpl. rewrite !length_alter. split; [done|].
    left. split_and!; try done. by left.
  - unfold ChangeFont_do. destruct (selected s) as [sel|] eqn:Hsel; simpl.
    + rewrite length_alter, Hsel. split; [done|]. left. split_and!; try done. by left.
    + split_and!; try done. by exists m1, m2.
  - unfold DeleteBox_do.
    rewrite boxes_deselect, widgets_deselect, undo_stack_deselect, redo_stack_deselect,
      selected_deselect. simpl.
    rewrite boxes_remove_box, widgets_remove_box, undo_stack_remove_box,
      redo_stack_remove_box, selected_remove_box, length_alter.
    split; [done|]. left.
    split_and!; try done. destruct (decide _); [right; by left|by left].
Qed.

Lemma cmd_undo_frame (c : Command) (s : PageView) :
  match cmd_undo c s with
  | Raised s1 => s1 = s /\ (exists b a, c = ChangeFont b a) /\ selected s = None
  | Done s1 =>
      boxes s1 = undo_list c (boxes s) /\
      length (widgets s1) = length (widgets s) /\
      undo_stack s1 = undo_stack s /\ redo_stack s1 = redo_stack s /\
      (selected s1 = selected s \/ selected s1 = None)
  end.
Proof.
  destruct c as [b|b m1 m2|m1 m2|b idx m]; simpl.
  - rewrite boxes_deselect, widgets_deselect, undo_stack_deselect, redo_stack_deselect,
      selected_deselect. simpl.
    rewrite boxes_remove_box, widgets_remove_box, undo_stack_remove_box,
      redo_stack_remove_box, selected_remove_box, length_alter.
    split_and!; try done. destruct (decide _); [by right|by left].
  - rewrite !length_alter. split_and!; try done. by left.
  - destruct (selected s) as [sel|] eqn:Hsel; simpl.
    + rewrite length_alter, Hsel. split_and!; try done. by left.
    + split_and!; try done. by exists m1, m2.
  - rewrite !length_alter. split_and!; try done. by left.
Qed.

Lemma Forall_cmd_box_lt_mono (n m : nat) (stack : list Command) :
  (n <= m)%nat -> Forall (cmd_box_lt n) stack -> Forall (cmd_box_lt m) stack.
Proof.
  intros Hnm H. eapply Forall_impl; [exact H|].
  intros [b|b ? ?|? ?|b ? ?]; simpl; lia.
Qed.

(** Steps that touch neither the collection nor the stacks and do not
    shrink the heap keep the invariant. *)
Lemma history_ok_frame (s s' : PageView) :
  history_ok s ->
  boxes s' = boxes s -> undo_stack s' = undo_stack s -> redo_stack s' = redo_stack s ->
  (length (widgets s) <= length (widgets s'))%nat ->
  (forall b, selected s' = Some b -> (b < length (widgets s'))%nat) ->
  history_ok s'.
Proof.
  intros ((Hnd & Hbx & Hsl) & Hu & Hr & Hfu & Hfr) Hb Hus Hrs Hl Hsel.
  unfold history_ok, wf. rewrite Hb, Hus, Hrs. split_and!; try done.
  - intros b Hb'. apply Hbx in Hb'. lia.
  - by apply (Forall_cmd_box_lt_mono (length (widgets s))).
  - by apply (Forall_cmd_box_lt_mono (length (widgets s))).
Qed.

(** The list of boxes and the undo stack once an older box has committed
    a command from inside the [do] of the [Add Box] of [b]. *)
Lemma nested_commit_ok (l : list WidgetId) (U : list Command) (b p : WidgetId) (c : Command) :
  NoDup l -> b ∉ l -> undo_ok l U ->
  commits p c -> p <> b -> pre_do c (l ++ [b]) ->
  NoDup (do_list c (l ++ [b])) /\
  undo_ok (do_list c (l ++ [b])) (AddBox b :: c :: U) /\
  (forall x, x ∈ do_list c (l ++ [b]) -> x ∈ l \/ x = b).
Proof.
  intros Hnd Hb HU Hc Hne Hpre.
  destruct (do_list_snoc c p b l Hc Hne Hpre) as [Hpre' ->].
  destruct (do_then_undo_list c l Hnd Hpre') as (Hinv & Hpu & Hnd').
  assert (Hsub : forall x, x ∈ do_list c l -> x ∈ l).
  { destruct c as [?|? ? ?|? ?|b' idx m]; simpl in *; try done.
    destruct (py_in b' l); [|done]. intros x. apply elem_of_py_remove. }
  assert (Hb' : b ∉ do_list c l) by (intros Hx; by apply Hb, Hsub).
  split_and!.
  - apply NoDup_app. split_and!; [done| |apply NoDup_singleton].
    intros x Hx Hx'. apply list_elem_of_singleton in Hx'. by subst x.
  - simpl. split; [by exists (do_list c l)|].
    assert (Hin : py_in b (do_list c l ++ [b]) = true).
    { apply py_in_true, elem_of_app. right. by apply list_elem_of_singleton. }
    rewrite Hin, py_remove_app_fresh by done. split; [done|]. by rewrite Hinv.
  - intros x [Hx|Hx]%elem_of_app; [left; by apply Hsub|].
    right. by apply list_elem_of_singleton in Hx.
Qed.

Lemma cmd_box_lt_commits (n : nat) (p : WidgetId) (c : Command) :
  commits p c -> (p < n)%nat -> cmd_box_lt n c.
Proof. destruct c; simpl; try done; by intros ->. Qed.

(** [push_and_do] of a command that fits the collection keeps the
    invariant, and does not raise when something is selected or the command
    is not a restyle. *)
Lemma history_ok_push (c : Command) (s : PageView) :
  history_ok s ->
  pre_do c (boxes s) ->
  cmd_box_lt (length (widgets s)) c ->
  ((exists b a, c = ChangeFont b a) -> selected s <> None) ->
  exists s1, push_and_do (cmd_do c) c s = Done s1 /\ history_ok s1.
Proof.
  intros ((Hnd & Hbx & Hsl) & Hu & Hr & Hfu & Hfr) Hpre Hlt Hfont.
  unfold push_and_do. pose proof (cmd_do_frame c s) as Hf.
  destruct (cmd_do c s) as [s1|s1]; simpl.
  - destruct Hf as (Hl1 & [(Hb1 & Hu1 & Hr1 & Hsel1)|
                           (b & p & c' & -> & Hne & Hc & Hp & Hpre' & Hb1 & Hu1 & Hr1 & Hsel1)]).
    + eexists. split; [reflexivity|].
      destruct (do_then_undo_list c (boxes s) Hnd Hpre) as (Hinv & Hpu & Hnd1).
      unfold history_ok, wf. simpl. rewrite Hb1, Hl1, Hu1. split_and!; try done.
      * intros x. by apply elem_of_do_list.
      * intros b Hb. destruct Hsel1 as [H|[H|(b' & -> & H)]].
        -- apply Hsl. congruence.
        -- congruence.
        -- simpl in Hlt. congruence.
      * by rewrite Hinv.
      * by constructor.
    + eexists. split; [reflexivity|]. simpl in Hpre, Hlt.
      destruct (nested_commit_ok (boxes s) (undo_stack s) b p c' Hnd Hpre Hu Hc Hne Hpre')
        as (Hnd1 & Hu1' & Hsub).
      unfold history_ok, wf.
      cbn [boxes widgets selected undo_stack redo_stack with_stacks].
      rewrite Hb1, Hl1, Hu1. split_and!; try done.
      * intros x Hx. destruct (Hsub x Hx) as [Hx'| ->]; [by apply Hbx|done].
      * intros x Hx. rewrite Hsel1 in Hx. by injection Hx as <-.
      * constructor; [done|]. constructor; [by eapply cmd_box_lt_commits|done].
  - destruct Hf as (_ & Hc & Hnone). by destruct (Hfont Hc).
Qed.

(** [undo()] keeps the invariant, whether it returns or raises. *)
Lemma history_ok_undo (s : PageView) : history_ok s -> history_ok (state_of (undo s)).
Proof.
  intros ((Hnd & Hbx & Hsl) & Hu & Hr & Hfu & Hfr). unfold undo.
  destruct (undo_stack s) as [|c rest] eqn:Hst;
    [simpl; unfold history_ok, wf; rewrite Hst; by split_and!|].
  destruct Hu as [Hpre Hu]. apply Forall_cons in Hfu as [Hc Hfu].
  pose proof (cmd_undo_frame c (with_stacks rest (redo_stack s) s)) as Hf.
  destruct (cmd_undo c _) as [s1|s1]; simpl in *.
  - destruct Hf as (Hb1 & Hl1 & Hu1 & Hr1 & Hsel1).
    destruct (undo_then_do_list c (boxes s) Hnd Hpre) as (Hinv & Hpd & Hnd1).
    unfold history_ok, wf. simpl. rewrite Hb1, Hl1, Hu1, Hr1. split_and!; try done.
    + intros x. by apply elem_of_undo_list.
    + intros b Hb. destruct Hsel1 as [H|H]; [apply Hsl|]; congruence.
    + by rewrite Hinv.
    + by constructor.
  - destruct Hf as (-> & (m1 & m2 & ->) & _). simpl in *.
    unfold history_ok, wf. simpl. by split_and!.
Qed.

(** [redo()] keeps the invariant, whether it returns or raises. *)
Lemma history_ok_redo (s : PageView) : history_ok s -> history_ok (state_of (redo s)).
Proof.
  intros ((Hnd & Hbx & Hsl) & Hu & Hr & Hfu & Hfr). unfold redo.
  destruct (redo_stack s) as [|c rest] eqn:Hst;
    [simpl; unfold history_ok, wf; rewrite Hst; by split_and!|].
  destruct Hr as [Hpre Hr]. apply Forall_cons in Hfr as [Hc Hfr].
  pose proof (cmd_do_frame c (with_stacks (undo_stack s) rest s)) as Hf.
  destruct (cmd_do c _) as [s1|s1]; simpl in *.
  - destruct Hf as (Hl1 & [(Hb1 & Hu1 & Hr1 & Hsel1)|
                           (b & p & c' & -> & Hne & Hcm & Hp & Hpre' & Hb1 & Hu1 & Hr1 & Hsel1)]).
    + destruct (do_then_undo_list c (boxes s) Hnd Hpre) as (Hinv & Hpu & Hnd1).
      unfold history_ok, wf. simpl. rewrite Hb1, Hl1, Hu1, Hr1. split_and!; try done.
      * intros x. by apply elem_of_do_list.
      * intros b Hb. destruct Hsel1 as [H|[H|(b' & -> & H)]].
        -- apply Hsl. congruence.
        -- congruence.
        -- simpl in Hc. congruence.
      * by rewrite Hinv.
      * by constructor.
    + simpl in Hpre, Hc.
      destruct (nested_commit_ok (boxes s) (undo_stack s) b p c' Hnd Hpre Hu Hcm Hne Hpre')
        as (Hnd1 & Hu1' & Hsub).
      unfold history_ok, wf.
      cbn [boxes widgets selected undo_stack redo_stack with_stacks].
      rewrite Hb1, Hl1, Hu1, Hr1. split_and!; try done.
      * intros x Hx. destruct (Hsub x Hx) as [Hx'| ->]; [by apply Hbx|done].
      * intros x Hx. rewrite Hsel1 in Hx. by injection Hx as <-.
      * constructor; [done|]. constructor; [by eapply cmd_box_lt_commits|done].
  - destruct Hf as (-> & (m1 & m2 & ->) & _). simpl in *.
    unfold history_ok, wf. simpl. by split_and!.
Qed.

Lemma history_ok_add_box (r : QRect.t) (s : PageView) :
  history_ok s -> exists s1, add_box r s = Done s1 /\ history_ok s1.
Proof.
  intros H. pose proof H as ((Hnd & Hbx & Hsl) & _). unfold add_box.
  apply (history_ok_push (AddBox (length (widgets s)))); simpl.
  - apply (history_ok_frame s); try done; simpl.
    + rewrite length_app. lia.
    + intros b Hb. apply Hsl in Hb. rewrite length_app. lia.
  - intros Hin. apply Hbx in Hin. lia.
  - rewrite length_app. simpl. lia.
  - intros (? & ? & [=]).
Qed.

Lemma history_ok_change_commit (s : PageView) (box : WidgetId) (before after : BoxModel) :
  history_ok s -> (box < length (widgets s))%nat ->
  exists s1, _on_change_commit box before after s = Done s1 /\ history_ok s1.
Proof.
  intros H Hlt. unfold _on_change_commit.
  apply (history_ok_push (UpdateBox box before after)); simpl; try done.
  intros (? & ? & [=]).
Qed.

Lemma history_ok_alter (f : TextBoxWidget -> TextBoxWidget) (box : WidgetId) (s : PageView) :
  history_ok s -> history_ok (with_widgets (alter f box (widgets s)) s).
Proof.
  intros H. pose proof H as ((Hnd & Hbx & Hsl) & _).
  apply (history_ok_frame s); try done; simpl; rewrite length_alter; [lia|apply Hsl].
Qed.

Lemma history_ok_commit_geom (s : PageView) (box : WidgetId) :
  history_ok s -> exists s1, _commit_geom_change box s = Done s1 /\ history_ok s1.
Proof.
  intros H. unfold _commit_geom_change.
  destruct (widgets s !! box) as [w|] eqn:Hw; [|by exists s].
  apply history_ok_change_commit; [by apply history_ok_alter|].
  simpl. rewrite length_alter. by eapply lookup_lt_Some.
Qed.

Lemma history_ok_request_delete (s : PageView) (box : WidgetId) :
  history_ok s -> exists s1, _request_delete box s = Done s1 /\ history_ok s1.
Proof.
  intros H. unfold _request_delete.
  destruct (py_in box (boxes s)) eqn:Hin; simpl; [|by exists s].
  destruct (widgets s !! box) as [w|] eqn:Hw; [|by exists s].
  apply (history_ok_push (DeleteBox box (py_index box (boxes s)) (model w))); simpl; try done.
  - split; [by apply py_in_true|done].
  - by eapply lookup_lt_Some.
  - intros (? & ? & [=]).
Qed.

Lemma history_ok_editing_finished (s : PageView) (box : WidgetId) :
  history_ok s -> exists s1, _on_editing_finished box s = Done s1 /\ history_ok s1.
Proof.
  intros H. unfold _on_editing_finished.
  destruct (widgets s !! box) as [w|] eqn:Hw; [|by eexists].
  destruct (String.eqb _ ""); [by apply history_ok_request_delete|].
  destruct (negb _); [|by eexists].
  apply history_ok_change_commit; [by apply history_ok_alter|].
  simpl. rewrite !length_alter. by apply lookup_lt_Some in Hw.
Qed.

Lemma history_ok_with_focus (o : option WidgetId) (s : PageView) :
  history_ok s -> history_ok (with_focus o s).
Proof.
  intros H. pose proof H as ((Hnd & Hbx & Hsl) & _). by apply (history_ok_frame s).
Qed.

Lemma history_ok_focus_moves (o : option WidgetId) (s : PageView) :
  history_ok s -> exists s1, focus_moves o s = Done s1 /\ history_ok s1.
Proof.
  intros H. unfold focus_moves. destruct (focus s) as [p|].
  - destruct (decide _); [by exists s|].
    by apply history_ok_editing_finished, history_ok_with_focus.
  - eexists. split; [reflexivity|]. by apply history_ok_with_focus.
Qed.

Lemma history_ok_selected (box : WidgetId) (s : PageView) :
  history_ok s -> (box < length (widgets s))%nat -> history_ok (_on_selected box s).
Proof.
  intros H Hlt. pose proof H as ((Hnd & Hbx & Hsl) & _).
  apply (history_ok_frame s); try done; simpl. by intros b [= <-].
Qed.

(** Every edit operation returns and keeps the invariant. *)
Lemma history_ok_run_op (op : EditOp) (s : PageView) :
  history_ok s -> exists s1, run_op op s = Done s1 /\ history_ok s1.
Proof.
  intros H. destruct op as [rect|p| |box moves|box moves|box typed|qf fontsize|box]; simpl.
  - unfold _create_box. destruct (_create_box_rect _ _ _); [|by exists s].
    by apply history_ok_add_box.
  - unfold add_box_at_click. destruct (add_box_at_click_rect _ _); [|by exists s].
    by apply history_ok_add_box.
  - unfold spawn_default_box_left_middle.
    destruct (_ || _); [by exists s|]. destruct (_ <? 80); [by exists s|].
    by apply history_ok_add_box.
  - unfold move_gesture. destruct (widgets s !! box) as [w|] eqn:Hw; [|by exists s].
    apply history_ok_commit_geom. apply lookup_lt_Some in Hw as Hlt.
    rewrite (foldl_moving box w) by exact Hw.
    destruct (last moves); [|by apply history_ok_selected].
    unfold mouseMoveEvent_moving. simpl. rewrite Hw.
    by apply (history_ok_alter _ box (_on_selected box s)), history_ok_selected.
  - unfold resize_gesture. destruct (widgets s !! box) as [w|] eqn:Hw; [|by exists s].
    apply history_ok_commit_geom. apply lookup_lt_Some in Hw as Hlt.
    rewrite foldl_resizing.
    destruct (last moves); [|by apply history_ok_selected].
    by apply (history_ok_alter _ box (_on_selected box s)), history_ok_selected.
  - apply history_ok_editing_finished. by apply history_ok_alter.
  - unfold set_font_settings. simpl.
    assert (Hf : history_ok (with_font qf fontsize s)).
    { pose proof H as ((Hnd & Hbx & Hsl) & _). by apply (history_ok_frame s). }
    destruct (selected s) as [sel|] eqn:Hsel; [|by eexists].
    destruct (widgets s !! sel) as [w|] eqn:Hw; [|by eexists].
    apply (history_ok_push (ChangeFont _ _)); simpl; try done. by rewrite Hsel.
  - by apply history_ok_request_delete.
Qed.

Lemma history_ok_init : history_ok PageView_init.
Proof.
  unfold history_ok, wf. simpl. split_and!; try done.
  - constructor.
  - intros b Hb. by apply elem_of_nil in Hb.
Qed.

Lemma history_ok_step (e : Event) (s : PageView) :
  history_ok s -> history_ok (state_of (step e s)).
Proof.
  intros H. destruct e as [op| | |w h page z|box|box t|o]; simpl.
  - destruct (history_ok_run_op op s H) as (s1 & -> & H1). exact H1.
  - by apply history_ok_undo.
  - by apply history_ok_redo.
  - pose proof H as ((Hnd & Hbx & Hsl) & _).
    apply (history_ok_frame s); try done; simpl; rewrite length_imap; [lia|apply Hsl].
  - case_bool_decide as Hlt; [|done]. by apply history_ok_selected.
  - by apply history_ok_alter.
  - destruct (history_ok_focus_moves o s H) as (s1 & -> & H1). exact H1.
Qed.

(** X1.  Whatever the session (edit operations, undo, redo, page changes,
    selections, typing, moves of the focus, in any order, raising handlers
    included), the collection never holds a box twice, every box of the
    collection and the selected box exist, and both stacks stay consistent
    with the collection. *)
Theorem session_keeps_collection_well_formed (es : list Event) :
  let s := run_events es PageView_init in
  NoDup (boxes s) /\
  (forall b, b ∈ boxes s -> is_Some (widgets s !! b)) /\
  (forall b, selected s = Some b -> is_Some (widgets s !! b)) /\
  history_ok s.
Proof.
  assert (Hgen : forall s0, history_ok s0 -> history_ok (run_events es s0)).
  { induction es as [|e es IH]; intros s0 H0; [done|].
    simpl. apply IH. by apply history_ok_step. }
  pose proof (Hgen _ history_ok_init) as H. simpl.
  pose proof H as ((Hnd & Hbx & Hsl) & _). split_and!; try done.
  - intros b Hb. apply lookup_lt_is_Some_2. by apply Hbx.
  - intros b Hb. apply lookup_lt_is_Some_2. by apply Hsl.
Qed.

(** ** How operations use the undo stack *)

Lemma same_lists_refl (s : PageView) : same_lists s s.
Proof. by unfold same_lists. Qed.

Lemma same_lists_alter (f : TextBoxWidget -> TextBoxWidget) (box : WidgetId) (s : PageView) :
  same_lists s (with_widgets (alter f box (widgets s)) s).
Proof. unfold same_lists. simpl. rewrite length_alter. by split_and!. Qed.

(** [cmd.do()] of a command other than [Add Box] moves no focus, and
    nothing is pushed from inside it. *)
Lemma cmd_do_frame_plain (c : Command) (s : PageView) :
  (forall b, c <> AddBox b) ->
  match cmd_do c s with
  | Raised s1 => s1 = s /\ (exists b a, c = ChangeFont b a) /\ selected s = None
  | Done s1 =>
      boxes s1 = do_list c (boxes s) /\
      length (widgets s1) = length (widgets s) /\
      undo_stack s1 = undo_stack s /\ redo_stack s1 = redo_stack s
  end.
Proof.
  intros Hna. pose proof (cmd_do_frame c s) as Hf.
  destruct (cmd_do c s) as [s1|s1]; [|done].
  destruct Hf as (Hl & [(Hb & Hu & Hr & _)|(b & _ & _ & -> & _)]); [done|].
  by destruct (Hna b).
Qed.

(** A resize, move, retext, restyle or delete either returns having
    committed nothing, or ends in [push_and_do] of a command that fits the
    state it is pushed on. *)
Lemma run_op_shape (op : EditOp) (s : PageView) :
  is_create op = false ->
  (exists s', run_op op s = Done s' /\ same_lists s s') \/
  (exists c s',
     run_op op s = push_and_do (cmd_do c) c s' /\ fits c s' /\
     (forall b, c <> AddBox b) /\
     boxes s' = boxes s /\ undo_stack s' = undo_stack s).
Proof.
  intros Hop.
  assert (Hcommit : forall box S w',
    widgets S !! box = Some w' -> boxes S = boxes s -> undo_stack S = undo_stack s ->
    exists c s',
      _commit_geom_change box S = push_and_do (cmd_do c) c s' /\ fits c s' /\
      (forall b, c <> AddBox b) /\
      boxes s' = boxes s /\ undo_stack s' = undo_stack s).
  { intros box S w' Hw' HbS HuS. unfold _commit_geom_change. rewrite Hw'.
    eexists (UpdateBox _ _ _), _. split; [reflexivity|]. simpl.
    split_and!; try done.
    unfold fits. simpl. rewrite length_alter. split_and!; try done.
    by eapply lookup_lt_Some. }
  assert (Hdel : forall box S, same_lists s S ->
    (exists s', _request_delete box S = Done s' /\ same_lists s s') \/
    (exists c s',
       _request_delete box S = push_and_do (cmd_do c) c s' /\ fits c s' /\
       (forall b, c <> AddBox b) /\
       boxes s' = boxes s /\ undo_stack s' = undo_stack s)).
  { intros box S HS. unfold _request_delete.
    destruct (py_in box (boxes S)) eqn:Hin; simpl; [|left; by exists S].
    destruct (widgets S !! box) as [w|] eqn:Hw; [|left; by exists S].
    right. eexists (DeleteBox _ _ _), S. split; [reflexivity|].
    destruct HS as (Hb & _ & Hu & _).
    split_and!; try done. unfold fits. simpl. split_and!.
    - by apply py_in_true.
    - done.
    - by eapply lookup_lt_Some.
    - unfold model_of. by rewrite Hw. }
  destruct op as [rect|p| |box moves|box moves|box typed|qf fontsize|box]; try done; simpl.
  - unfold move_gesture. destruct (widgets s !! box) as [w|] eqn:Hw;
      [|left; exists s; split; [done|apply same_lists_refl]].
    right. rewrite (foldl_moving box w) by exact Hw.
    destruct (last moves) as [d|].
    + unfold mouseMoveEvent_moving. simpl. rewrite Hw.
      eapply Hcommit; [|done..]. simpl. by rewrite list_lookup_alter_eq, Hw.
    + by eapply Hcommit.
  - unfold resize_gesture. destruct (widgets s !! box) as [w|] eqn:Hw;
      [|left; exists s; split; [done|apply same_lists_refl]].
    right. rewrite foldl_resizing.
    destruct (last moves) as [d|].
    + eapply Hcommit; [|done..]. simpl. by rewrite list_lookup_alter_eq, Hw.
    + by eapply Hcommit.
  - assert (Ht : same_lists s (type_text box typed s)) by apply same_lists_alter.
    unfold _on_editing_finished.
    destruct (widgets (type_text box typed s) !! box) as [w|] eqn:Hw;
      [|left; by eexists].
    destruct (String.eqb _ ""); [by apply Hdel|].
    destruct (negb _); [|left; by eexists].
    right. eexists (UpdateBox _ _ _), _. split; [reflexivity|]. simpl.
    split_and!; try done. unfold fits. simpl. rewrite !length_alter. split_and!; try done.
    apply lookup_lt_Some in Hw. simpl in Hw. by rewrite length_alter in Hw.
  - unfold set_font_settings. simpl.
    assert (Hf : same_lists s (with_font qf fontsize s)) by (by unfold same_lists).
    destruct (selected s) as [sel|] eqn:Hsel; [|left; by eexists].
    destruct (widgets s !! sel) as [w|] eqn:Hw; [|left; by eexists].
    right. eexists (ChangeFont _ _), _. split; [reflexivity|]. simpl.
    split_and!; try done. unfold fits. simpl. split_and!; try done. by rewrite Hsel.
  - apply Hdel, same_lists_refl.
Qed.

Lemma model_of_set_model_set (s : PageView) (box b : WidgetId) (m : BoxModel) :
  model_of (set_model box m s) b = model_set box m s b.
Proof.
  rewrite model_of_set_model. unfold model_set, model_of.
  case_decide; [|done]. by destruct (widgets s !! box).
Qed.

(** The exact effect of [cmd.do()], for a command other than [Add Box],
    and of [cmd.undo()] on the selection and on the models. *)
Lemma cmd_do_effect (c : Command) (s d : PageView) :
  (forall b, c <> AddBox b) ->
  cmd_do c s = Done d ->
  selected d = selected_after_do c s /\
  forall b', model_of d b' = model_after_do c s b'.
Proof.
  intros Hna. destruct c as [b|b m1 m2|m1 m2|b idx m]; simpl.
  - by destruct (Hna b).
  - intros [= <-]. split; [done|]. intros b'. apply model_of_set_model_set.
  - unfold ChangeFont_do. destruct (selected s) as [sel|] eqn:Hsel; [|done].
    intros [= <-]. split; [done|]. intros b'. apply model_of_set_model_set.
  - intros [= <-]. split.
    + rewrite selected_deselect. simpl. by rewrite selected_remove_box.
    + intros b'. by autorewrite with pv.
Qed.

Lemma cmd_undo_effect (c : Command) (s d : PageView) :
  cmd_undo c s = Done d ->
  selected d = selected_after_undo c s /\
  forall b', model_of d b' = model_after_undo c s b'.
Proof.
  destruct c as [b|b m1 m2|m1 m2|b idx m]; simpl.
  - intros [= <-]. split.
    + rewrite selected_deselect. simpl. by rewrite selected_remove_box.
    + intros b'. by autorewrite with pv.
  - intros [= <-]. split; [done|]. intros b'. apply model_of_set_model_set.
  - destruct (selected s) as [sel|] eqn:Hsel; [|done].
    intros [= <-]. split; [done|]. intros b'. apply model_of_set_model_set.
  - intros [= <-]. split; [done|]. intros b'.
    rewrite model_of_set_visible, model_of_set_model_set.
    unfold model_set. by autorewrite with pv.
Qed.

Lemma cmd_do_returns (c : Command) (s : PageView) :
  (forall b a, c = ChangeFont b a -> selected s <> None) -> exists d, cmd_do c s = Done d.
Proof.
  intros H. pose proof (cmd_do_frame c s) as Hf. destruct (cmd_do c s) as [d|d]; [by exists d|].
  destruct Hf as (_ & (b & a & ->) & Hn). by destruct (H b a eq_refl).
Qed.

Lemma cmd_undo_returns (c : Command) (s : PageView) :
  (forall b a, c = ChangeFont b a -> selected s <> None) -> exists d, cmd_undo c s = Done d.
Proof.
  intros H. pose proof (cmd_undo_frame c s) as Hf.
  destruct (cmd_undo c s) as [d|d]; [by exists d|].
  destruct Hf as (_ & (b & a & ->) & Hn). by destruct (H b a eq_refl).
Qed.

Lemma undo_cons_Done (s d : PageView) (c : Command) (rest : list Command) :
  undo_stack s = c :: rest ->
  cmd_undo c (with_stacks rest (redo_stack s) s) = Done d ->
  undo s = Done (with_stacks (undo_stack d) (c :: redo_stack d) d).
Proof. intros Hs Hd. unfold undo. by rewrite Hs, Hd. Qed.

Lemma redo_cons_Done (s d : PageView) (c : Command) (rest : list Command) :
  redo_stack s = c :: rest ->
  cmd_do c (with_stacks (undo_stack s) rest s) = Done d ->
  redo s = Done (with_stacks (c :: undo_stack d) (redo_stack d) d).
Proof. intros Hs Hd. unfold redo. by rewrite Hs, Hd. Qed.

Lemma model_set_twice (b : WidgetId) (m m' : BoxModel) (s s' : PageView) (b' : WidgetId) :
  (forall x, model_of s' x = model_set b m' s x) ->
  model_set b m s' b' = model_set b m s b'.
Proof.
  intros H. unfold model_set. rewrite !H. unfold model_set.
  case_decide; [|done]. destruct (decide (b = b)); [|done]. by destruct (model_of s b).
Qed.

(** Pushing a command other than [Add Box] that fits, undoing it and
    redoing it. *)
Lemma push_undo_redo (c : Command) (s : PageView) :
  NoDup (boxes s) -> fits c s -> (forall b, c <> AddBox b) ->
  exists s1 s2 s3,
    push_and_do (cmd_do c) c s = Done s1 /\
    undo_stack s1 = c :: undo_stack s /\ redo_stack s1 = [] /\
    undo s1 = Done s2 /\
    boxes s2 = boxes s /\
    undo_stack s2 = undo_stack s /\ redo_stack s2 = [c] /\
    redo s2 = Done s3 /\
    boxes s3 = boxes s1 /\
    (forall b, model_of s3 b = model_of s1 b) /\
    selected s3 = selected s1 /\
    undo_stack s3 = undo_stack s1 /\ redo_stack s3 = [].
Proof.
  intros Hnd (Hpre & Hlt & Hc) Hna.
  assert (Hfont : forall b a, c = ChangeFont b a -> selected s <> None).
  { intros b a ->. exact Hc. }
  (* push *)
  destruct (cmd_do_returns c s Hfont) as (d1 & Hd1).
  pose proof (cmd_do_frame_plain c s Hna) as Hf1. rewrite Hd1 in Hf1.
  destruct Hf1 as (Hb1 & Hl1 & Hu1 & Hr1).
  destruct (cmd_do_effect c s d1 Hna Hd1) as (Hsel1 & Hm1).
  destruct (do_then_undo_list c (boxes s) Hnd Hpre) as (Hinv & Hpu & Hnd1).
  set (s1 := with_stacks (c :: undo_stack d1) [] d1).
  assert (Hs1 : push_and_do (cmd_do c) c s = Done s1) by (unfold push_and_do; by rewrite Hd1).
  (* undo *)
  set (u0 := with_stacks (undo_stack d1) (redo_stack s1) s1).
  assert (Hsel_u0 : selected u0 = selected_after_do c s) by exact Hsel1.
  assert (Hfont2 : forall b a, c = ChangeFont b a -> selected u0 <> None).
  { intros b a ->. rewrite Hsel_u0. unfold selected_after_do. by apply (Hfont b a). }
  destruct (cmd_undo_returns c u0 Hfont2) as (d2 & Hd2).
  pose proof (cmd_undo_frame c u0) as Hf2. rewrite Hd2 in Hf2.
  destruct Hf2 as (Hb2 & Hl2 & Hu2 & Hr2 & _).
  destruct (cmd_undo_effect c u0 d2 Hd2) as (Hsel2 & Hm2).
  set (s2 := with_stacks (undo_stack d2) (c :: redo_stack d2) d2).
  assert (Hs2 : undo s1 = Done s2)
    by (apply (undo_cons_Done s1 d2 c (undo_stack d1)); [reflexivity|exact Hd2]).
  assert (Hbs2 : boxes s2 = boxes s).
  { simpl. rewrite Hb2. simpl. by rewrite Hb1. }
  (* redo *)
  set (r0 := with_stacks (undo_stack s2) [] s2).
  assert (Hsel_r0 : selected r0 = selected_after_undo c u0) by exact Hsel2.
  assert (Hfont3 : forall b a, c = ChangeFont b a -> selected r0 <> None).
  { intros b a ->. rewrite Hsel_r0. unfold selected_after_undo.
    rewrite Hsel_u0. unfold selected_after_do. by apply (Hfont b a). }
  destruct (cmd_do_returns c r0 Hfont3) as (d3 & Hd3).
  pose proof (cmd_do_frame_plain c r0 Hna) as Hf3. rewrite Hd3 in Hf3.
  destruct Hf3 as (Hb3 & Hl3 & Hu3 & Hr3).
  destruct (cmd_do_effect c r0 d3 Hna Hd3) as (Hsel3 & Hm3).
  set (s3 := with_stacks (c :: undo_stack d3) (redo_stack d3) d3).
  assert (Hrs2 : redo_stack s2 = [c]) by (simpl; by rewrite Hr2).
  assert (Hs3 : redo s2 = Done s3)
    by (apply (redo_cons_Done s2 d3 c []); [exact Hrs2|exact Hd3]).
  exists s1, s2, s3. split_and!; try done.
  - simpl. by rewrite Hu1.
  - simpl. by rewrite Hu2.
  - simpl. rewrite Hb3. simpl. rewrite Hb2. simpl. by rewrite Hb1, Hinv.
  - intros b'. change (model_of d3 b' = model_of d1 b'). rewrite Hm3, Hm1.
    assert (Hm_r0 : forall x, model_of r0 x = model_after_undo c u0 x) by exact Hm2.
    assert (Hm_u0 : forall x, model_of u0 x = model_after_do c s x) by exact Hm1.
    destruct c as [b|b m1 m2|m1 m2|b idx m];
      unfold model_after_do, model_after_undo, selected_after_do, selected_after_undo in *.
    + by rewrite Hm_r0, Hm_u0.
    + rewrite (model_set_twice b m2 m1 u0 r0) by exact Hm_r0.
      by apply (model_set_twice b m2 m2 s u0).
    + rewrite Hsel_r0, Hsel_u0. rewrite Hsel_u0 in Hm_r0.
      destruct (selected s) as [sel|] eqn:Hsel; [|by destruct (Hfont m1 m2)].
      rewrite (model_set_twice sel m2 m1 u0 r0) by exact Hm_r0.
      by apply (model_set_twice sel m2 m2 s u0).
    + rewrite Hm_r0. unfold model_set. rewrite !Hm_u0.
      destruct (decide (b = b')) as [<-|]; [by rewrite Hc|done].
  - change (selected d3 = selected d1). rewrite Hsel3, Hsel1.
    destruct c as [b|b m1 m2|m1 m2|b idx m];
      unfold selected_after_do, selected_after_undo in *; try done.
    + by rewrite Hsel_r0, Hsel_u0.
    + by rewrite Hsel_r0, Hsel_u0.
    + rewrite Hsel_r0, Hsel_u0.
      destruct (decide (selected s = Some b)) as [He|Hne].
      * by destruct (decide _).
      * by destruct (decide (selected s = Some b)).
  - simpl. rewrite Hu3. simpl. by rewrite Hu2.
Qed.

(** X2.  Every edit operation returns, and what it leaves on the stacks is
    one of three things.  Nothing: both stacks, the collection and the
    selection are as they were.  One command on top of the undo stack and
    an empty redo stack.  Or, for a create made while the line edit of a
    box [p] has the focus, two commands: the [Add Box] on top of the
    command that [p] committed when it lost the focus to the new box, a
    [Delete Box] or an [Update Box] of [p]; the redo stack is empty then
    too.  In the last two cases [redo()] right after does nothing. *)
Theorem operation_stack_discipline (op : EditOp) (s : PageView) :
  exists s1,
    run_op op s = Done s1 /\
    ((undo_stack s1 = undo_stack s /\ redo_stack s1 = redo_stack s /\
      boxes s1 = boxes s /\ selected s1 = selected s) \/
     (exists c, undo_stack s1 = c :: undo_stack s /\ redo_stack s1 = [] /\
                redo s1 = Done s1) \/
     (exists b p c,
        is_create op = true /\ focus s = Some p /\ commits p c /\
        undo_stack s1 = AddBox b :: c :: undo_stack s /\ redo_stack s1 = [] /\
        redo s1 = Done s1)).
Proof.
  assert (Hredo : forall s1, redo_stack s1 = [] -> redo s1 = Done s1).
  { intros s1 H. unfold redo. by rewrite H. }
  assert (Hadd : forall r, is_create op = true -> exists s1,
    add_box r s = Done s1 /\
    ((undo_stack s1 = undo_stack s /\ redo_stack s1 = redo_stack s /\
      boxes s1 = boxes s /\ selected s1 = selected s) \/
     (exists c, undo_stack s1 = c :: undo_stack s /\ redo_stack s1 = [] /\
                redo s1 = Done s1) \/
     (exists b p c,
        is_create op = true /\ focus s = Some p /\ commits p c /\
        undo_stack s1 = AddBox b :: c :: undo_stack s /\ redo_stack s1 = [] /\
        redo s1 = Done s1))).
  { intros r Hop.
    destruct (add_box_spec r s) as (s1 & Hs1 & _ & _ & _ & _ & _ & Hr & _ & _ & Hcase).
    exists s1. split; [done|]. right.
    destruct Hcase as [(_ & Hu & _)|(p & c & Hf & _ & Hc & _ & _ & _ & Hu)].
    - left. eexists. split_and!; [exact Hu|done|by apply Hredo].
    - right. exists (length (widgets s)), p, c. split_and!; try done. by apply Hredo. }
  assert (Hsame : exists s1, Done s = Done s1 /\
    ((undo_stack s1 = undo_stack s /\ redo_stack s1 = redo_stack s /\
      boxes s1 = boxes s /\ selected s1 = selected s) \/
     (exists c, undo_stack s1 = c :: undo_stack s /\ redo_stack s1 = [] /\
                redo s1 = Done s1) \/
     (exists b p c,
        is_create op = true /\ focus s = Some p /\ commits p c /\
        undo_stack s1 = AddBox b :: c :: undo_stack s /\ redo_stack s1 = [] /\
        redo s1 = Done s1))).
  { exists s. split; [done|]. left. by split_and!. }
  destruct (is_create op) eqn:Hop.
  - destruct op as [rect|p| |box moves|box moves|box typed|qf fontsize|box]; try done; simpl.
    + unfold _create_box. destruct (_create_box_rect _ _ _); [by apply Hadd|exact Hsame].
    + unfold add_box_at_click. destruct (add_box_at_click_rect _ _); [by apply Hadd|exact Hsame].
    + unfold spawn_default_box_left_middle.
      destruct (_ || _); [exact Hsame|]. destruct (_ <? 80); [exact Hsame|].
      unfold _create_box. simpl. by apply Hadd.
  - destruct (run_op_shape op s Hop)
      as [(s' & Hrun & Hb & Hsel & Hu & Hr & _)|(c & s' & Hrun & Hfit & Hna & Hb & Hu)].
    + exists s'. split; [done|]. left. by split_and!.
    + pose proof Hfit as (_ & _ & Hc).
      assert (Hfont : forall b a, c = ChangeFont b a -> selected s' <> None).
      { intros b a ->. exact Hc. }
      destruct (cmd_do_returns c s' Hfont) as (d1 & Hd1).
      pose proof (cmd_do_frame_plain c s' Hna) as Hf1. rewrite Hd1 in Hf1.
      destruct Hf1 as (_ & _ & Hu1 & _).
      eexists. split; [rewrite Hrun; unfold push_and_do; rewrite Hd1; reflexivity|].
      right. left. exists c. simpl. rewrite Hu1, Hu. split_and!; try done.
Qed.

(** X3.  Right after a resize, move, retext, restyle or delete that pushed
    a command, [undo()] followed by [redo()] both return and give back the
    state the operation left: the same boxes in the same order, the same
    model for every widget, the same selection, the same undo stack and an
    empty redo stack; in between, the boxes are those before the
    operation. *)
Theorem redo_after_undo_restores (op : EditOp) (s s1 : PageView) :
  wf s ->
  is_create op = false ->
  run_op op s = Done s1 ->
  undo_stack s1 <> undo_stack s ->
  exists s2 s3,
    undo s1 = Done s2 /\ boxes s2 = boxes s /\
    redo s2 = Done s3 /\
    boxes s3 = boxes s1 /\
    (forall b, model_of s3 b = model_of s1 b) /\
    collection s3 = collection s1 /\
    selected s3 = selected s1 /\
    undo_stack s3 = undo_stack s1 /\ redo_stack s3 = [].
Proof.
  intros Hwf Hop Hrun Hpush.
  destruct (run_op_shape op s Hop)
    as [(s' & Hrun' & Hb & Hsel & Hu & Hr & _)|(c & s' & Hrun' & Hfit & Hna & Hb & Hu)].
  - rewrite Hrun in Hrun'. injection Hrun' as ->. by destruct Hpush.
  - assert (Hnd : NoDup (boxes s')) by (rewrite Hb; apply Hwf).
    destruct (push_undo_redo c s' Hnd Hfit Hna)
      as (t1 & s2 & s3 & Ht1 & _ & _ & Hs2 & Hb2 & _ & _ & Hs3 & Hb3 & Hm3 & Hsel3 & Hu3 & Hr3).
    rewrite Hrun' in Hrun. rewrite Ht1 in Hrun. injection Hrun as <-.
    exists s2, s3. split_and!; try done.
    + by rewrite Hb2.
    + apply collection_ext; [done|]. intros b _. apply Hm3.
Qed.

Lemma redo_after_undo_restores_witness :
  exists s2 s3,
    undo (state_of (run_op (Delete 0%nat) one_box)) = Done s2 /\
    boxes s2 = boxes one_box /\
    redo s2 = Done s3 /\
    boxes s3 = boxes (state_of (run_op (Delete 0%nat) one_box)) /\
    (forall b, model_of s3 b = model_of (state_of (run_op (Delete 0%nat) one_box)) b) /\
    collection s3 = collection (state_of (run_op (Delete 0%nat) one_box)) /\
    selected s3 = selected (state_of (run_op (Delete 0%nat) one_box)) /\
    undo_stack s3 = undo_stack (state_of (run_op (Delete 0%nat) one_box)) /\
    redo_stack s3 = [].
Proof.
  apply (redo_after_undo_restores (Delete 0%nat) one_box).
  - apply wfb_sound. vm_compute. reflexivity.
  - reflexivity.
  - vm_compute. reflexivity.
  - vm_compute. discriminate.
Defined.

(** X4.  [undo()] raises exactly when the command on top of the undo stack
    is a [Change Font] and nothing is selected; the command has then been
    popped and is on neither stack, and nothing else has changed.  The
    same holds for [redo()] and the redo stack. *)
Theorem undo_redo_raise_only_for_orphaned_restyle (s : PageView) :
  ((exists s', undo s = Raised s') <->
   (exists before after rest,
      undo_stack s = ChangeFont before after :: rest /\ selected s = None)) /\
  (forall s', undo s = Raised s' ->
     s' = with_stacks (tail (undo_stack s)) (redo_stack s) s) /\
  ((exists s', redo s = Raised s') <->
   (exists before after rest,
      redo_stack s = ChangeFont before after :: rest /\ selected s = None)) /\
  (forall s', redo s = Raised s' ->
     s' = with_stacks (undo_stack s) (tail (redo_stack s)) s).
Proof.
  split_and!.
  - unfold undo. split.
    + intros (s' & H). destruct (undo_stack s) as [|c rest]; [done|].
      pose proof (cmd_undo_frame c (with_stacks rest (redo_stack s) s)) as Hf.
      destruct (cmd_undo c _) as [d|d]; [done|].
      destruct Hf as (_ & (b & a & ->) & Hn). by exists b, a, rest.
    + intros (b & a & rest & -> & Hn). simpl. rewrite Hn. by eexists.
  - unfold undo. intros s' H. destruct (undo_stack s) as [|c rest]; [done|].
    pose proof (cmd_undo_frame c (with_stacks rest (redo_stack s) s)) as Hf.
    destruct (cmd_undo c _) as [d|d]; [done|].
    destruct Hf as (-> & _). simpl in H. by injection H.
  - unfold redo. split.
    + intros (s' & H). destruct (redo_stack s) as [|c rest]; [done|].
      pose proof (cmd_do_frame c (with_stacks (undo_stack s) rest s)) as Hf.
      destruct (cmd_do c _) as [d|d]; [done|].
      destruct Hf as (_ & (b & a & ->) & Hn). by exists b, a, rest.
    + intros (b & a & rest & -> & Hn). simpl. unfold ChangeFont_do. simpl.
      rewrite Hn. by eexists.
  - unfold redo. intros s' H. destruct (redo_stack s) as [|c rest]; [done|].
    pose proof (cmd_do_frame c (with_stacks (undo_stack s) rest s)) as Hf.
    destruct (cmd_do c _) as [d|d]; [done|].
    destruct Hf as (-> & _). simpl in H. by injection H.
Qed.

Lemma undo_redo_raise_only_for_orphaned_restyle_witness :
  exists s', undo restyle_orphaned = Raised s'.
Proof.
  destruct (undo_redo_raise_only_for_orphaned_restyle restyle_orphaned) as ([_ H] & _).
  apply H. do 3 eexists. split; reflexivity.
Defined.

(** ** Showing a page *)

(** X5.  Showing a page records its size, index and zoom and changes
    nothing else but visibility: the collection, the selection, both
    stacks and every model, geometry and editor text stay as they are (a
    zoom change does not rescale any box); a box of the collection is
    visible afterwards exactly if it is on the page shown, and widgets that
    are not in the collection keep their visibility. *)
Theorem set_rendered_page_filters_by_page (w h page : Z) (z : Q) (s : PageView) :
  let s1 := set_rendered_page w h page z s in
  image_w_px s1 = w /\ image_h_px s1 = h /\ pv_page_index s1 = page /\ zoom s1 = z /\
  boxes s1 = boxes s /\ selected s1 = selected s /\
  undo_stack s1 = undo_stack s /\ redo_stack s1 = redo_stack s /\
  length (widgets s1) = length (widgets s) /\
  (forall b wd, widgets s !! b = Some wd ->
     exists wd1,
       widgets s1 !! b = Some wd1 /\
       model wd1 = model wd /\ geometry wd1 = geometry wd /\ edit_text wd1 = edit_text wd /\
       (b ∈ boxes s -> (visible wd1 = true <-> page_index (model wd) = page)) /\
       (b ∉ boxes s -> visible wd1 = visible wd)).
Proof.
  simpl. rewrite length_imap. split_and!; try done.
  intros b wd Hw. rewrite list_lookup_imap, Hw. simpl.
  destruct (py_in b (boxes s)) eqn:Hin.
  - eexists. split; [reflexivity|]. simpl. split_and!; try done.
    + intros _. by rewrite bool_decide_eq_true.
    + intros Hn. apply py_in_true in Hin. by destruct Hn.
  - exists wd. split_and!; try done.
    intros Hi. apply py_in_false in Hin. by destruct Hin.
Qed.

(** ** The default box *)

(** A line edit that finishes editing with nothing but blanks in it, its
    box being in the collection, deletes its box. *)
Lemma _on_editing_finished_blank (p : WidgetId) (s : PageView) (w : TextBoxWidget) :
  widgets s !! p = Some w -> strip (edit_text w) = "" -> p ∈ boxes s ->
  exists s1,
    _on_editing_finished p s = Done s1 /\
    boxes s1 = py_remove p (boxes s) /\
    undo_stack s1 = DeleteBox p (py_index p (boxes s)) (model w) :: undo_stack s /\
    redo_stack s1 = [] /\
    widgets s1 = alter (widget_set_visible false) p (widgets s) /\
    selected s1 = (if decide (selected s = Some p) then None else selected s) /\
    focus s1 = focus s /\
    image_w_px s1 = image_w_px s /\ image_h_px s1 = image_h_px s.
Proof.
  intros Hw Hblank Hin.
  destruct (_request_delete_member s p w Hin Hw) as (s1 & Hs1 & Hb & Hu & Hr & Hws & Hsel).
  exists s1. unfold _on_editing_finished. rewrite Hw, Hblank. simpl.
  split_and!; try done.
  all: unfold _request_delete in Hs1; apply py_in_true in Hin; rewrite Hin, Hw in Hs1;
    simpl in Hs1; injection Hs1 as <-; simpl;
    destruct (deselect_frame p (set_visible p false (remove_box p s))) as (E1 & E2 & E3);
    rewrite ?E1, ?E2, ?E3; simpl;
    destruct (remove_box_frame p s) as (F1 & F2 & F3); by rewrite ?F1, ?F2, ?F3.
Qed.

(** Creating a box while the line edit of a blank box of the collection
    has the focus: that box is deleted from inside the [do] of the
    [Add Box]. *)
Lemma add_box_blank_focus (r : QRect.t) (s : PageView) (p : WidgetId) (w : TextBoxWidget) :
  focus s = Some p -> p ∈ boxes s -> widgets s !! p = Some w -> strip (edit_text w) = "" ->
  exists s1,
    add_box r s = Done s1 /\
    boxes s1 = py_remove p (boxes s) ++ [length (widgets s)] /\
    undo_stack s1 =
      AddBox (length (widgets s))
        :: DeleteBox p (py_index p (boxes s)) (model w) :: undo_stack s.
Proof.
  intros Hf Hin Hw Hblank. apply lookup_lt_Some in Hw as Hlt.
  set (fresh := length (widgets s)).
  pose (s0 := with_widgets (widgets s ++ [new_widget (fresh_model r s)]) s).
  pose (sa := with_focus (Some fresh)
                (with_selected (Some fresh)
                   (set_visible fresh true (with_boxes (boxes s0 ++ [fresh]) s0)))).
  assert (Hadd : add_box r s =
                 bind (_on_editing_finished p sa)
                      (fun s1 => Done (with_stacks (AddBox fresh :: undo_stack s1) [] s1))).
  { unfold add_box, push_and_do, AddBox_do, edit_setFocus, focus_moves. simpl.
    rewrite Hf. destruct (decide (Some (length (widgets s)) = Some p)) as [[= He]|]; [|done].
    subst fresh. lia. }
  assert (Hwa : widgets sa !! p = Some w).
  { subst sa s0. simpl. rewrite list_lookup_alter_ne by (subst fresh; lia).
    by rewrite lookup_app_l. }
  assert (Hina : p ∈ boxes sa).
  { subst sa s0. simpl. apply elem_of_app. by left. }
  destruct (_on_editing_finished_blank p sa w Hwa Hblank Hina)
    as (s1 & Hs1 & Hb & Hu & _).
  rewrite Hadd, Hs1. simpl. eexists. split; [reflexivity|]. simpl.
  rewrite Hb, Hu. subst sa s0. simpl.
  by rewrite py_remove_app_l, py_index_app_l.
Qed.

(** X6.  [spawn_default_box_left_middle] creates nothing when no page is
    rendered or the page is less than 110 pixels wide.  Otherwise it
    creates one box at [x = 30], 30 high, [min 360 (W - 30)] wide, centred
    vertically, which is the topmost box of the collection, selected and
    focused, and which on a page at least 30 pixels high satisfies the
    whole clamp invariant of the specification.  When no line edit had the
    focus the collection is the old one with the new box appended; when
    the line edit of a box of the collection had it and held only blanks,
    that box is deleted by the same call, and the undo stack receives its
    [Delete Box] below the [Add Box]. *)
Theorem spawn_default_box (s : PageView) :
  let W := image_w_px s in
  let H := image_h_px s in
  let fresh := length (widgets s) in
  ((W <= 0 \/ H <= 0 \/ W < 110) -> spawn_default_box_left_middle s = Done s) /\
  (0 < H -> 110 <= W ->
   exists s1 r,
     spawn_default_box_left_middle s = Done s1 /\
     last (boxes s1) = Some fresh /\
     selected s1 = Some fresh /\ focus s1 = Some fresh /\
     committed_rect s1 fresh = Some r /\
     QRect.x r = 30 /\ QRect.y r = Z.max 0 (H `div` 2 - 15) /\
     QRect.width r = Z.min 360 (W - 30) /\ QRect.height r = 30 /\
     (30 <= H -> spec_clamp_invariant W H r) /\
     (focus s = None ->
      boxes s1 = boxes s ++ [fresh] /\
      undo_stack s1 = AddBox fresh :: undo_stack s) /\
     (forall p w,
        focus s = Some p -> p ∈ boxes s -> widgets s !! p = Some w ->
        strip (edit_text w) = "" ->
        boxes s1 = py_remove p (boxes s) ++ [fresh] /\
        undo_stack s1 =
          AddBox fresh :: DeleteBox p (py_index p (boxes s)) (model w) :: undo_stack s)).
Proof.
  simpl. unfold spawn_default_box_left_middle, default_click_w, default_click_h.
  change (30 `div` 2) with 15. split.
  - intros Hc.
    destruct (Z.leb_spec (image_w_px s) 0); [done|].
    destruct (Z.leb_spec (image_h_px s) 0); [done|]. simpl.
    destruct (Z.ltb_spec (Z.min 360 (image_w_px s - 30)) 80); [done|lia].
  - intros HH HW.
    destruct (Z.leb_spec (image_w_px s) 0); [lia|].
    destruct (Z.leb_spec (image_h_px s) 0); [lia|]. simpl.
    destruct (Z.ltb_spec (Z.min 360 (image_w_px s - 30)) 80); [lia|].
    unfold _create_box. simpl.
    set (r := QRect.xywh 30 (Z.max 0 (image_h_px s `div` 2 - 15))
                (Z.min 360 (image_w_px s - 30)) 30).
    destruct (add_box_spec r s)
      as (s1 & Hs1 & Hw1 & _ & Hlast & Hsel1 & Hfo1 & _ & _ & _ & Hcase).
    exists s1, r. split; [exact Hs1|]. split; [exact Hlast|].
    split; [exact Hsel1|]. split; [exact Hfo1|].
    split; [by apply add_box_committed|].
    pose proof (Z.div_mod (image_h_px s) 2 ltac:(lia)) as Hdm.
    pose proof (Z.mod_pos_bound (image_h_px s) 2 ltac:(lia)) as Hmb.
    split_and!.
    + subst r. unfold_rect. lia.
    + subst r. unfold_rect. lia.
    + subst r. unfold_rect. lia.
    + subst r. unfold_rect. lia.
    + intros H30. subst r. unfold_rect. repeat split; lia.
    + intros Hnone.
      destruct Hcase as [(Hb & Hu & _)|(p & c & Hf & _)]; [done|congruence].
    + intros p w Hf Hin Hw Hblank.
      destruct (add_box_blank_focus r s p w Hf Hin Hw Hblank) as (s1' & Hs1' & Hb & Hu).
      rewrite Hs1 in Hs1'. injection Hs1' as <-. done.
Qed.

Lemma spawn_default_box_witness :
  (exists s1 r,
     spawn_default_box_left_middle page_800x1000 = Done s1 /\
     boxes s1 = [0%nat] /\
     selected s1 = Some 0%nat /\ focus s1 = Some 0%nat /\
     committed_rect s1 0%nat = Some r /\
     r = QRect.xywh 30 485 360 30 /\
     spec_clamp_invariant 800 1000 r /\
     map command_name (undo_stack s1) = ["Add Box"]) /\
  (exists s1 s2,
     spawn_default_box_left_middle page_800x1000 = Done s1 /\
     spawn_default_box_left_middle s1 = Done s2 /\
     boxes s2 = [1%nat] /\
     map command_name (undo_stack s2) = ["Add Box"; "Delete Box"; "Add Box"]).
Proof.
  destruct (spawn_default_box page_800x1000) as [_ H].
  destruct H as (s1 & r & Hs1 & Hlast & Hsel & Hfo & Hc & Hx & Hy & Hw & Hh & Hinv & Hnone & _);
    [reflexivity|simpl; lia|].
  destruct (Hnone eq_refl) as [Hb Hu].
  assert (Hr : r = QRect.xywh 30 485 360 30).
  { destruct r as [a b c d]. unfold QRect.x, QRect.y, QRect.width, QRect.height in *.
    simpl in *. change (1000 `div` 2 - 15) with 485 in Hy.
    unfold QRect.xywh. f_equal; lia. }
  split.
  - exists s1, r. split_and!; try done.
    + apply Hinv. simpl. lia.
    + by rewrite Hu.
  - destruct (spawn_default_box s1) as [_ H2].
    assert (Hdims : image_w_px s1 = 800 /\ image_h_px s1 = 1000).
    { vm_compute in Hs1. injection Hs1 as <-. by split. }
    destruct Hdims as [HW HH].
    destruct H2 as (s2 & r2 & Hs2 & _ & _ & _ & _ & _ & _ & _ & _ & _ & _ & Hdel);
      [rewrite HH; reflexivity|rewrite HW; simpl; lia|].
    exists s1, s2. split; [exact Hs1|]. split; [exact Hs2|].
    vm_compute in Hs1. injection Hs1 as <-.
    match type of Hdel with
    | forall p w, focus ?S = Some p -> _ =>
        match eval vm_compute in (widgets S !! 0%nat) with
        | Some ?w0 =>
            destruct (Hdel 0%nat w0 eq_refl) as [Hb2 Hu2];
              [apply list_elem_of_In; vm_compute; tauto|reflexivity|reflexivity|]
        end
    end.
    split; [rewrite Hb2; reflexivity|rewrite Hu2; reflexivity].
Defined.

(** ** Committing text *)

(** X7.  Committing a text that is not blank: if, trimmed, it equals the
    committed text, no command is pushed and the model stays (the editor
    keeps what was typed, untrimmed); otherwise one [Update Box] command
    is pushed, the model's text and the editor become the trimmed text, the
    model's rectangle becomes the widget's geometry, and page, font, the
    collection and the selection stay. *)
Theorem retext_commit (s : PageView) (box : WidgetId) (w : TextBoxWidget) (typed : string) :
  widgets s !! box = Some w ->
  strip typed <> "" ->
  (strip typed = text (model w) ->
   run_op (Retext box typed) s = Done (type_text box typed s) /\
   model_of (type_text box typed s) box = Some (model w) /\
   undo_stack (type_text box typed s) = undo_stack s) /\
  (strip typed <> text (model w) ->
   exists s1 w1,
     run_op (Retext box typed) s = Done s1 /\
     undo_stack s1 = UpdateBox box (model w) (model w1) :: undo_stack s /\
     redo_stack s1 = [] /\
     boxes s1 = boxes s /\ selected s1 = selected s /\
     widgets s1 !! box = Some w1 /\
     text (model w1) = strip typed /\ edit_text w1 = strip typed /\
     rect_px (model w1) = geometry w /\ geometry w1 = geometry w /\
     page_index (model w1) = page_index (model w) /\
     qfont (model w1) = qfont (model w) /\
     fontsize_pt (model w1) = fontsize_pt (model w)).
Proof.
  intros Hw Hne. simpl. unfold _on_editing_finished.
  rewrite (type_text_lookup s box typed w Hw). simpl edit_text. simpl model.
  apply String.eqb_neq in Hne. rewrite Hne. split.
  - intros He. apply String.eqb_eq in He. rewrite He. simpl.
    split_and!; try done. unfold model_of. simpl.
    by rewrite list_lookup_alter_eq, Hw.
  - intros Hd. apply String.eqb_neq in Hd. rewrite Hd. simpl.
    eexists _, (widget_set_model
                  {| page_index := page_index (model w); rect_px := geometry w;
                     text := strip typed; qfont := qfont (model w);
                     fontsize_pt := fontsize_pt (model w) |} w).
    split; [reflexivity|]. simpl.
    rewrite !list_lookup_alter_eq, Hw. simpl. by split_and!.
Qed.

Lemma retext_commit_witness :
  exists w,
    widgets one_box !! 0%nat = Some w /\
    run_op (Retext 0%nat "  hi ") one_box = Done (type_text 0%nat "  hi " one_box) /\
    model_of (type_text 0%nat "  hi " one_box) 0%nat = Some (model w) /\
    undo_stack (type_text 0%nat "  hi " one_box) = undo_stack one_box.
Proof.
  eexists. split; [reflexivity|].
  eapply (retext_commit one_box 0%nat _ "  hi "); [reflexivity| |reflexivity].
  vm_compute. discriminate.
Defined.

(** ** A press without a drag *)

(** X8.  A move gesture in which the pointer does not move, or is back at
    the press point when the button is released, on a box that lies within
    the page and whose widget agrees with its model, selects the box and
    still pushes an [Update Box] command, one whose [before] and [after]
    are the same model: the collection is unchanged and the next [undo()]
    changes no model either. *)
Theorem move_without_drag_still_pushes
    (s : PageView) (box : WidgetId) (w : TextBoxWidget) (moves : list QPoint) :
  widgets s !! box = Some w ->
  geometry w = rect_px (model w) -> edit_text w = text (model w) ->
  0 <= QRect.x (geometry w) -> 0 <= QRect.y (geometry w) ->
  QRect.x (geometry w) + QRect.width (geometry w) <= image_w_px s ->
  QRect.y (geometry w) + QRect.height (geometry w) <= image_h_px s ->
  moves = [] \/ last moves = Some {| px := 0; py := 0 |} ->
  exists s1 s2,
    move_gesture box moves s = Done s1 /\
    selected s1 = Some box /\
    undo_stack s1 = UpdateBox box (model w) (model w) :: undo_stack s /\
    (forall b, model_of s1 b = model_of s b) /\
    collection s1 = collection s /\
    undo s1 = Done s2 /\
    (forall b, model_of s2 b = model_of s b) /\
    undo_stack s2 = undo_stack s.
Proof.
  intros Hw Hg He Hx Hy Hxw Hyh Hmoves.
  destruct (move_gesture_spec s box w moves Hw)
    as (s1 & Hs1 & _ & Hm1 & _ & Hoth & Hb1 & Hsel1 & _ & Hu1 & _).
  assert (Hsame : gesture_end (moved_by (image_w_px s) (image_h_px s) (geometry w))
                    (geometry w) moves = geometry w).
  { unfold gesture_end. destruct Hmoves as [-> | ->]; [done|].
    unfold moved_by. destruct (geometry w) as [a b c d]. unfold_rect. f_equal; lia. }
  rewrite Hsame in Hm1, Hu1.
  assert (Hlive : live_model (widget_set_geometry (geometry w) w) = model w).
  { unfold live_model. simpl. rewrite Hg, He. by destruct (model w). }
  rewrite Hlive in Hm1, Hu1.
  assert (Hmod1 : forall b, model_of s1 b = model_of s b).
  { intros b. destruct (decide (b = box)) as [->|Hne].
    - rewrite Hm1. unfold model_of. by rewrite Hw.
    - unfold model_of. by rewrite Hoth. }
  pose proof (undo_cons_Done s1 _ _ _ Hu1 eq_refl) as Hs2.
  eexists s1, _. split; [exact Hs1|]. split; [exact Hsel1|].
  split; [exact Hu1|]. split; [exact Hmod1|].
  split; [apply collection_ext; [done|]; intros b _; apply Hmod1|].
  split; [exact Hs2|]. split; [|done].
  intros b. change (model_of (set_model box (model w)
                      (with_stacks (undo_stack s) (redo_stack s1) s1)) b = model_of s b).
  rewrite model_of_set_model_set. unfold model_set. autorewrite with pv.
  rewrite !Hmod1. destruct (decide (box = b)) as [<-|]; [|done].
  unfold model_of. by rewrite Hw.
Qed.

Lemma move_without_drag_still_pushes_witness :
  (exists s1 s2,
     move_gesture 0%nat [] one_box = Done s1 /\
     selected s1 = Some 0%nat /\
     (forall b, model_of s1 b = model_of one_box b) /\
     collection s1 = collection one_box /\
     undo s1 = Done s2 /\
     (forall b, model_of s2 b = model_of one_box b) /\
     undo_stack s2 = undo_stack one_box) /\
  (exists s1 s2,
     move_gesture 0%nat [{| px := 25; py := -10 |}; {| px := 0; py := 0 |}] one_box = Done s1 /\
     selected s1 = Some 0%nat /\
     (forall b, model_of s1 b = model_of one_box b) /\
     collection s1 = collection one_box /\
     undo s1 = Done s2 /\
     (forall b, model_of s2 b = model_of one_box b) /\
     undo_stack s2 = undo_stack one_box).
Proof.
  split.
  - match eval vm_compute in (widgets one_box !! 0%nat) with
    | Some ?w =>
        destruct (move_without_drag_still_pushes one_box 0%nat w [])
          as (s1 & s2 & H1 & H0 & H2 & H3 & H4 & H5 & H6 & H7);
          [reflexivity|reflexivity|reflexivity|vm_compute; discriminate..|by left|]
    end.
    exists s1, s2. exact (conj H1 (conj H0 (conj H3 (conj H4 (conj H5 (conj H6 H7)))))).
  - match eval vm_compute in (widgets one_box !! 0%nat) with
    | Some ?w =>
        destruct (move_without_drag_still_pushes one_box 0%nat w
                    [{| px := 25; py := -10 |}; {| px := 0; py := 0 |}])
          as (s1 & s2 & H1 & H0 & H2 & H3 & H4 & H5 & H6 & H7);
          [reflexivity|reflexivity|reflexivity|vm_compute; discriminate..|by right|]
    end.
    exists s1, s2. exact (conj H1 (conj H0 (conj H3 (conj H4 (conj H5 (conj H6 H7)))))).
Defined.

(** ** Saving: failures and styles *)

Lemma save_loop_raises lib pv bs doc box :
  box ∈ bs -> has_text box = true ->
  load_page_raises lib (page_index (model box)) = true \/
  add_freetext_annot_raises lib (page_index (model box))
    (px_rect_to_pdf_rect pv (rect_px (model box))) (strip (edit_text box)) = true ->
  save_loop lib pv bs doc = None.
Proof.
  intros Hin Ht Hr. revert doc. induction bs as [|b bs IH]; intros doc.
  - by apply elem_of_nil in Hin.
  - simpl. apply elem_of_cons in Hin as [<-|Hin].
    + unfold has_text in Ht. apply negb_true_iff in Ht. rewrite Ht.
      destruct Hr as [Hr|Hr]; rewrite Hr; [done|].
      by destruct (load_page_raises lib _).
    + destruct (String.eqb (strip (edit_text b)) ""); [by apply IH|].
      destruct (load_page_raises lib (page_index (model b))); [done|].
      destruct (add_freetext_annot_raises lib (page_index (model b))
                  (px_rect_to_pdf_rect pv (rect_px (model b))) (strip (edit_text b)));
        [done|].
      by apply IH.
Qed.

(** X9.  When a save fails.  Without a path nothing is done.  With one,
    the save ends in its [except] branch, and not in success, if [open]
    raises, if [saveIncr] raises, or if [load_page] or
    [add_freetext_annot] raises for any one box that has text, whatever the
    other boxes are: unlike a style call, such a call is not skipped. *)
Theorem save_reports_failure (lib : DocLib) (path : string) (pv : PageView) :
  save_pdf lib None pv = NoPath /\
  (open_raises lib = true -> save_pdf lib (Some path) pv = SaveFailed) /\
  (saveIncr_raises lib = true -> save_pdf lib (Some path) pv = SaveFailed) /\
  (forall box,
     box ∈ box_widgets pv -> has_text box = true ->
     load_page_raises lib (page_index (model box)) = true \/
     add_freetext_annot_raises lib (page_index (model box))
       (px_rect_to_pdf_rect pv (rect_px (model box))) (strip (edit_text box)) = true ->
     save_pdf lib (Some path) pv = SaveFailed).
Proof.
  unfold save_pdf. split_and!.
  - done.
  - by intros ->.
  - intros ->. destruct (open_raises lib); [done|]. by destruct (save_loop _ _ _ _).
  - intros box Hin Ht Hr. destruct (open_raises lib); [done|].
    by rewrite (save_loop_raises lib pv _ [] box Hin Ht Hr).
Qed.

Lemma save_reports_failure_witness :
  save_pdf first_page_only_lib (Some "doc.pdf")
    (with_widgets
       (alter (widget_set_model
                 {| page_index := 3; rect_px := QRect.xywh 50 600 300 40;
                    text := "third"; qfont := "Arial"; fontsize_pt := 12 |})
              2%nat (widgets three_boxes)) three_boxes) = SaveFailed.
Proof.
  match goal with |- save_pdf _ _ ?pv = _ =>
    match eval vm_compute in (box_widgets pv !! 2%nat) with
    | Some ?w =>
        destruct (save_reports_failure first_page_only_lib "doc.pdf" pv) as (_ & _ & _ & H);
        apply (H w)
    end
  end.
  - apply list_elem_of_In. vm_compute. tauto.
  - reflexivity.
  - left. reflexivity.
Defined.

(** ** The main window *)

Lemma py_clamp_bounds (lo hi z : Q) :
  (lo <= hi)%Q ->
  (lo <= py_max lo (py_min hi z))%Q /\ (py_max lo (py_min hi z) <= hi)%Q.
Proof.
  intros H. unfold py_max, py_min.
  destruct (Qlt_le_dec z hi); destruct (Qlt_le_dec lo _); split; lra.
Qed.

Lemma py_clamp_id (lo hi z : Q) :
  (lo <= z)%Q -> (z <= hi)%Q -> py_max lo (py_min hi z) = z \/ (z == hi)%Q \/ (z == lo)%Q.
Proof.
  intros H1 H2. unfold py_max, py_min.
  destruct (Qlt_le_dec z hi) as [Hh|Hh].
  - destruct (Qlt_le_dec lo z) as [Hl|Hl]; [by left|]. right. right. lra.
  - right. left. lra.
Qed.

Lemma slider_setValue_range (v : Z) : 25 <= slider_setValue v <= 400.
Proof. unfold slider_setValue. lia. Qed.

Lemma window_ok_render (mw : MainWindow) :
  ((1 # 4) <= _zoom mw)%Q -> (_zoom mw <= 4)%Q ->
  ((1 # 4) <= zoom (page_view mw))%Q -> (zoom (page_view mw) <= 4)%Q ->
  25 <= zoom_slider mw <= 400 ->
  (forall doc, _doc mw = Some doc -> 0 <= _page_index mw < page_count doc) ->
  window_ok (render_current_page mw).
Proof.
  intros Hz1 Hz2 Hp1 Hp2 Hs Hpage. unfold render_current_page.
  destruct (_doc mw) as [doc|] eqn:Hdoc.
  - destruct (get_pixmap_size doc _ _) as [w h]. unfold window_ok. simpl.
    destruct (fit_width mw).
    + destruct (py_clamp_bounds (1 # 4) 4
                  (inject_Z (Z.max 1 (viewport_width mw - 30)) /
                   page_width_pt doc (_page_index mw))) as [Ha Hb]; [lra|].
      specialize (Hpage doc eq_refl). pose proof (slider_setValue_range
        (py_round (_compute_fit_width_zoom mw (page_width_pt doc (_page_index mw)) * 100))).
      unfold _compute_fit_width_zoom in *. split_and!; try done; lia.
    + specialize (Hpage doc eq_refl). split_and!; try done; lia.
  - unfold window_ok. rewrite Hdoc. split_and!; try done; lia.
Qed.

Lemma window_ok_step (e : WindowEvent) (mw : MainWindow) :
  window_ok mw -> opens_nonempty e -> window_ok (window_step e mw).
Proof.
  intros (Hz1 & Hz2 & Hp1 & Hp2 & Hs & Hd) He.
  destruct e as [chosen|z|v|d|row|v]; simpl.
  - unfold open_pdf. destruct chosen as [[path [doc|]]|]; try (by unfold window_ok).
    apply window_ok_render; simpl; try done. intros doc' [= <-]. simpl in He. lia.
  - unfold _set_zoom.
    destruct (py_clamp_bounds (1 # 4) 4 z) as [Ha Hb]; [lra|].
    apply window_ok_render; simpl; try done.
    + apply slider_setValue_range.
    + intros doc Hdoc. rewrite Hdoc in Hd. apply Hd.
  - unfold slider_moved. destruct (_ =? _); [by unfold window_ok|]. unfold _set_zoom.
    destruct (py_clamp_bounds (1 # 4) 4 (inject_Z (slider_setValue v) / 100)) as [Ha Hb];
      [lra|].
    apply window_ok_render; simpl; try done.
    + apply slider_setValue_range.
    + intros doc Hdoc. rewrite Hdoc in Hd. apply Hd.
  - unfold _on_ctrl_wheel_zoom.
    assert (Hmv : forall v', window_ok (slider_moved v' mw)).
    { intros v'. unfold slider_moved. destruct (_ =? _); [by unfold window_ok|].
      unfold _set_zoom.
      destruct (py_clamp_bounds (1 # 4) 4 (inject_Z (slider_setValue v') / 100)) as [Ha Hb];
        [lra|].
      apply window_ok_render; simpl; try done.
      - apply slider_setValue_range.
      - intros doc Hdoc. rewrite Hdoc in Hd. apply Hd. }
    destruct (0 <? d); apply Hmv.
  - unfold _on_thumb_selected. destruct (_doc mw) as [doc|] eqn:Hdoc;
      [|unfold window_ok; by rewrite Hdoc].
    destruct (Z.ltb_spec row 0); simpl; [unfold window_ok; by rewrite Hdoc|].
    destruct (Z.leb_spec (page_count doc) row); [unfold window_ok; by rewrite Hdoc|].
    apply window_ok_render; simpl; try done. intros doc' [= <-]. lia.
  - unfold resizeEvent. simpl. destruct (fit_width mw); [|by unfold window_ok].
    apply window_ok_render; simpl; try done.
    intros doc Hdoc. rewrite Hdoc in Hd. apply Hd.
Qed.

(** X12.  Through any sequence of opening documents (each with at least
    one page), setting the zoom, moving the slider, Ctrl-wheel steps,
    thumbnail selections and resizes, the window's zoom stays within 0.25
    and 4, and so does the zoom of the page view, which
    [px_rect_to_pdf_rect] divides by; the slider stays within 25 and 400;
    and while a document is open the page index is one of its pages and
    the page view shows that page at the window's zoom. *)
Theorem window_keeps_zoom_and_page_in_range (es : list WindowEvent) (viewport : Z) :
  Forall opens_nonempty es ->
  window_ok (run_window_events es (MainWindow_init viewport)).
Proof.
  assert (Hinit : window_ok (MainWindow_init viewport)).
  { unfold window_ok. simpl. split_and!; try done; lia. }
  revert Hinit. generalize (MainWindow_init viewport).
  induction es as [|e es IH]; intros mw Hok Hes; [done|].
  apply Forall_cons in Hes as [He Hes]. simpl. apply IH; [|done].
  by apply window_ok_step.
Qed.

Lemma window_keeps_zoom_and_page_in_range_witness :
  window_ok
    (run_window_events
       [WOpen (Some ("doc.pdf", Some sample_document)); WWheel 120; WSetZoom 9;
        WThumb 3; WResize 500]
       (MainWindow_init 830)).
Proof.
  apply (window_keeps_zoom_and_page_in_range _ 830).
  repeat constructor. simpl. lia.
Defined.

(** X13.  In [p4.py], with a document of at least one page open,
    [set_zoom] leaves the zoom within 0.5 and 6, [go_page] leaves the page
    index at the requested one clamped into the document's pages, and both
    re-render, so that the page view shows that page at that zoom, unless
    [go_page] finds the clamped index to be the current one and does
    nothing.  With no document open both do nothing. *)
Theorem p4_zoom_and_page (mw : MainWindow) (z : Q) (idx : Z) :
  (_doc mw = None -> set_zoom z mw = mw /\ go_page idx mw = mw) /\
  (forall doc, _doc mw = Some doc -> 1 <= page_count doc ->
     ((1 # 2) <= _zoom (set_zoom z mw))%Q /\ (_zoom (set_zoom z mw) <= 6)%Q /\
     zoom (page_view (set_zoom z mw)) = _zoom (set_zoom z mw) /\
     _page_index (set_zoom z mw) = _page_index mw /\
     _page_index (go_page idx mw) = Z.max 0 (Z.min (page_count doc - 1) idx) /\
     0 <= _page_index (go_page idx mw) < page_count doc /\
     (go_page idx mw = mw \/
      pv_page_index (page_view (go_page idx mw)) = _page_index (go_page idx mw))).
Proof.
  split.
  - intros Hdoc. unfold set_zoom, go_page. by rewrite Hdoc.
  - intros doc Hdoc Hpc. unfold set_zoom, go_page, p4_render_current_page.
    rewrite Hdoc. simpl. rewrite ?Hdoc.
    destruct (py_clamp_bounds (1 # 2) 6 z) as [Ha Hb]; [lra|].
    destruct (get_pixmap_size doc (_page_index mw) _) as [w h]. simpl.
    destruct (Z.eqb_spec (Z.max 0 (Z.min (page_count doc - 1) idx)) (_page_index mw))
      as [He|Hne].
    + split_and!; try done; try lia; try (by left).
    + simpl. rewrite ?Hdoc. destruct (get_pixmap_size doc _ _) as [w' h']. simpl.
      split_and!; try done; try lia; try (by right).
Qed.

Lemma p4_zoom_and_page_witness :
  (_zoom (set_zoom 9 p4_sample_window) == 6)%Q /\
  zoom (page_view (set_zoom 9 p4_sample_window)) = _zoom (set_zoom 9 p4_sample_window) /\
  _page_index (set_zoom 9 p4_sample_window) = 0 /\
  _page_index (go_page 7 p4_sample_window) = 2 /\
  pv_page_index (page_view (go_page 7 p4_sample_window)) = 2 /\
  _page_index (go_page (-4) p4_sample_window) = 0.
Proof.
  destruct (p4_zoom_and_page p4_sample_window 9 7) as [_ H].
  destruct (H three_page_document eq_refl) as (_ & _ & Hz & Hp & Hg & _ & Hv);
    [simpl; lia|].
  destruct (p4_zoom_and_page p4_sample_window 9 (-4)) as [_ H'].
  destruct (H' three_page_document eq_refl) as (_ & _ & _ & _ & Hg' & _); [simpl; lia|].
  split; [vm_compute; reflexivity|]. split; [exact Hz|]. split; [exact Hp|].
  split; [exact Hg|]. split; [|exact Hg'].
  destruct Hv as [Hv|Hv]; [|by rewrite Hv, Hg].
  rewrite Hv in Hg. vm_compute in Hg. discriminate Hg.
Defined.

Lemma render_current_page_keeps_manual_zoom (mw : MainWindow) :
  fit_width mw = false ->
  _zoom (render_current_page mw) = _zoom mw /\
  zoom_slider (render_current_page mw) = zoom_slider mw /\
  fit_width (render_current_page mw) = false.
Proof.
  intros Hf. unfold render_current_page. destruct (_doc mw); [|done].
  rewrite Hf. by destruct (get_pixmap_size _ _ _).
Qed.

(** X14.  A Ctrl-wheel step moves the slider by 10 towards 400 (wheel up)
    or 25 (wheel down), stopping there.  If the slider was already at that
    end nothing changes; otherwise the zoom becomes the new slider value
    over 100 and fit-to-width is switched off. *)
Theorem ctrl_wheel_steps_by_ten (delta_y : Z) (mw : MainWindow) :
  25 <= zoom_slider mw <= 400 ->
  let v := zoom_slider mw in
  let mw1 := _on_ctrl_wheel_zoom delta_y mw in
  zoom_slider mw1 = (if 0 <? delta_y then Z.min 400 (v + 10) else Z.max 25 (v - 10)) /\
  (zoom_slider mw1 = v -> mw1 = mw) /\
  (zoom_slider mw1 <> v ->
   (_zoom mw1 == inject_Z (zoom_slider mw1) / 100)%Q /\ fit_width mw1 = false).
Proof.
  intros Hs v mw1. subst v mw1. unfold _on_ctrl_wheel_zoom.
  assert (Hmv : forall v', 25 <= v' <= 400 ->
    zoom_slider (slider_moved v' mw) = v' /\
    (v' = zoom_slider mw -> slider_moved v' mw = mw) /\
    (v' <> zoom_slider mw ->
     (_zoom (slider_moved v' mw) == inject_Z v' / 100)%Q /\
     fit_width (slider_moved v' mw) = false)).
  { intros v' Hv'. unfold slider_moved.
    assert (Hset : slider_setValue v' = v') by (unfold slider_setValue; lia).
    rewrite Hset. destruct (Z.eqb_spec v' (zoom_slider mw)) as [He|Hne].
    - split_and!; try done.
    - unfold _set_zoom.
      match goal with |- context [render_current_page ?m] =>
        destruct (render_current_page_keeps_manual_zoom m eq_refl) as (Hz & Hsl & Hfw)
      end.
      rewrite Hz, Hsl, Hfw. simpl. split_and!; try done. intros _. split; [|done].
      assert (H1 : ((1 # 4) <= inject_Z v' / 100)%Q)
        by (unfold Qle, Qdiv, Qmult, Qinv, inject_Z; simpl; lia).
      assert (H2 : (inject_Z v' / 100 <= 4)%Q)
        by (unfold Qle, Qdiv, Qmult, Qinv, inject_Z; simpl; lia).
      destruct (py_clamp_id (1 # 4) 4 (inject_Z v' / 100) H1 H2) as [->|[H|H]];
        [reflexivity| |].
      + unfold py_max, py_min.
        destruct (Qlt_le_dec (inject_Z v' / 100) 4); [lra|].
        destruct (Qlt_le_dec (1 # 4) 4); [|lra]. by symmetry.
      + unfold py_max, py_min.
        destruct (Qlt_le_dec (inject_Z v' / 100) 4); [|lra].
        destruct (Qlt_le_dec (1 # 4) (inject_Z v' / 100)); [lra|]. by symmetry. }
  destruct (0 <? delta_y).
  - destruct (Hmv (Z.min 400 (zoom_slider mw + 10))) as (H1 & H2 & H3); [lia|].
    rewrite H1. split_and!; [done| |]; intros H.
    + by apply H2.
    + by apply H3.
  - destruct (Hmv (Z.max 25 (zoom_slider mw - 10))) as (H1 & H2 & H3); [lia|].
    rewrite H1. split_and!; [done| |]; intros H.
    + by apply H2.
    + by apply H3.
Qed.

Lemma ctrl_wheel_steps_by_ten_witness :
  let mw1 := _on_ctrl_wheel_zoom 120 sample_window in
  zoom_slider mw1 = Z.min 400 (zoom_slider sample_window + 10) /\
  (zoom_slider mw1 = zoom_slider sample_window -> mw1 = sample_window) /\
  (zoom_slider mw1 <> zoom_slider sample_window ->
   (_zoom mw1 == inject_Z (zoom_slider mw1) / 100)%Q /\ fit_width mw1 = false).
Proof.
  apply (ctrl_wheel_steps_by_ten 120 sample_window). vm_compute.
  split; discriminate.
Defined.
